(** * Intelligent RAG Assistant: the retrieval-augmented generation pipeline

    A shallow embedding of [backend/rag_pipeline.py] (class [RAGPipeline]):
    the chunker, the hash-based fallback embedding, the per-user vector
    collections, retrieval, context assembly and the generation fallback
    chain, followed by the properties the specification states about them.

    Conventions of the embedding.
    - A Python [str] is a [list ascii]; a character is a code point of the
      Latin-1 range (0..255).  [len], slicing, [rfind], [strip], [lower] and
      [in] are written out below with Python's meaning on that range.
    - Python integers used as indices are in [Z] ([rfind] answers [-1]).
    - Python floats are binary64 numbers: Rocq's primitive [float].  The
      vector store keeps the components of an embedding in single
      precision.
    - An exception is the value [Raise msg], where [msg] is [str(e)]: the
      code only ever inspects the text of an exception.
    - The services the class talks to (the generative model, the remote and
      local embedding models, the nearest-neighbour search of the vector
      store) are fields of a record [Services]; the collections of the
      vector store are a finite map from collection names to collections. *)

From Stdlib Require Import ZArith List Ascii String Bool Lia PrimFloat Uint63.
From Stdlib Require Import FloatOps SpecFloat.
From Stdlib Require Import DecimalString DecimalNat.
From stdpp Require Import gmap strings list.

Local Open Scope Z_scope.

Abbreviation str := (list ascii).

(** ** Python string primitives *)

Module Py.

(** A string literal of the source. *)
Definition lit (s : string) : str := list_ascii_of_string s.

(** [len(s)] *)
Definition len (s : str) : Z := Z.of_nat (length s).

(** Index normalisation of a slice bound: negative bounds count from the
    end, and the result is clamped to [0, len]. *)
Definition clamp (n : Z) (i : Z) : Z :=
  let i := if i <? 0 then i + n else i in
  Z.max 0 (Z.min i n).

(** [s[start:stop]] *)
Definition slice (s : str) (start stop : Z) : str :=
  let lo := clamp (len s) start in
  let hi := clamp (len s) stop in
  firstn (Z.to_nat (hi - lo)) (skipn (Z.to_nat lo) s).

(** [s[:n]] *)
Definition prefix (s : str) (n : Z) : str := slice s 0 n.

(** Scan of [rfind]: [i] is the index of the head of [s]; [best] is the
    highest matching index seen so far. *)
Fixpoint rfind_scan (s : str) (c : ascii) (i lo hi best : Z) : Z :=
  match s with
  | [] => best
  | x :: s' =>
      rfind_scan s' c (i + 1) lo hi
        (if (lo <=? i) && (i <? hi) && Ascii.eqb x c then i else best)
  end.

(** [s.rfind(c, start, stop)] for a one-character [c]: the highest index
    [i] with [start <= i < stop] and [s[i] == c], or [-1]. *)
Definition rfind (s : str) (c : ascii) (start stop : Z) : Z :=
  rfind_scan s c 0 (clamp (len s) start) (clamp (len s) stop) (-1).

(** [c.isspace()] on the Latin-1 range: TAB, LF, VT, FF, CR, the four
    separators FS, GS, RS, US, space, NEL and no-break space. *)
Definition isspace (c : ascii) : bool :=
  let n := Z.of_nat (nat_of_ascii c) in
  ((9 <=? n) && (n <=? 13)) || ((28 <=? n) && (n <=? 32))
  || (n =? 133) || (n =? 160).

Fixpoint lstrip (s : str) : str :=
  match s with
  | c :: s' => if isspace c then lstrip s' else s
  | [] => []
  end.

Definition rstrip (s : str) : str := rev (lstrip (rev s)).

(** [s.strip()] *)
Definition strip (s : str) : str := rstrip (lstrip s).

(** Truth value of a string: [if s:] *)
Definition truthy (s : str) : bool :=
  match s with [] => false | _ => true end.

(** [c.lower()] on the Latin-1 range: A..Z and the accented capitals
    0xC0..0xDE except the multiplication sign 0xD7 move up by 32. *)
Definition lower_char (c : ascii) : ascii :=
  let n := Z.of_nat (nat_of_ascii c) in
  if ((65 <=? n) && (n <=? 90))
     || ((192 <=? n) && (n <=? 222) && negb (n =? 215))
  then ascii_of_nat (Z.to_nat (n + 32)) else c.

(** [s.lower()] *)
Definition lower (s : str) : str := map lower_char s.

Fixpoint starts_with (sub s : str) : bool :=
  match sub, s with
  | [], _ => true
  | _ :: _, [] => false
  | a :: sub', b :: s' => Ascii.eqb a b && starts_with sub' s'
  end.

(** [sub in s] *)
Fixpoint contains (sub s : str) : bool :=
  starts_with sub s
  || match s with
     | [] => false
     | _ :: s' => contains sub s'
     end.

(** [sep.join(parts)] *)
Fixpoint join (sep : str) (parts : list str) : str :=
  match parts with
  | [] => []
  | [p] => p
  | p :: ps => p ++ sep ++ join sep ps
  end.

(** [s.encode()]: the UTF-8 bytes of [s]; a code point below 128 is one
    byte, one of 128..255 is two. *)
Definition encode_char (c : ascii) : list Z :=
  let n := Z.of_nat (nat_of_ascii c) in
  if n <? 128 then [n]
  else [Z.lor 192 (Z.shiftr n 6); Z.lor 128 (Z.land n 63)].

Definition encode (s : str) : list Z := flat_map encode_char s.

(** [range(start, stop, step)] for a positive [step]. *)
Definition range (start stop step : Z) : list Z :=
  map (fun k => start + step * Z.of_nat k)
      (seq 0 (Z.to_nat ((stop - start + step - 1) / step))).

(** [float(n)] for an integer below 2^63. *)
Definition float_of_int (n : Z) : float := PrimFloat.of_uint63 (Uint63.of_Z n).

End Py.

(** ** Exceptions *)

(** The outcome of a call: a value, or an exception with its text. *)
Inductive result (A : Type) : Type :=
  | Ok (a : A)
  | Raise (msg : str).
Arguments Ok {A} a.
Arguments Raise {A} msg.

#[export] Instance result_ret : MRet result := fun A a => Ok a.
#[export] Instance result_bind : MBind result := fun A B f r =>
  match r with
  | Ok a => f a
  | Raise msg => Raise msg
  end.
#[export] Instance result_fmap : FMap result := fun A B f r =>
  match r with
  | Ok a => Ok (f a)
  | Raise msg => Raise msg
  end.

(** [for x in xs: ys.append(f(x))], stopping at the first exception. *)
Fixpoint traverse {A B : Type} (f : A -> result B) (xs : list A)
    : result (list B) :=
  match xs with
  | [] => Ok []
  | x :: xs' =>
      match f x with
      | Raise msg => Raise msg
      | Ok y =>
          match traverse f xs' with
          | Raise msg => Raise msg
          | Ok ys => Ok (y :: ys)
          end
      end
  end.

(** ** [hashlib.md5]: the MD5 message digest (RFC 1321)

    Words are 32-bit, in [Z] with the wrap-around written out; bytes are
    integers 0..255. *)

Module MD5.

Definition wrap (x : Z) : Z := x mod 2 ^ 32.

Definition lnot32 (x : Z) : Z := Z.lxor x 0xffffffff.

Definition rotl (x c : Z) : Z :=
  wrap (Z.lor (Z.shiftl x c) (Z.shiftr x (32 - c))).

Definition s_table : list Z :=
  [ 7; 12; 17; 22; 7; 12; 17; 22; 7; 12; 17; 22; 7; 12; 17; 22;
    5; 9; 14; 20; 5; 9; 14; 20; 5; 9; 14; 20; 5; 9; 14; 20;
    4; 11; 16; 23; 4; 11; 16; 23; 4; 11; 16; 23; 4; 11; 16; 23;
    6; 10; 15; 21; 6; 10; 15; 21; 6; 10; 15; 21; 6; 10; 15; 21 ].

Definition k_table : list Z :=
  [ 0xd76aa478; 0xe8c7b756; 0x242070db; 0xc1bdceee;
    0xf57c0faf; 0x4787c62a; 0xa8304613; 0xfd469501;
    0x698098d8; 0x8b44f7af; 0xffff5bb1; 0x895cd7be;
    0x6b901122; 0xfd987193; 0xa679438e; 0x49b40821;
    0xf61e2562; 0xc040b340; 0x265e5a51; 0xe9b6c7aa;
    0xd62f105d; 0x02441453; 0xd8a1e681; 0xe7d3fbc8;
    0x21e1cde6; 0xc33707d6; 0xf4d50d87; 0x455a14ed;
    0xa9e3e905; 0xfcefa3f8; 0x676f02d9; 0x8d2a4c8a;
    0xfffa3942; 0x8771f681; 0x6d9d6122; 0xfde5380c;
    0xa4beea44; 0x4bdecfa9; 0xf6bb4b60; 0xbebfbc70;
    0x289b7ec6; 0xeaa127fa; 0xd4ef3085; 0x04881d05;
    0xd9d4d039; 0xe6db99e5; 0x1fa27cf8; 0xc4ac5665;
    0xf4292244; 0x432aff97; 0xab9423a7; 0xfc93a039;
    0x655b59c3; 0x8f0ccc92; 0xffeff47d; 0x85845dd1;
    0x6fa87e4f; 0xfe2ce6e0; 0xa3014314; 0x4e0811a1;
    0xf7537e82; 0xbd3af235; 0x2ad7d2bb; 0xeb86d391 ].

(** The [n] low bytes of [x], least significant first. *)
Definition le_bytes (n : nat) (x : Z) : list Z :=
  map (fun k => Z.shiftr x (8 * Z.of_nat k) mod 256) (seq 0 n).

(** Padding: a 1 bit, zeros up to 56 modulo 64, the bit length on 8 bytes. *)
Definition pad (msg : list Z) : list Z :=
  let n := Z.of_nat (length msg) in
  msg ++ [0x80] ++ repeat 0 (Z.to_nat ((55 - n) mod 64)) ++ le_bytes 8 (8 * n).

Fixpoint words (bytes : list Z) : list Z :=
  match bytes with
  | b0 :: b1 :: b2 :: b3 :: rest =>
      (b0 + Z.shiftl b1 8 + Z.shiftl b2 16 + Z.shiftl b3 24) :: words rest
  | _ => []
  end.

Fixpoint blocks (fuel : nat) (ws : list Z) : list (list Z) :=
  match fuel, ws with
  | S fuel', _ :: _ => firstn 16 ws :: blocks fuel' (skipn 16 ws)
  | _, _ => []
  end.

Definition step (m : list Z) (st : Z * Z * Z * Z) (i : nat) : Z * Z * Z * Z :=
  let '(a, b, c, d) := st in
  let iz := Z.of_nat i in
  let '(f, g) :=
    if iz <? 16 then (Z.lor (Z.land b c) (Z.land (lnot32 b) d), iz)
    else if iz <? 32 then
      (Z.lor (Z.land d b) (Z.land (lnot32 d) c), (5 * iz + 1) mod 16)
    else if iz <? 48 then (Z.lxor (Z.lxor b c) d, (3 * iz + 5) mod 16)
    else (Z.lxor c (Z.lor b (lnot32 d)), (7 * iz) mod 16) in
  let f := wrap (f + a + nth i k_table 0 + nth (Z.to_nat g) m 0) in
  (d, wrap (b + rotl f (nth i s_table 0)), b, c).

Definition process_block (st : Z * Z * Z * Z) (m : list Z) : Z * Z * Z * Z :=
  let '(a0, b0, c0, d0) := st in
  let '(a, b, c, d) := fold_left (step m) (seq 0 64) st in
  (wrap (a0 + a), wrap (b0 + b), wrap (c0 + c), wrap (d0 + d)).

Definition initial : Z * Z * Z * Z :=
  (0x67452301, 0xefcdab89, 0x98badcfe, 0x10325476).

(** [hashlib.md5(msg).digest()] *)
Definition digest (msg : list Z) : list Z :=
  let ws := words (pad msg) in
  let '(a, b, c, d) := fold_left process_block (blocks (length ws) ws) initial in
  le_bytes 4 a ++ le_bytes 4 b ++ le_bytes 4 c ++ le_bytes 4 d.

Definition hex_digit (d : Z) : ascii :=
  nth (Z.to_nat d) (Py.lit "0123456789abcdef") "0"%char.

(** [hashlib.md5(msg).hexdigest()] *)
Definition hexdigest (msg : list Z) : str :=
  flat_map (fun b => [hex_digit (b / 16); hex_digit (b mod 16)]) (digest msg).

End MD5.

(** ** The chunker: [RAGPipeline.chunk_text] *)

Module Chunker.

Section WithParameters.

(** [self.chunk_size] and [self.chunk_overlap] *)
Variables chunk_size chunk_overlap : Z.

(** The end of the window that starts at [start]: the raw edge
    [start + chunk_size], moved back to just after the last full stop,
    or else to the last space, when that lies past the middle of the
    window and the window does not reach the end of the text. *)
Definition window_end (text : str) (start : Z) : Z :=
  let end_ := start + chunk_size in
  if end_ <? Py.len text then
    let sentence_end := Py.rfind text "." start end_ in
    if sentence_end >? start + chunk_size / 2 then sentence_end + 1
    else
      let word_end := Py.rfind text " " start end_ in
      if word_end >? start + chunk_size / 2 then word_end else end_
  else end_.

(** The [while] loop.  [fuel] bounds the number of iterations; [None]
    means that the loop was still running when the fuel ran out. *)
Fixpoint chunk_loop (fuel : nat) (text : str) (start : Z)
    (chunks : list str) : option (list str) :=
  match fuel with
  | O => None
  | S fuel' =>
      if start <? Py.len text then
        let end_ := window_end text start in
        let chunk := Py.strip (Py.slice text start end_) in
        let chunks := if Py.truthy chunk then chunks ++ [chunk] else chunks in
        let start := end_ - chunk_overlap in
        if start >=? Py.len text then Some chunks
        else chunk_loop fuel' text start chunks
      else Some chunks
  end.

(** The same loop, recording the windows [(start, end)] it visits
    instead of the chunks it cuts from them. *)
Fixpoint window_loop (fuel : nat) (text : str) (start : Z)
    (windows : list (Z * Z)) : option (list (Z * Z)) :=
  match fuel with
  | O => None
  | S fuel' =>
      if start <? Py.len text then
        let end_ := window_end text start in
        let windows := windows ++ [(start, end_)] in
        let start := end_ - chunk_overlap in
        if start >=? Py.len text then Some windows
        else window_loop fuel' text start windows
      else Some windows
  end.

Definition chunk_text_fuel (fuel : nat) (text : str) : option (list str) :=
  if Py.len text <=? chunk_size then Some [text]
  else chunk_loop fuel text 0 [].

Definition windows_fuel (fuel : nat) (text : str) : option (list (Z * Z)) :=
  if Py.len text <=? chunk_size then Some [(0, Py.len text)]
  else window_loop fuel text 0 [].

End WithParameters.

(** The values set in [__init__]. *)
Definition default_chunk_size : Z := 1000.
Definition default_chunk_overlap : Z := 200.

(** [chunk_text] of a pipeline built by [__init__], run with one unit of
    fuel per character of the text and one to spare. *)
Definition chunk_text (text : str) : option (list str) :=
  chunk_text_fuel default_chunk_size default_chunk_overlap
    (S (length text)) text.

Definition windows (text : str) : option (list (Z * Z)) :=
  windows_fuel default_chunk_size default_chunk_overlap
    (S (length text)) text.

End Chunker.

(** ** The hash-based fallback embedding: [RAGPipeline._generate_hash_embeddings] *)

Module HashEmbedding.

Definition hex_value (c : ascii) : option Z :=
  let n := Z.of_nat (nat_of_ascii c) in
  if (48 <=? n) && (n <=? 57) then Some (n - 48)
  else if (97 <=? n) && (n <=? 102) then Some (n - 87)
  else if (65 <=? n) && (n <=? 70) then Some (n - 55)
  else None.

Definition value_error : str := Py.lit "invalid literal for int() with base 16".

Fixpoint int16_digits (acc : Z) (s : str) : result Z :=
  match s with
  | [] => Ok acc
  | c :: s' =>
      match hex_value c with
      | Some d => int16_digits (16 * acc + d) s'
      | None => Raise value_error
      end
  end.

(** [int(s, 16)] on a string of hexadecimal digits; [ValueError] on the
    empty string and on any other character. *)
Definition int16 (s : str) : result Z :=
  match s with
  | [] => Raise value_error
  | _ => int16_digits 0 s
  end.

(** The embedding dimension. *)
Definition dimension : nat := 384.

(** [while len(embedding) < 384: embedding.append(0.0)] *)
Definition pad (embedding : list float) : list float :=
  embedding ++ repeat 0%float (dimension - length embedding).

(** The body of the loop over [texts]: the embedding of one text. *)
Definition hash_embedding (text : str) : result (list float) :=
  let text_hash := MD5.hexdigest (Py.encode text) in
  embedding ←
    traverse
      (fun i => n ← int16 (Py.slice text_hash i (i + 2));
                mret (Py.float_of_int n / 255)%float)
      (Py.range 0 (Z.min (Py.len text_hash) 384) 2);
  mret (firstn dimension (pad embedding)).

Definition _generate_hash_embeddings (texts : list str)
    : result (list (list float)) :=
  traverse hash_embedding texts.

(** A float of the closed interval [0, 1]. *)
Definition in_unit_interval (x : float) : bool :=
  ((0 <=? x) && (x <=? 1))%float.

Definition is_zero (x : float) : bool := (x =? 0)%float.

End HashEmbedding.

(** ** The vector store (ChromaDB collections) *)

Module VectorStore.

(** The metadata dictionary [add_document] attaches to every chunk. *)
Record Metadata : Type := {
  content_id : str;
  source : str;
  content_type : str;
  chunk_index : Z;
  total_chunks : Z;
  chunk_length : Z
}.

(** The single-precision number nearest to [x] (ties to even; infinite
    past the single-precision range), as a Python float: what
    [numpy.float32(x)] holds. *)
Definition float32 (x : float) : float :=
  match Prim2SF x with
  | S754_finite s m e =>
      SF2Prim (binary_normalize 24 128 (cond_Zopp s (Zpos m)) e s)
  | _ => x
  end.

(** The store keeps an embedding as an array of single-precision floats. *)
Definition stored_vector (embedding : list float) : list float :=
  map float32 embedding.

(** What a collection keeps under a chunk id. *)
Record Entry : Type := {
  embedding : list float;
  document : str;
  metadata : Metadata
}.

(** A collection maps chunk ids to entries; the store maps collection
    names to collections. *)
Abbreviation Collection := (gmap str Entry).
Abbreviation Store := (gmap str Collection).

(** [collection.count()] *)
Definition count (c : Collection) : Z := Z.of_nat (size c).

(** [collection.get(where={"content_id": cid})["ids"]] *)
Definition get_ids_where_content_id (c : Collection) (cid : str) : list str :=
  (map_to_list (filter (fun kv => content_id (metadata kv.2) = cid) c)).*1.

(** [collection.delete(ids=ids)] *)
Definition delete_ids (c : Collection) (ids : list str) : Collection :=
  foldr delete c ids.

(** The answer of [collection.query]: one inner list per query embedding. *)
Record QueryResult : Type := {
  documents : list (list str);
  metadatas : list (list Metadata);
  distances : list (list float)
}.

End VectorStore.

Import VectorStore.

(** ** External services and the state of the world *)

(** The services behind the pipeline.  [generate_content n prompt] is the
    outcome of the [n]-th call (counting from 0) of
    [gemini_model.generate_content(prompt).text] since the world began;
    [embed_content] is [genai.embed_content(...)["embedding"]];
    [encode] is [SentenceTransformer.encode(texts).tolist()];
    [query_index] is the nearest-neighbour search of [collection.query]. *)
Record Services : Type := {
  generate_content : nat -> str -> result str;
  embed_content : str -> result (list float);
  encode : list str -> result (list (list float));
  query_index : Collection -> list (list float) -> Z -> result QueryResult
}.

(** The three configurations [__init__] can leave in
    [(embedding_model, use_fallback_embeddings)]:
    [(genai.embed_content, False)], [(SentenceTransformer, True)] and
    [(None, False)]. *)
Inductive EmbeddingModel : Type := GeminiEmbedding | SentenceTransformer | NoModel.

Record World : Type := {
  collections : Store;
  generate_calls : nat
}.

(** The world after one more call of [generate_content]. *)
Definition count_call (w : World) : World :=
  {| collections := collections w; generate_calls := S (generate_calls w) |}.

(** A method body: it reads and updates the world, and returns or raises. *)
Definition M (A : Type) : Type := World -> result A * World.

Definition ret {A : Type} (a : A) : M A := fun w => (Ok a, w).

Definition raise {A : Type} (msg : str) : M A := fun w => (Raise msg, w).

Definition bind {A B : Type} (m : M A) (k : A -> M B) : M B := fun w =>
  match m w with
  | (Ok a, w') => k a w'
  | (Raise msg, w') => (Raise msg, w')
  end.

(** [try: body except Exception as e: handler(str(e))] *)
Definition try_except {A : Type} (body : M A) (handler : str -> M A) : M A :=
  fun w =>
    match body w with
    | (Ok a, w') => (Ok a, w')
    | (Raise msg, w') => handler msg w'
    end.

(** A call that does not touch the world. *)
Definition lift {A : Type} (r : result A) : M A := fun w => (r, w).

Notation "'let*' x := m 'in' k" := (bind m (fun x => k))
  (at level 10, x name, m at level 100, k at level 200, only parsing).

(** ** The pipeline: class [RAGPipeline] *)

Module Pipeline.

(** A retrieved chunk: the dictionary [{"content", "metadata", "distance"}]
    built by [search_relevant_chunks]. *)
Record Chunk : Type := {
  content : str;
  chunk_metadata : Metadata;
  distance : float
}.

(** A source reference: the dictionary
    [{"source", "content_type", "relevance_score"}] of [generate_rag_response]. *)
Record SourceRef : Type := {
  ref_source : str;
  ref_content_type : str;
  relevance_score : float
}.

Definition newline : str := ["010"%char].

(** [l[i]] *)
Definition index {A : Type} (l : list A) (i : nat) : result A :=
  match l !! i with
  | Some x => Ok x
  | None => Raise (Py.lit "list index out of range")
  end.

(** [enumerate(l)] *)
Definition enumerate {A : Type} (l : list A) : list (nat * A) :=
  zip (seq 0 (length l)) l.

(** [top_k: int = 5] *)
Definition default_top_k : Z := 5.

Definition max_context_length : Z := 2000.

(** The texts [generate_general_response] answers with when the generation
    call fails. *)
Definition msg_api_key : str :=
  Py.lit "I'm sorry, but there's an issue with the AI service configuration. Please check the API key.".
Definition msg_quota : str :=
  Py.lit "I'm having trouble processing your request right now. Please try again shortly.".
Definition msg_404 : str :=
  Py.lit "I'm experiencing a temporary service issue. Please try again in a few moments.".
Definition msg_timeout : str :=
  Py.lit "The request timed out. Please try again with a shorter query.".
Definition msg_unknown (e : str) : str :=
  Py.lit "I encountered an error: " ++ Py.prefix e 100
  ++ Py.lit "... Please try again.".

Definition quota_note : str :=
  newline ++ newline
  ++ Py.lit "Note: Document-based responses are temporarily unavailable due to API limits.".

(** The [except] branch of [generate_general_response], on the text [e] of
    the exception. *)
Definition classify_error (e : str) : str :=
  if Py.contains (Py.lit "API key not valid") e then msg_api_key
  else if Py.contains (Py.lit "quota") (Py.lower e)
          || Py.contains (Py.lit "429") e then msg_quota
  else if Py.contains (Py.lit "404") e then msg_404
  else if Py.contains (Py.lit "timeout") (Py.lower e) then msg_timeout
  else msg_unknown e.

(** The prompt of a grounded generation. *)
Definition rag_prompt (context query : str) : str :=
  Py.lit "Based on the following context from the user's documents, answer the query. If the context doesn't contain enough information to answer the query, say so and provide a general response."
  ++ newline ++ newline ++ Py.lit "Context:" ++ newline ++ context
  ++ newline ++ newline ++ Py.lit "Query: " ++ query
  ++ newline ++ newline
  ++ Py.lit "Please provide a helpful response based on the context above. If you reference specific information, mention which source it came from.".

(** The source reference of an included chunk. *)
Definition source_ref (chunk : Chunk) : SourceRef :=
  {| ref_source := source (chunk_metadata chunk);
     ref_content_type := content_type (chunk_metadata chunk);
     relevance_score := (1 - distance chunk)%float |}.

(** The context loop of [generate_rag_response]: chunks are taken in order
    until one would push the total length over [max_context_length]. *)
Fixpoint assemble_loop (relevant_chunks : list Chunk) (current_length : Z)
    (context_parts : list str) (sources : list SourceRef)
    : list str * list SourceRef :=
  match relevant_chunks with
  | [] => (context_parts, sources)
  | chunk :: rest =>
      if current_length + Py.len (content chunk) >? max_context_length
      then (context_parts, sources)
      else assemble_loop rest (current_length + Py.len (content chunk))
             (context_parts ++ [content chunk]) (sources ++ [source_ref chunk])
  end.

Definition assemble (relevant_chunks : list Chunk) : list str * list SourceRef :=
  assemble_loop relevant_chunks 0 [] [].

(** The formatting loop of [search_relevant_chunks]. *)
Definition format_results (results : QueryResult) : result (list Chunk) :=
  match documents results with
  | (_ :: _) as docs :: _ =>
      traverse
        (fun '(i, doc) =>
           metas ← index (metadatas results) 0;
           meta ← index metas i;
           dist ← match distances results with
                  | [] => Ok 0%float
                  | dists :: _ => index dists i
                  end;
           mret {| content := doc; chunk_metadata := meta; distance := dist |})
        (enumerate docs)
  | _ => Ok []
  end.

Section WithServices.

Variable svc : Services.
Variable embedding_model : EmbeddingModel.

(** [collection_name = f"user_{user_id}"] *)
Definition collection_name (user_id : str) : str := Py.lit "user_" ++ user_id.

Definition no_collection {A : Type} (handle : str) : M A :=
  raise (Py.lit "Collection " ++ handle ++ Py.lit " does not exist.").

(** [get_user_collection]: the collection object is a handle on the store,
    here its name; the lookup fails when the store has no such collection. *)
Definition get_user_collection (user_id : str) : M str := fun w =>
  let name := collection_name user_id in
  match collections w !! name with
  | Some _ => (Ok name, w)
  | None => no_collection name w
  end.

(** Reading the collection behind a handle. *)
Definition read_collection {A : Type} (handle : str)
    (f : Collection -> result A) : M A := fun w =>
  match collections w !! handle with
  | Some c => (f c, w)
  | None => no_collection handle w
  end.

(** Updating the collection behind a handle. *)
Definition update_collection (handle : str) (f : Collection -> Collection)
    : M unit := fun w =>
  match collections w !! handle with
  | Some c =>
      (Ok tt, {| collections := <[handle := f c]> (collections w);
                 generate_calls := generate_calls w |})
  | None => no_collection handle w
  end.

Definition collection_count (handle : str) : M Z :=
  read_collection handle (fun c => Ok (VectorStore.count c)).

Definition collection_get (handle : str) (cid : str) : M (list str) :=
  read_collection handle (fun c => Ok (get_ids_where_content_id c cid)).

Definition collection_delete (handle : str) (ids : list str) : M unit :=
  update_collection handle (fun c => delete_ids c ids).

Definition collection_query (handle : str) (query_embeddings : list (list float))
    (n_results : Z) : M QueryResult :=
  read_collection handle (fun c => query_index svc c query_embeddings n_results).

(** [self.gemini_model.generate_content(prompt).text] *)
Definition gemini_generate (prompt : str) : M str := fun w =>
  (generate_content svc (generate_calls w) prompt, count_call w).

(** [generate_embeddings] *)
Definition generate_embeddings (texts : list str) : result (list (list float)) :=
  let attempt :=
    match embedding_model with
    | NoModel => HashEmbedding._generate_hash_embeddings texts
    | SentenceTransformer => encode svc texts
    | GeminiEmbedding =>
        traverse
          (fun text =>
             match embed_content svc text with
             | Ok e => Ok e
             | Raise e =>
                 if Py.contains (Py.lit "quota") (Py.lower e)
                    || Py.contains (Py.lit "429") e
                 then hashed ← HashEmbedding._generate_hash_embeddings [text];
                      index hashed 0
                 else Raise e
             end)
          texts
    end in
  match attempt with
  | Ok embeddings => Ok embeddings
  | Raise _ => HashEmbedding._generate_hash_embeddings texts
  end.

(** [search_relevant_chunks] *)
Definition search_relevant_chunks (user_id query : str) (top_k : Z)
    : M (list Chunk) :=
  try_except
    (let* collection := get_user_collection user_id in
     let* query_embeddings := lift (generate_embeddings [query]) in
     let* results := collection_query collection query_embeddings top_k in
     lift (format_results results))
    (fun _ => ret []).

(** [generate_general_response] *)
Definition generate_general_response (query : str) : M str :=
  try_except (gemini_generate query) (fun e => ret (classify_error e)).

(** The first step of [generate_rag_response]: [Some r] when the method
    returns [r] from inside the inner [try], [None] when it goes on. *)
Definition check_collection (query user_id : str)
    : M (option (str * list SourceRef)) :=
  try_except
    (let* collection := get_user_collection user_id in
     let* n := collection_count collection in
     if n =? 0 then
       let* general := generate_general_response query in
       ret (Some (general, []))
     else ret None)
    (fun _ =>
       let* general := generate_general_response query in
       ret (Some (general, []))).

(** [generate_rag_response] *)
Definition generate_rag_response (query user_id : str)
    : M (str * list SourceRef) :=
  try_except
    (let* early := check_collection query user_id in
     match early with
     | Some r => ret r
     | None =>
         let* relevant_chunks :=
           search_relevant_chunks user_id query default_top_k in
         match relevant_chunks with
         | [] =>
             let* general := generate_general_response query in
             ret (general, [])
         | _ =>
             let '(context_parts, sources) := assemble relevant_chunks in
             match context_parts with
             | [] =>
                 let* general := generate_general_response query in
                 ret (general, [])
             | _ =>
                 let context := Py.join (newline ++ newline) context_parts in
                 let* response := gemini_generate (rag_prompt context query) in
                 ret (response, sources)
             end
         end
     end)
    (fun e =>
       let* general_response := generate_general_response query in
       let general_response :=
         if Py.contains (Py.lit "quota") (Py.lower e)
         then general_response ++ quota_note else general_response in
       ret (general_response, [])).

(** [delete_document]: the [except] branch logs and raises again. *)
Definition delete_document (user_id content_id : str) : M unit :=
  try_except
    (let* collection := get_user_collection user_id in
     let* ids := collection_get collection content_id in
     match ids with
     | [] => ret tt
     | _ => collection_delete collection ids
     end)
    (fun e => raise e).

End WithServices.

End Pipeline.

(** ** The general chat of [backend/working_main.py]

    The endpoint [chat_general] of this variant of the server does not go
    through [RAGPipeline]: it calls the model itself, in a loop of at most
    [max_retries] attempts.  [None] is Python's [None], returned when the
    loop ends without a [return].  The global [gemini_model] is [None]
    when the server started without an API key, and the model otherwise. *)

Module WorkingMain.

Import Pipeline.

Section WithServices.

Variable gemini_model : option Services.

Definition max_retries : nat := 3.

(** The detail of [HTTPException(status_code=500, ...)]. *)
Definition msg_not_configured : str := Py.lit "Gemini API not configured".

Definition msg_trouble : str :=
  Py.lit "I'm having trouble processing your request right now. Please try again shortly.".

(** [for attempt in attempts: try: return generate_content(message).text
    except: if attempt == max_retries - 1: raise] *)
Fixpoint retry_loop (model : Services) (attempts : list nat) (message : str)
    : M (option str) :=
  match attempts with
  | [] => ret None
  | attempt :: rest =>
      try_except
        (let* response := gemini_generate model message in ret (Some response))
        (fun api_error =>
           if (attempt =? max_retries - 1)%nat then raise api_error
           else retry_loop model rest message)
  end.

(** [chat_general]: the response and its source.  The [HTTPException] of
    the guard is raised inside the outer [try], whose handler catches it
    like any other exception. *)
Definition chat_general (message : str) : M (option (str * str)) :=
  try_except
    (match gemini_model with
     | None => raise msg_not_configured
     | Some model =>
         let* response := retry_loop model (seq 0 max_retries) message in
         ret (match response with
              | Some text => Some (text, Py.lit "general")
              | None => None
              end)
     end)
    (fun _ => ret (Some (msg_trouble, Py.lit "general"))).

End WithServices.

End WorkingMain.

(** ** Ingestion: [create_user_collection] and [add_document] *)

Module Ingestion.

Import Pipeline.

(** A method body that may also not return: [None] is a call that is
    still running.  The only loop behind it is the one of the chunker. *)
Definition L (A : Type) : Type := World -> option (result A * World).

Definition returning {A : Type} (m : M A) : L A := fun w => Some (m w).

Definition bindL {A B : Type} (m : L A) (k : A -> L B) : L B := fun w =>
  match m w with
  | None => None
  | Some (Ok a, w') => k a w'
  | Some (Raise msg, w') => Some (Raise msg, w')
  end.

Definition try_exceptL {A : Type} (body : L A) (handler : str -> L A) : L A :=
  fun w =>
    match body w with
    | None => None
    | Some (Ok a, w') => Some (Ok a, w')
    | Some (Raise msg, w') => handler msg w'
    end.

Notation "'let+' x := m 'in' k" := (bindL m (fun x => k))
  (at level 10, x name, m at level 100, k at level 200, only parsing).

(** [self.chunk_text(content)], run with the fuel of [Chunker.chunk_text]. *)
Definition run_chunk_text (content : str) : L (list str) := fun w =>
  match Chunker.chunk_text content with
  | Some chunks => Some (Ok chunks, w)
  | None => None
  end.

(** [str(i)] for [i] in [range(n)]. *)
Definition str_of_nat (i : nat) : str :=
  list_ascii_of_string (NilEmpty.string_of_uint (Nat.to_uint i)).

(** [f"{content_id}_chunk_{i}"] *)
Definition chunk_id (content_id : str) (i : nat) : str :=
  content_id ++ Py.lit "_chunk_" ++ str_of_nat i.

(** [[f"{content_id}_chunk_{i}" for i in range(len(chunks))]] *)
Definition chunk_ids (content_id : str) (chunks : list str) : list str :=
  map (chunk_id content_id) (seq 0 (length chunks)).

(** The metadata loop of [add_document]; [source_label] and [type_label]
    are its arguments [source] and [content_type]. *)
Definition chunk_metadatas (content_id source_label type_label : str)
    (chunks : list str) : list Metadata :=
  map (fun '(i, chunk) =>
         {| content_id := content_id;
            source := source_label;
            content_type := type_label;
            chunk_index := Z.of_nat i;
            total_chunks := Z.of_nat (length chunks);
            chunk_length := Py.len chunk |})
      (enumerate chunks).

(** The entries a batch puts in a collection, key by key. *)
Definition batch_entries (ids : list str) (embeddings : list (list float))
    (documents : list str) (metadatas : list Metadata) : list (str * Entry) :=
  zip ids
      (zip_with (fun e dm => {| embedding := e; document := dm.1; metadata := dm.2 |})
         embeddings (zip documents metadatas)).

Definition insert_entries (c : Collection) (entries : list (str * Entry))
    : Collection :=
  foldl (fun c entry => <[entry.1 := entry.2]> c) c entries.

Section WithServices.

Variable svc : Services.
Variable embedding_model : EmbeddingModel.

(** What the vector store decides by itself: which collection names it
    accepts, and which batches it accepts in a collection (identifiers not
    in use, embeddings of the dimension of the collection, and the like). *)
Variable valid_name : str -> bool.
Variable validate_batch :
  Collection -> list str -> list (list float) -> list str -> list Metadata ->
  result unit.

(** [chroma_client.create_collection(name=..., metadata=...)]: refused for
    a name the store does not accept and for a name in use. *)
Definition client_create_collection (name : str) : M unit := fun w =>
  if negb (valid_name name) then
    (Raise (Py.lit "Invalid collection name " ++ name), w)
  else
    match collections w !! name with
    | Some _ => (Raise (Py.lit "Collection " ++ name ++ Py.lit " already exists."), w)
    | None =>
        (Ok tt, {| collections := <[name := ∅]> (collections w);
                   generate_calls := generate_calls w |})
    end.

(** [create_user_collection]: the [except] branch logs and raises again. *)
Definition create_user_collection (user_id : str) : M str :=
  try_except
    (let collection_name := collection_name user_id in
     let* _ := client_create_collection collection_name in
     ret collection_name)
    (fun e => raise e).

(** [collection.add(ids=..., embeddings=..., documents=..., metadatas=...)]:
    the four lists have one length, and the store accepts the batch; it
    keeps the embeddings in single precision. *)
Definition collection_add (handle : str) (ids : list str)
    (embeddings : list (list float)) (documents : list str)
    (metadatas : list Metadata) : M unit := fun w =>
  match collections w !! handle with
  | None => no_collection handle w
  | Some c =>
      if negb ((length embeddings =? length ids)%nat
               && (length documents =? length ids)%nat
               && (length metadatas =? length ids)%nat)
      then (Raise (Py.lit "Number of embeddings, documents and metadatas must match number of ids"), w)
      else
        match validate_batch c ids embeddings documents metadatas with
        | Raise e => (Raise e, w)
        | Ok _ =>
            (Ok tt,
             {| collections :=
                  <[handle := insert_entries c
                                (batch_entries ids (map stored_vector embeddings)
                                   documents metadatas)]>
                    (collections w);
                generate_calls := generate_calls w |})
        end
  end.

Definition msg_too_short : str := Py.lit "Content is too short or empty".
Definition msg_no_user : str := Py.lit "User ID is required".
Definition msg_no_chunks : str := Py.lit "No chunks created from content".

(** [add_document].  [new_id] is the value [str(uuid.uuid4())] takes in
    this call. *)
Definition add_document (new_id : str) (user_id content source_label type_label : str)
    : L str :=
  try_exceptL
    (if negb (Py.truthy content) || (Py.len (Py.strip content) <? 10)
     then returning (raise msg_too_short)
     else if negb (Py.truthy user_id) then returning (raise msg_no_user)
     else
       let+ collection :=
         returning
           (try_except (get_user_collection user_id)
              (fun _ =>
                 let* _ := create_user_collection user_id in
                 get_user_collection user_id)) in
       let+ chunks := run_chunk_text content in
       match chunks with
       | [] => returning (raise msg_no_chunks)
       | _ =>
           let+ embeddings :=
             returning
               (try_except (lift (generate_embeddings svc embedding_model chunks))
                  (fun e => raise (Py.lit "Failed to generate embeddings: " ++ e))) in
           let content_id := new_id in
           let chunk_ids := chunk_ids content_id chunks in
           let metadatas := chunk_metadatas content_id source_label type_label chunks in
           let+ _ :=
             returning
               (try_except (collection_add collection chunk_ids embeddings chunks metadatas)
                  (fun e => raise (Py.lit "Failed to add chunks to vector store: " ++ e))) in
           returning (ret content_id)
       end)
    (fun e => returning (raise e)).

End WithServices.

(** The dictionary [get_collection_stats] returns. *)
Record Stats : Type := {
  stat_total_chunks : Z;
  stat_unique_documents : Z
}.

(** [collection.get()["metadatas"]] *)
Definition get_metadatas (c : Collection) : list Metadata :=
  map (fun kv => metadata kv.2) (map_to_list c).

(** The set loop of [get_collection_stats]. *)
Definition content_id_set (metadatas : list Metadata) : gset str :=
  foldl (fun ids m => ids ∪ {[content_id m]}) ∅ metadatas.

(** [get_collection_stats] *)
Definition get_collection_stats (user_id : str) : M Stats :=
  try_except
    (let* collection := get_user_collection user_id in
     let* count := collection_count collection in
     let* metadatas := read_collection collection (fun c => Ok (get_metadatas c)) in
     let content_ids := content_id_set metadatas in
     ret {| stat_total_chunks := count;
            stat_unique_documents := Z.of_nat (size content_ids) |})
    (fun _ => ret {| stat_total_chunks := 0; stat_unique_documents := 0 |}).

End Ingestion.

(** ** Texts outside Latin-1

    A Python [str] is a sequence of code points below 0x110000, and a code
    point of the surrogate range 0xD800..0xDFFF has no UTF-8 encoding:
    [text.encode()] raises [UnicodeEncodeError] on it.  On Latin-1 text,
    which the rest of the development works with, the encoding cannot
    fail.  This module gives the two methods that encode their input,
    [_generate_hash_embeddings] and [generate_embeddings], over all Python
    strings. *)

Module Unicode.

Import Pipeline.

(** A Python [str], by its code points. *)
Definition text : Type := list N.

(** The text of a Latin-1 string. *)
Definition of_latin1 (s : str) : text := map (fun c => N.of_nat (nat_of_ascii c)) s.

Definition is_surrogate (c : N) : bool := ((0xD800 <=? c) && (c <=? 0xDFFF))%N.

(** A text that UTF-8 can encode. *)
Definition encodable (s : text) : bool := forallb (fun c => negb (is_surrogate c)) s.

(** The UTF-8 bytes of a code point that is not a surrogate. *)
Definition encode_char (c : N) : list Z :=
  let n := Z.of_N c in
  if n <? 0x80 then [n]
  else if n <? 0x800 then [Z.lor 0xC0 (Z.shiftr n 6); Z.lor 0x80 (Z.land n 0x3F)]
  else if n <? 0x10000 then
    [Z.lor 0xE0 (Z.shiftr n 12); Z.lor 0x80 (Z.land (Z.shiftr n 6) 0x3F);
     Z.lor 0x80 (Z.land n 0x3F)]
  else
    [Z.lor 0xF0 (Z.shiftr n 18); Z.lor 0x80 (Z.land (Z.shiftr n 12) 0x3F);
     Z.lor 0x80 (Z.land (Z.shiftr n 6) 0x3F); Z.lor 0x80 (Z.land n 0x3F)].

(** [str(i)] *)
Definition decimal (i : nat) : str :=
  list_ascii_of_string (NilEmpty.string_of_uint (Nat.to_uint i)).

(** The four hexadecimal digits of a code point below 0x10000. *)
Definition hex4 (c : N) : str :=
  let n := Z.of_N c in
  [MD5.hex_digit (n / 4096); MD5.hex_digit (n / 256 mod 16);
   MD5.hex_digit (n / 16 mod 16); MD5.hex_digit (n mod 16)].

(** The number of surrogates a text starts with. *)
Fixpoint surrogate_run (s : text) : nat :=
  match s with
  | c :: s' => if is_surrogate c then S (surrogate_run s') else 0
  | [] => 0
  end.

(** [str(e)] for the [UnicodeEncodeError] raised at position [i], where
    the surrogate [c] starts a run of [run] surrogates. *)
Definition surrogates_not_allowed (i : nat) (c : N) (run : nat) : str :=
  match run with
  | 1%nat =>
      Py.lit "'utf-8' codec can't encode character '\u" ++ hex4 c
      ++ Py.lit "' in position " ++ decimal i ++ Py.lit ": surrogates not allowed"
  | _ =>
      Py.lit "'utf-8' codec can't encode characters in position " ++ decimal i
      ++ Py.lit "-" ++ decimal (i + run - 1) ++ Py.lit ": surrogates not allowed"
  end.

Fixpoint encode_from (i : nat) (s : text) : result (list Z) :=
  match s with
  | [] => Ok []
  | c :: s' =>
      if is_surrogate c
      then Raise (surrogates_not_allowed i c (surrogate_run (c :: s')))
      else data ← encode_from (S i) s'; mret (encode_char c ++ data)
  end.

(** [s.encode()] *)
Definition encode (s : text) : result (list Z) := encode_from 0 s.

(** The body of the loop of [_generate_hash_embeddings] over [texts]. *)
Definition hash_embedding (text : text) : result (list float) :=
  data ← encode text;
  let text_hash := MD5.hexdigest data in
  embedding ←
    traverse
      (fun i => n ← HashEmbedding.int16 (Py.slice text_hash i (i + 2));
                mret (Py.float_of_int n / 255)%float)
      (Py.range 0 (Z.min (Py.len text_hash) 384) 2);
  mret (firstn HashEmbedding.dimension (HashEmbedding.pad embedding)).

Definition _generate_hash_embeddings (texts : list text)
    : result (list (list float)) :=
  traverse hash_embedding texts.

Section WithServices.

(** [genai.embed_content(...)["embedding"]] and
    [SentenceTransformer.encode(texts).tolist()] *)
Variable embed_content : text -> result (list float).
Variable model_encode : list text -> result (list (list float)).
Variable embedding_model : EmbeddingModel.

(** [generate_embeddings] *)
Definition generate_embeddings (texts : list text) : result (list (list float)) :=
  let attempt :=
    match embedding_model with
    | NoModel => _generate_hash_embeddings texts
    | SentenceTransformer => model_encode texts
    | GeminiEmbedding =>
        traverse
          (fun text =>
             match embed_content text with
             | Ok e => Ok e
             | Raise e =>
                 if Py.contains (Py.lit "quota") (Py.lower e)
                    || Py.contains (Py.lit "429") e
                 then hashed ← _generate_hash_embeddings [text];
                      index hashed 0
                 else Raise e
             end)
          texts
    end in
  match attempt with
  | Ok embeddings => Ok embeddings
  | Raise _ => _generate_hash_embeddings texts
  end.

End WithServices.

End Unicode.

(** ** Vocabulary of the properties *)

Module Spec.

Import Pipeline.

(** The markers [generate_general_response] looks for in the text of an
    exception, in the order it looks for them. *)
Definition auth_marker (e : str) : bool :=
  Py.contains (Py.lit "API key not valid") e.
Definition quota_marker (e : str) : bool :=
  Py.contains (Py.lit "quota") (Py.lower e) || Py.contains (Py.lit "429") e.
Definition not_found_marker (e : str) : bool :=
  Py.contains (Py.lit "404") e.
Definition timeout_marker (e : str) : bool :=
  Py.contains (Py.lit "timeout") (Py.lower e).

(** An exception of one of the four known classes. *)
Definition classified (e : str) : bool :=
  auth_marker e || quota_marker e || not_found_marker e || timeout_marker e.

(** The component the embedding derives from a byte of the digest. *)
Definition component (b : Z) : float := (Py.float_of_int b / 255)%float.

(** The hash-based embedding of a text that can be encoded, in closed
    form. *)
Definition text_vector (text : Unicode.text) : list float :=
  match Unicode.encode text with
  | Ok data => map component (MD5.digest data) ++ repeat 0%float 368
  | Raise _ => []
  end.

(** Half of a pair of UTF-16 surrogates, as the extraction of the text of
    a PDF can leave it at the end of a page. *)
Definition lone_surrogate : Unicode.text :=
  Unicode.of_latin1 (Py.lit "Page 1 ") ++ [0xD83D%N].

(** The two hexadecimal digits of a byte. *)
Definition hex_pair (b : Z) : ascii * ascii :=
  (MD5.hex_digit (b / 16), MD5.hex_digit (b mod 16)).


(** The chunks of a collection that belong to the document [cid], and
    the others. *)
Definition chunks_of (cid : str) (c : Collection) : Collection :=
  filter (fun kv => content_id (metadata kv.2) = cid) c.
Definition chunks_not_of (cid : str) (c : Collection) : Collection :=
  filter (fun kv => content_id (metadata kv.2) <> cid) c.

(** The chunk cut from a window: the stripped slice. *)
Definition window_chunk (text : str) (window : Z * Z) : str :=
  Py.strip (Py.slice text window.1 window.2).

(** The chunks cut from a list of windows: the non-empty ones, in order. *)
Definition chunks_of_windows (text : str) (windows : list (Z * Z)) : list str :=
  List.filter Py.truthy (map (window_chunk text) windows).

(** The windows the loop visits from [start] on: each window starts
    [chunk_overlap] before the end of the one before it, and the last one
    ends at least [chunk_overlap] past the end of the text. *)
Inductive window_chain (chunk_size chunk_overlap : Z) (text : str)
    : Z -> list (Z * Z) -> Prop :=
  | chain_none (start : Z) :
      Py.len text <= start ->
      window_chain chunk_size chunk_overlap text start []
  | chain_last (start : Z) :
      start < Py.len text ->
      Py.len text <= Chunker.window_end chunk_size text start - chunk_overlap ->
      window_chain chunk_size chunk_overlap text start
        [(start, Chunker.window_end chunk_size text start)]
  | chain_next (start : Z) (windows : list (Z * Z)) :
      start < Py.len text ->
      Chunker.window_end chunk_size text start - chunk_overlap < Py.len text ->
      window_chain chunk_size chunk_overlap text
        (Chunker.window_end chunk_size text start - chunk_overlap) windows ->
      window_chain chunk_size chunk_overlap text start
        ((start, Chunker.window_end chunk_size text start) :: windows).

(** A text without whitespace. *)
Definition no_whitespace (text : str) : bool :=
  forallb (fun c => negb (Py.isspace c)) text.

(** The total length of a list of texts. *)
Definition total_length (parts : list str) : Z :=
  foldr (fun part n => Py.len part + n) 0 parts.

End Spec.

(** ** Scenarios *)

Module Scenario.

Import Pipeline.

Definition no_embedding : str -> result (list float) :=
  fun _ => Raise (Py.lit "embedding service unavailable").
Definition no_encoder : list str -> result (list (list float)) :=
  fun _ => Raise (Py.lit "no local model").
Definition no_index : Collection -> list (list float) -> Z -> result QueryResult :=
  fun _ _ _ => Raise (Py.lit "index unavailable").

(** A generation service that raises a quota error on its first two calls
    and answers from the third call on. *)
Definition flaky_generate (n : nat) (prompt : str) : result str :=
  if (n <? 2)%nat then Raise (Py.lit "429 Resource has been exhausted (e.g. check quota).")
  else Ok (Py.lit "Paris is the capital of France.").

Definition flaky : Services :=
  {| generate_content := flaky_generate;
     embed_content := no_embedding;
     encode := no_encoder;
     query_index := no_index |}.

(** A generation service that always fails with the same text. *)
Definition failing (e : str) : Services :=
  {| generate_content := fun _ _ => Raise e;
     embed_content := no_embedding;
     encode := no_encoder;
     query_index := no_index |}.

(** A generation service that repeats its prompt. *)
Definition echo : Services :=
  {| generate_content := fun _ prompt => Ok prompt;
     embed_content := no_embedding;
     encode := no_encoder;
     query_index := no_index |}.

(** The world before anything was ingested or asked. *)
Definition fresh : World := {| collections := ∅; generate_calls := 0 |}.

(** A vector index that ranks the same [hits] for every query and answers
    with the first [n_results] of them. *)
Definition ranked_query (hits : list Chunk)
    : Collection -> list (list float) -> Z -> result QueryResult :=
  fun _ _ n_results =>
    let top := take (Z.to_nat n_results) hits in
    Ok {| documents := [map content top];
          metadatas := [map chunk_metadata top];
          distances := [map distance top] |}.

Definition ranked (hits : list Chunk) : Services :=
  {| generate_content := fun _ prompt => Ok prompt;
     embed_content := no_embedding;
     encode := no_encoder;
     query_index := ranked_query hits |}.

Definition sample_metadata (cid : str) (i : Z) (text : str) : Metadata :=
  {| content_id := cid; source := Py.lit "notes.txt";
     content_type := Py.lit "text/plain"; chunk_index := i;
     total_chunks := 1; chunk_length := Py.len text |}.

Definition sample_entry (cid : str) (i : Z) (text : str) : Entry :=
  {| embedding := []; document := text; metadata := sample_metadata cid i text |}.

Definition sample_hit (cid : str) (i : Z) (text : str) (d : float) : Chunk :=
  {| content := text; chunk_metadata := sample_metadata cid i text; distance := d |}.

(** A world where user [u1] owns the collection [c]. *)
Definition world_of (c : Collection) : World :=
  {| collections := {[ collection_name (Py.lit "u1") := c ]};
     generate_calls := 0 |}.

(** One stored chunk of 2001 characters. *)
Definition oversized_text : str := repeat "a"%char 2001.
Definition oversized_hit : Chunk :=
  sample_hit (Py.lit "doc-a") 0 oversized_text 0.25%float.
Definition oversized_world : World :=
  world_of {[ Py.lit "doc-a_chunk_0" := sample_entry (Py.lit "doc-a") 0 oversized_text ]}.

(** Five stored chunks of one document, and the same five as hits. *)
Definition five_texts : list str :=
  [Py.lit "The sky is blue."; Py.lit "Water boils at 100C.";
   Py.lit "Grass is green."; Py.lit "Snow is white."; Py.lit "Coal is black."].
Definition five_hits : list Chunk :=
  [sample_hit (Py.lit "doc-a") 0 (Py.lit "The sky is blue.") 0.125;
   sample_hit (Py.lit "doc-a") 1 (Py.lit "Water boils at 100C.") 0.25;
   sample_hit (Py.lit "doc-a") 2 (Py.lit "Grass is green.") 0.375;
   sample_hit (Py.lit "doc-a") 3 (Py.lit "Snow is white.") 0.5;
   sample_hit (Py.lit "doc-a") 4 (Py.lit "Coal is black.") 0.625]%float.
Definition five_world : World :=
  world_of
    (list_to_map
       (map (fun hit =>
               (Py.lit "doc-a_chunk_" ++ [MD5.hex_digit (chunk_index (chunk_metadata hit))],
                {| embedding := []; document := content hit;
                   metadata := chunk_metadata hit |}))
            five_hits)).

(** Two documents of user [u1]: [doc-a] in two chunks, [doc-b] in one. *)
Definition two_documents : Collection :=
  {[ Py.lit "doc-a_chunk_0" := sample_entry (Py.lit "doc-a") 0 (Py.lit "The sky is blue.");
     Py.lit "doc-a_chunk_1" := sample_entry (Py.lit "doc-a") 1 (Py.lit "Water boils at 100C.");
     Py.lit "doc-b_chunk_0" := sample_entry (Py.lit "doc-b") 0 (Py.lit "Grass is green.") ]}.

(** Texts for the chunker. *)
Definition unbroken_text : str := repeat "a"%char 1001.
Definition sentences_text : str :=
  concat (repeat (Py.lit "Lorem ipsum dolor sit amet. ") 60).
Definition words_text : str := concat (repeat (Py.lit "word ") 300).
Definition mixed_text : str :=
  concat (repeat (Py.lit "ab cd. ") 100) ++ repeat "x"%char 700 ++ ["010"%char].
Definition padded_text : str := repeat "a"%char 500 ++ repeat " "%char 600.
Definition blank_text : str := repeat " "%char 1001.

(** Scenario A after ingestion: one stored chunk, retrieved at distance 0.25. *)
Definition sky_text : str := Py.lit "The sky is blue. Water boils at 100C.".
Definition sky_hit : Chunk := sample_hit (Py.lit "doc-a") 0 sky_text 0.25%float.
Definition sky_world : World :=
  world_of {[ Py.lit "doc-a_chunk_0" := sample_entry (Py.lit "doc-a") 0 sky_text ]}.

Definition connection_error : str := Py.lit "connection reset by peer".

End Scenario.

(** ** Vocabulary of the further properties *)

Module Further.

Import Pipeline Ingestion Spec.

(** The metadata of the chunk of index [i]. *)
Definition metadata_of (cid source_label type_label : str) (chunks : list str)
    (i : nat) (chunk : str) : Metadata :=
  {| content_id := cid; source := source_label; content_type := type_label;
     chunk_index := Z.of_nat i; total_chunks := Z.of_nat (length chunks);
     chunk_length := Py.len chunk |}.

(** The collection of a user in a world, empty when there is none. *)
Definition collection_of (w : World) (user_id : str) : Collection :=
  default ∅ (collections w !! collection_name user_id).

(** The entry [add_document] stores for the chunk of index [i]. *)
Definition entry_of (cid source_label type_label : str) (chunks : list str)
    (i : nat) (chunk : str) (vector : list float) : Entry :=
  {| embedding := vector; document := chunk;
     metadata := metadata_of cid source_label type_label chunks i chunk |}.

(** A store that accepts every name and every batch. *)
Definition any_name : str -> bool := fun _ => true.
Definition any_batch
    : Collection -> list str -> list (list float) -> list str -> list Metadata ->
      result unit :=
  fun _ _ _ _ _ => Ok tt.

(** A store that refuses every batch. *)
Definition no_batch
    : Collection -> list str -> list (list float) -> list str -> list Metadata ->
      result unit :=
  fun _ _ _ _ _ => Raise (Py.lit "Embedding dimension 384 does not match collection dimensionality 768").

(** The hash embeddings of a list of texts, empty if they fail. *)
Definition hash_vectors (texts : list str) : list (list float) :=
  match HashEmbedding._generate_hash_embeddings texts with
  | Ok vectors => vectors
  | Raise _ => []
  end.

(** The content identifiers of the documents of a collection. *)
Definition document_ids (c : Collection) : gset str :=
  content_id_set (get_metadatas c).

(** The statistics of a collection. *)
Definition stats_of (c : Collection) : Stats :=
  {| stat_total_chunks := VectorStore.count c;
     stat_unique_documents := Z.of_nat (size (document_ids c)) |}.

(** The hash-based embedding of a text, in closed form. *)
Definition hash_vector (text : str) : list float :=
  map component (MD5.digest (Py.encode text)) ++ repeat 0%float 368.


(** What [generate_general_response] answers on the [n]-th call of the
    generation service. *)
Definition general_text (svc : Services) (query : str) (n : nat) : str :=
  match generate_content svc n query with
  | Ok text => text
  | Raise e => classify_error e
  end.

(** The chunks [generate_rag_response] retrieves in a world. *)
Definition retrieved_chunks (svc : Services) (embedding_model : EmbeddingModel)
    (user_id query : str) (w : World) : list Chunk :=
  match search_relevant_chunks svc embedding_model user_id query default_top_k w with
  | (Ok relevant_chunks, _) => relevant_chunks
  | (Raise _, _) => []
  end.

(** An embedding service that is out of quota for the texts that contain
    a given word, and answers the others with a fixed vector. *)
Definition quota_for (word : str) : str -> result (list float) :=
  fun text =>
    if Py.contains word text
    then Raise (Py.lit "429 Resource has been exhausted (e.g. check quota).")
    else Ok [0.5; 0.25]%float.


Definition embedding_services (embed : str -> result (list float)) : Services :=
  {| generate_content := fun _ prompt => Ok prompt;
     embed_content := embed;
     encode := Scenario.no_encoder;
     query_index := Scenario.no_index |}.

(** A store with a ranked index, whose generation service always fails. *)
Definition ranked_failing (hits : list Chunk) (e : str) : Services :=
  {| generate_content := fun _ _ => Raise e;
     embed_content := Scenario.no_embedding;
     encode := Scenario.no_encoder;
     query_index := Scenario.ranked_query hits |}.

(** A vector index whose answer has two documents and the metadata of one. *)
Definition short_metadata : Services :=
  {| generate_content := fun _ prompt => Ok prompt;
     embed_content := Scenario.no_embedding;
     encode := Scenario.no_encoder;
     query_index := fun _ _ _ =>
       Ok {| documents := [[Scenario.sky_text; Py.lit "Grass is green."]];
             metadatas := [[chunk_metadata Scenario.sky_hit]];
             distances := [] |} |}.

End Further.

(** * Properties *)

Import Pipeline Spec.

(** ** The digest and the embedding against [hashlib] *)

Example md5_empty :
  MD5.hexdigest (Py.encode (Py.lit "")) = Py.lit "d41d8cd98f00b204e9800998ecf8427e".
Proof. vm_compute. reflexivity. Qed.

Example md5_abc :
  MD5.hexdigest (Py.encode (Py.lit "abc")) = Py.lit "900150983cd24fb0d6963f7d28e17f72".
Proof. vm_compute. reflexivity. Qed.

Example md5_fox :
  MD5.hexdigest (Py.encode (Py.lit "The quick brown fox jumps over the lazy dog"))
  = Py.lit "9e107d9d372bb6826bd81d3542a419d6".
Proof. vm_compute. reflexivity. Qed.

(** Two blocks, and a character outside ASCII: [hashlib.md5("x" * 1000)] and
    [hashlib.md5("caf\xe9")]. *)
Example md5_long :
  MD5.hexdigest (Py.encode (repeat "x"%char 1000))
  = Py.lit "398533d48111e9f664b1f64cb10c4b63".
Proof. vm_compute. reflexivity. Qed.

Example md5_latin1 :
  MD5.hexdigest (Py.encode (Py.lit "caf" ++ [ascii_of_nat 233]))
  = Py.lit "07117fe4a1ebd544965dc19573183da2".
Proof. vm_compute. reflexivity. Qed.

(** [_generate_hash_embeddings(["abc"])[0][:3]] is
    [[0x90 / 255, 0x01 / 255, 0x50 / 255]]. *)
Example hash_embedding_abc :
  (fun v => firstn 3 v) <$> HashEmbedding.hash_embedding (Py.lit "abc")
  = Ok [0x1.2121212121212p-1; 0x1.0101010101010p-8; 0x1.4141414141414p-2]%float.
Proof. vm_compute. reflexivity. Qed.

(** ** Substrings *)

Section Substrings.

Lemma starts_with_spec (sub s : str) :
  Py.starts_with sub s = true <-> exists post, s = sub ++ post.
Proof.
  revert s. induction sub as [|a sub IH]; intros s; simpl.
  - split; [intros _; by exists s | done].
  - destruct s as [|b s].
    + split; [done | intros [post H]; discriminate H].
    + rewrite andb_true_iff, IH. split.
      * intros [Hab [post ->]]. apply Ascii.eqb_eq in Hab as ->. by exists post.
      * intros [post H]. injection H as -> ->. split; [apply Ascii.eqb_refl | by exists post].
Qed.

Lemma contains_spec (sub s : str) :
  Py.contains sub s = true <-> exists pre post, s = pre ++ sub ++ post.
Proof.
  induction s as [|b s IH].
  - simpl. rewrite orb_false_r, starts_with_spec. split.
    + intros [post H]. by exists [], post.
    + intros [pre [post H]]. destruct pre; [by exists post | discriminate H].
  - cbn [Py.contains]. rewrite orb_true_iff, IH, starts_with_spec. split.
    + intros [[post H] | [pre [post H]]].
      * by exists [], post.
      * exists (b :: pre), post. by rewrite H.
    + intros [pre [post H]]. destruct pre as [|c pre].
      * left. by exists post.
      * right. injection H as _ H. by exists pre, post.
Qed.

Lemma contains_trans (a b c : str) :
  Py.contains a b = true -> Py.contains b c = true -> Py.contains a c = true.
Proof.
  rewrite !contains_spec. intros [p1 [q1 ->]] [p2 [q2 ->]].
  exists (p2 ++ p1), (q1 ++ q2). by rewrite <- !app_assoc.
Qed.

Lemma contains_lower (a b : str) :
  Py.contains a b = true -> Py.contains (Py.lower a) (Py.lower b) = true.
Proof.
  rewrite !contains_spec. intros [p [q ->]].
  exists (Py.lower p), (Py.lower q). unfold Py.lower. by rewrite !map_app.
Qed.

Lemma contains_refl (a : str) : Py.contains a a = true.
Proof. apply contains_spec. exists [], []. by rewrite app_nil_r. Qed.

(** A text that holds a marker is not part of a text that does not. *)
Lemma not_contained (marker e msg : str) :
  Py.contains marker e = true -> Py.contains marker msg = false ->
  Py.contains e msg = false.
Proof.
  intros He Hm. destruct (Py.contains e msg) eqn:Hc; [|done].
  by rewrite (contains_trans _ _ _ He Hc) in Hm.
Qed.

Lemma not_contained_lower (marker e msg : str) :
  Py.contains marker (Py.lower e) = true ->
  Py.contains marker (Py.lower msg) = false ->
  Py.contains e msg = false.
Proof.
  intros He Hm. destruct (Py.contains e msg) eqn:Hc; [|done].
  apply contains_lower in Hc. by rewrite (contains_trans _ _ _ He Hc) in Hm.
Qed.

End Substrings.

(** ** Generation and its fallback chain *)

Section Generation.

Variable svc : Services.

(** [generate_general_response] calls the model once and never raises. *)
Lemma generate_general_response_run (query : str) (w : World) :
  generate_general_response svc query w
  = (Ok match generate_content svc (generate_calls w) query with
        | Ok text => text
        | Raise e => classify_error e
        end,
     count_call w).
Proof.
  unfold generate_general_response, try_except, gemini_generate, ret.
  by destruct (generate_content svc (generate_calls w) query).
Qed.

Lemma try_except_returns {A : Type} (body : M A) (handler : str -> M A) :
  (forall e w, exists a w', handler e w = (Ok a, w')) ->
  forall w, exists a w', try_except body handler w = (Ok a, w').
Proof.
  intros Hh w. unfold try_except.
  destruct (body w) as [[a|e] w1]; [by exists a, w1 | apply Hh].
Qed.

Lemma classify_error_quota (e : str) :
  auth_marker e = false -> quota_marker e = true -> classify_error e = msg_quota.
Proof.
  unfold classify_error, auth_marker, quota_marker. by intros -> ->.
Qed.

Lemma classify_error_cases (e : str) :
  classify_error e =
    if auth_marker e then msg_api_key
    else if quota_marker e then msg_quota
    else if not_found_marker e then msg_404
    else if timeout_marker e then msg_timeout
    else msg_unknown e.
Proof. reflexivity. Qed.

Lemma classified_message_hides_error (e : str) :
  classified e = true -> Py.contains e (classify_error e) = false.
Proof.
  rewrite classify_error_cases. unfold classified.
  destruct (auth_marker e) eqn:Ha.
  { intros _. by apply (not_contained (Py.lit "API key not valid")). }
  destruct (quota_marker e) eqn:Hq.
  { intros _. unfold quota_marker in Hq. apply orb_true_iff in Hq as [Hq|Hq].
    - by apply (not_contained_lower (Py.lit "quota")).
    - by apply (not_contained (Py.lit "429")). }
  destruct (not_found_marker e) eqn:Hn.
  { intros _. by apply (not_contained (Py.lit "404")). }
  destruct (timeout_marker e) eqn:Ht; [|done].
  intros _. by apply (not_contained_lower (Py.lit "timeout")).
Qed.

Lemma unknown_message_shows_error (e : str) :
  Py.contains (Py.prefix e 100) (msg_unknown e) = true.
Proof.
  apply contains_spec.
  by exists (Py.lit "I encountered an error: "), (Py.lit "... Please try again.").
Qed.

End Generation.

Section Orchestrator.

Variable svc : Services.
Variable embedding_model : EmbeddingModel.

Lemma get_user_collection_found (user_id : str) (w : World) (c : Collection) :
  collections w !! collection_name user_id = Some c ->
  get_user_collection user_id w = (Ok (collection_name user_id), w).
Proof. unfold get_user_collection. by intros ->. Qed.

Lemma get_user_collection_missing (user_id : str) (w : World) :
  collections w !! collection_name user_id = None ->
  get_user_collection user_id w = no_collection (collection_name user_id) w.
Proof. unfold get_user_collection. by intros ->. Qed.

(** The first step sends a user without a collection, or with an empty
    one, to the general response. *)
Lemma check_collection_general (query user_id : str) (w : World) :
  collections w !! collection_name user_id = None
  \/ (exists c, collections w !! collection_name user_id = Some c /\ size c = 0%nat) ->
  exists general w',
    generate_general_response svc query w = (Ok general, w')
    /\ check_collection svc query user_id w = (Ok (Some (general, [])), w').
Proof.
  intros H. rewrite generate_general_response_run.
  eexists _, _. split; [reflexivity|].
  unfold check_collection, try_except, bind.
  destruct H as [H | [c [H Hc]]].
  - rewrite (get_user_collection_missing _ _ H). simpl.
    by rewrite generate_general_response_run.
  - rewrite (get_user_collection_found _ _ _ H).
    unfold collection_count, read_collection, VectorStore.count.
    rewrite H, Hc. simpl. by rewrite generate_general_response_run.
Qed.

(** C1: for every query and user, [generate_rag_response] returns a pair
    of a response text and a source list and never raises; for a user with
    no collection, or with an empty one, the pair is the general response
    of [generate_general_response] with an empty source list. *)
Theorem generate_rag_response_never_raises (query user_id : str) (w : World) :
  (exists response sources w',
     generate_rag_response svc embedding_model query user_id w
     = (Ok (response, sources), w'))
  /\ (collections w !! collection_name user_id = None
      \/ (exists c, collections w !! collection_name user_id = Some c
                    /\ size c = 0%nat) ->
      exists general w',
        generate_general_response svc query w = (Ok general, w')
        /\ generate_rag_response svc embedding_model query user_id w
           = (Ok (general, []), w')).
Proof.
  split.
  - unfold generate_rag_response.
    match goal with |- context [try_except ?b ?h w] =>
      assert (Hh : forall e w0, exists a w1, h e w0 = (Ok a, w1));
      [| destruct (try_except_returns b h Hh w) as [[response sources] [w' Hr]]]
    end.
    + intros e w0. unfold bind. rewrite generate_general_response_run.
      by eexists _, _.
    + by exists response, sources, w'.
  - intros H. destruct (check_collection_general query user_id w H)
      as [general [w' [Hg Hc]]].
    exists general, w'. split; [done|].
    unfold generate_rag_response, try_except, bind. by rewrite Hc.
Qed.

End Orchestrator.

(** Scenario B: a query for user [u2] in a world where nothing was
    ingested is answered by the general response, with no sources. *)
Lemma generate_rag_response_scenario_B :
  exists general w',
    generate_general_response Scenario.echo (Py.lit "What color is the sky?")
      Scenario.fresh = (Ok general, w')
    /\ generate_rag_response Scenario.echo GeminiEmbedding
         (Py.lit "What color is the sky?") (Py.lit "u2") Scenario.fresh
       = (Ok (general, []), w').
Proof.
  apply (proj2 (generate_rag_response_never_raises Scenario.echo GeminiEmbedding
                  (Py.lit "What color is the sky?") (Py.lit "u2") Scenario.fresh)).
  left. reflexivity.
Defined.


(** ** Plain generation: attempts and messages *)

(** C5 (amended): [generate_general_response] makes exactly one attempt
    at the generation call, so never more than three: whatever the service
    does, it returns, the count of calls has grown by exactly one, nothing
    else has changed, and the answer depends on the outcome of that one
    call only, whatever later calls would give.  An attempt that raises a
    quota-marker error is not retried: the answer is the fixed "try again
    shortly" text. *)
Theorem general_response_single_attempt (svc : Services) (query : str) (w : World) :
  exists message w',
    generate_general_response svc query w = (Ok message, w')
    /\ generate_calls w' = S (generate_calls w)
    /\ collections w' = collections w
    /\ (forall svc' : Services,
          generate_content svc' (generate_calls w) query
          = generate_content svc (generate_calls w) query ->
          generate_general_response svc' query w = (Ok message, w'))
    /\ (forall text,
          generate_content svc (generate_calls w) query = Ok text -> message = text)
    /\ (forall e,
          generate_content svc (generate_calls w) query = Raise e ->
          auth_marker e = false -> quota_marker e = true ->
          message = msg_quota).
Proof.
  eexists _, _. split; [apply generate_general_response_run|].
  split_and!; [done | done | | |].
  - intros svc' Hsame. by rewrite generate_general_response_run, Hsame.
  - by intros text ->.
  - intros e -> Ha Hq. by apply classify_error_quota.
Qed.

Lemma general_response_single_attempt_flaky :
  exists w',
    generate_general_response Scenario.flaky (Py.lit "What is the capital of France?")
      Scenario.fresh
    = (Ok msg_quota, w')
    /\ generate_calls w' = 1%nat
    /\ collections w' = ∅.
Proof.
  destruct (general_response_single_attempt Scenario.flaky
              (Py.lit "What is the capital of France?") Scenario.fresh)
    as (message & w' & Hrun & Hcalls & Hcols & _ & _ & Hquota).
  exists w'.
  rewrite (Hquota (Py.lit "429 Resource has been exhausted (e.g. check quota).")
             eq_refl eq_refl eq_refl) in Hrun.
  by split_and!.
Defined.

(** C5, as stated, fails: against a service that raises a quota error
    twice and answers on the third call, the response is the quota text
    after a single call, not the answer of the third call. *)
Lemma quota_error_is_not_retried :
  let query := Py.lit "What is the capital of France?" in
  let quota := Py.lit "429 Resource has been exhausted (e.g. check quota)." in
  Scenario.flaky_generate 0 query = Raise quota
  /\ Scenario.flaky_generate 1 query = Raise quota
  /\ Scenario.flaky_generate 2 query = Ok (Py.lit "Paris is the capital of France.")
  /\ generate_general_response Scenario.flaky query Scenario.fresh
     = (Ok (Py.lit "I'm having trouble processing your request right now. Please try again shortly."),
        {| collections := ∅; generate_calls := 1 |}).
Proof. repeat split. Qed.

(** The general chat of [working_main.py] is where attempts are bounded by
    three: with a configured model it never raises and never calls the
    model more than three times, and against a service that fails twice it
    returns the answer of the third call. *)
Lemma working_main_retry_bounded (svc : Services) (message : str) (w : World) :
  exists response w',
    WorkingMain.chat_general (Some svc) message w = (Ok response, w')
    /\ collections w' = collections w
    /\ (generate_calls w < generate_calls w' <= generate_calls w + 3)%nat.
Proof.
  unfold WorkingMain.chat_general, try_except, bind. cbn.
  unfold try_except, bind, gemini_generate, ret, raise. cbn.
  destruct (generate_content svc (generate_calls w) message); cbn;
    [eexists _, _; split; [reflexivity | cbn; split; [done | lia]] |].
  destruct (generate_content svc (S (generate_calls w)) message); cbn;
    [eexists _, _; split; [reflexivity | cbn; split; [done | lia]] |].
  destruct (generate_content svc (S (S (generate_calls w))) message); cbn;
    eexists _, _; (split; [reflexivity | cbn; split; [done | lia]]).
Qed.

Example working_main_third_attempt :
  WorkingMain.chat_general (Some Scenario.flaky)
    (Py.lit "What is the capital of France?") Scenario.fresh
  = (Ok (Some (Py.lit "Paris is the capital of France.", Py.lit "general")),
     {| collections := ∅; generate_calls := 3 |}).
Proof. reflexivity. Qed.

(** C8 (amended): when the generation call raises, the caller receives
    the message of [generate_general_response], and the message is
    specific to the class of the error.  The classes are tried in a fixed
    order: an error with "API key not valid" gets the text about the API
    key; otherwise one with "quota" (in any case of letters) or "429" gets
    the "try again shortly" text; otherwise one with "404" gets the text
    about a temporary service issue; otherwise one with "timeout" (in any
    case of letters) gets the text about the request timing out.  The four
    texts are different from one another, and none contains the text of
    the error.  For any other error the message is built around the first
    100 characters of the text of the error. *)
Theorem general_response_error_message (svc : Services) (query e : str) (w : World) :
  generate_content svc (generate_calls w) query = Raise e ->
  exists message,
    generate_general_response svc query w = (Ok message, count_call w)
    /\ (Py.contains (Py.lit "API key not valid") e = true ->
        message = Py.lit "I'm sorry, but there's an issue with the AI service configuration. Please check the API key.")
    /\ (Py.contains (Py.lit "API key not valid") e = false ->
        Py.contains (Py.lit "quota") (Py.lower e) || Py.contains (Py.lit "429") e
        = true ->
        message = Py.lit "I'm having trouble processing your request right now. Please try again shortly.")
    /\ (Py.contains (Py.lit "API key not valid") e = false ->
        Py.contains (Py.lit "quota") (Py.lower e) || Py.contains (Py.lit "429") e
        = false ->
        Py.contains (Py.lit "404") e = true ->
        message = Py.lit "I'm experiencing a temporary service issue. Please try again in a few moments.")
    /\ (Py.contains (Py.lit "API key not valid") e = false ->
        Py.contains (Py.lit "quota") (Py.lower e) || Py.contains (Py.lit "429") e
        = false ->
        Py.contains (Py.lit "404") e = false ->
        Py.contains (Py.lit "timeout") (Py.lower e) = true ->
        message = Py.lit "The request timed out. Please try again with a shorter query.")
    /\ NoDup [msg_api_key; msg_quota; msg_404; msg_timeout]
    /\ (classified e = true ->
        In message [msg_api_key; msg_quota; msg_404; msg_timeout]
        /\ Py.contains e message = false)
    /\ (classified e = false ->
        message = Py.lit "I encountered an error: " ++ Py.prefix e 100
                  ++ Py.lit "... Please try again."
        /\ Py.contains (Py.prefix e 100) message = true).
Proof.
  intros He. exists (classify_error e).
  rewrite generate_general_response_run, He. split; [done|].
  split_and!.
  - intros Ha. unfold classify_error. by rewrite Ha.
  - intros Ha Hq. unfold classify_error. by rewrite Ha, Hq.
  - intros Ha Hq Hn. unfold classify_error. by rewrite Ha, Hq, Hn.
  - intros Ha Hq Hn Ht. unfold classify_error. by rewrite Ha, Hq, Hn, Ht.
  - apply NoDup_ListNoDup. repeat constructor; simpl; intuition discriminate.
  - intros Hc. split; [|by apply classified_message_hides_error].
    rewrite classify_error_cases. unfold classified in Hc.
    destruct (auth_marker e); [by left|].
    destruct (quota_marker e); [by right; left|].
    destruct (not_found_marker e); [by right; right; left|].
    destruct (timeout_marker e); [by right; right; right; left | done].
  - intros Hc. rewrite classify_error_cases. unfold classified in Hc.
    destruct (auth_marker e); [done|]. destruct (quota_marker e); [done|].
    destruct (not_found_marker e); [done|]. destruct (timeout_marker e); [done|].
    split; [done | apply unknown_message_shows_error].
Qed.

Lemma general_response_error_message_timeout :
  generate_general_response
    (Scenario.failing (Py.lit "Timeout of 60.0s exceeded")) (Py.lit "hello")
    Scenario.fresh
  = (Ok (Py.lit "The request timed out. Please try again with a shorter query."),
     count_call Scenario.fresh)
  /\ Py.contains (Py.lit "Timeout of 60.0s exceeded")
       (Py.lit "The request timed out. Please try again with a shorter query.")
     = false.
Proof.
  destruct (general_response_error_message
              (Scenario.failing (Py.lit "Timeout of 60.0s exceeded"))
              (Py.lit "hello") (Py.lit "Timeout of 60.0s exceeded") Scenario.fresh
              eq_refl)
    as (message & Hrun & _ & _ & _ & Htimeout & _ & Hhidden & _).
  rewrite <- (Htimeout eq_refl eq_refl eq_refl eq_refl).
  split; [exact Hrun|]. by apply Hhidden.
Defined.

(** C8, as stated, fails: an error of no known class is returned to the
    caller word for word. *)
Lemma unknown_error_text_is_returned :
  classified Scenario.connection_error = false
  /\ generate_general_response (Scenario.failing Scenario.connection_error)
       (Py.lit "hello") Scenario.fresh
     = (Ok (Py.lit "I encountered an error: connection reset by peer... Please try again."),
        count_call Scenario.fresh)
  /\ Py.contains Scenario.connection_error
       (Py.lit "I encountered an error: connection reset by peer... Please try again.")
     = true.
Proof. repeat split. Qed.

(** ** Context assembly *)

Lemma total_length_app (a b : list str) :
  total_length (a ++ b) = total_length a + total_length b.
Proof. induction a as [|x a IH]; simpl; [done | rewrite IH; lia]. Qed.

Lemma len_nonneg (s : str) : 0 <= Py.len s.
Proof. unfold Py.len. lia. Qed.

(** The loop, for any state of its accumulators: it adds the texts and the
    source references of a prefix of the chunks it is given, the longest
    one that fits. *)
Lemma assemble_loop_spec (chunks : list Chunk) :
  forall (current_length : Z) (context_parts : list str) (sources : list SourceRef),
  exists n : nat,
    assemble_loop chunks current_length context_parts sources
    = (context_parts ++ map content (take n chunks),
       sources ++ map source_ref (take n chunks))
    /\ (current_length <= max_context_length ->
        current_length + total_length (map content (take n chunks))
        <= max_context_length)
    /\ (n = length chunks
        \/ exists next, chunks !! n = Some next
             /\ current_length + total_length (map content (take n chunks))
                + Py.len (content next) > max_context_length).
Proof.
  induction chunks as [|chunk rest IH]; intros cur parts srcs.
  - exists 0%nat. simpl. rewrite !app_nil_r. repeat split; [lia | by left].
  - simpl. destruct (cur + Py.len (content chunk) >? max_context_length) eqn:Hgt.
    + exists 0%nat. simpl. rewrite !app_nil_r. repeat split; [lia|].
      right. exists chunk. split; [done | lia].
    + destruct (IH (cur + Py.len (content chunk)) (parts ++ [content chunk])
                  (srcs ++ [source_ref chunk])) as [n (Heq & Hfit & Hmax)].
      exists (S n). simpl. rewrite Heq, <- !app_assoc. simpl.
      repeat split.
      * intros _. assert (Hle : cur + Py.len (content chunk) <= max_context_length) by lia.
        specialize (Hfit Hle). lia.
      * destruct Hmax as [-> | [next [Hn Hover]]]; [by left|].
        right. exists next. split; [done | lia].
Qed.

(** C4: for every ranked result list, context assembly includes a prefix
    of it, the longest whose texts fit in [max_context_length] (2000): the
    total length of the included texts is at most 2000, the source list has
    one entry per included chunk in rank order, and the first chunk left
    out, if any, would exceed the budget.  When the first chunk alone
    exceeds the budget nothing is included, and [generate_rag_response]
    answers with the general response and no sources; when chunks are
    included and the grounded generation succeeds, it answers with the
    source references of the included chunks. *)
Theorem context_assembly_greedy_prefix (relevant_chunks : list Chunk) :
  exists n : nat,
    let included := take n relevant_chunks in
    assemble relevant_chunks = (map content included, map source_ref included)
    /\ total_length (map content included) <= max_context_length
    /\ length (map source_ref included) = length (map content included)
    /\ (n = length relevant_chunks
        \/ exists next, relevant_chunks !! n = Some next
             /\ total_length (map content included) + Py.len (content next)
                > max_context_length)
    /\ (forall first rest,
          relevant_chunks = first :: rest ->
          Py.len (content first) > max_context_length ->
          n = 0%nat
          /\ forall svc embedding_model query user_id w w1 w2,
               check_collection svc query user_id w = (Ok None, w1) ->
               search_relevant_chunks svc embedding_model user_id query
                 default_top_k w1 = (Ok relevant_chunks, w2) ->
               exists general w3,
                 generate_general_response svc query w2 = (Ok general, w3)
                 /\ generate_rag_response svc embedding_model query user_id w
                    = (Ok (general, []), w3))
    /\ (forall svc embedding_model query user_id w w1 w2 response,
          n <> 0%nat ->
          check_collection svc query user_id w = (Ok None, w1) ->
          search_relevant_chunks svc embedding_model user_id query
            default_top_k w1 = (Ok relevant_chunks, w2) ->
          generate_content svc (generate_calls w2)
            (rag_prompt (Py.join (newline ++ newline) (map content included))
               query) = Ok response ->
          generate_rag_response svc embedding_model query user_id w
          = (Ok (response, map source_ref included), count_call w2)).
Proof.
  destruct (assemble_loop_spec relevant_chunks 0 [] []) as [n (Heq & Hfit & Hmax)].
  exists n. cbv zeta. simpl in Heq.
  split; [done|]. split; [unfold max_context_length in *; lia|].
  split; [by rewrite !length_map|]. split; [|split].
  - destruct Hmax as [-> | [next [Hn Hover]]]; [by left|].
    right. exists next. split; [done | lia].
  - intros first rest Hchunks Hlong.
    assert (Hn : n = 0%nat).
    { subst relevant_chunks. destruct n as [|n]; [done|]. simpl in Hfit.
      pose proof (len_nonneg (content first)).
      assert (0 <= total_length (map content (take n rest))).
      { clear. induction (take n rest) as [|x l IH]; simpl; [lia|].
        pose proof (len_nonneg (content x)). lia. }
      unfold max_context_length in *. lia. }
    split; [done|].
    intros svc embedding_model query user_id w w1 w2 Hcheck Hsearch.
    subst n. rewrite generate_general_response_run. eexists _, _.
    split; [reflexivity|].
    unfold generate_rag_response, try_except, bind.
    rewrite Hcheck, Hsearch. subst relevant_chunks.
    unfold assemble. rewrite Heq. simpl.
    by rewrite generate_general_response_run.
  - intros svc embedding_model query user_id w w1 w2 response Hn Hcheck Hsearch Hgen.
    unfold generate_rag_response, try_except, bind.
    rewrite Hcheck, Hsearch.
    destruct relevant_chunks as [|first rest].
    { exfalso. destruct Hmax as [-> | [next [Hnext _]]]; [by apply Hn|].
      by rewrite lookup_nil in Hnext. }
    unfold assemble. rewrite Heq.
    destruct n as [|n]; [done|]. simpl in *.
    unfold gemini_generate. by rewrite Hgen.
Qed.

(** A collection whose only chunk has 2001 characters: the chunk is
    retrieved, nothing is included, and the answer is the general one. *)
Lemma context_assembly_oversized_first_chunk :
  exists general w3,
    generate_general_response (Scenario.ranked [Scenario.oversized_hit])
      (Py.lit "What is in my notes?") Scenario.oversized_world = (Ok general, w3)
    /\ generate_rag_response (Scenario.ranked [Scenario.oversized_hit])
         GeminiEmbedding (Py.lit "What is in my notes?") (Py.lit "u1")
         Scenario.oversized_world
       = (Ok (general, []), w3).
Proof.
  destruct (context_assembly_greedy_prefix [Scenario.oversized_hit])
    as [n (_ & _ & _ & _ & H & _)].
  destruct (H Scenario.oversized_hit [] eq_refl ltac:(vm_compute; reflexivity))
    as [_ Hfallback].
  apply (Hfallback (Scenario.ranked [Scenario.oversized_hit]) GeminiEmbedding
           (Py.lit "What is in my notes?") (Py.lit "u1")
           Scenario.oversized_world Scenario.oversized_world
           Scenario.oversized_world);
    vm_compute; reflexivity.
Defined.

(** Scenario A: one short chunk is stored for user [u1]; the answer is
    grounded on it, with one source reference of relevance 1 - 0.25. *)
Example generate_rag_response_scenario_A :
  generate_rag_response (Scenario.ranked [Scenario.sky_hit]) GeminiEmbedding
    (Py.lit "What color is the sky?") (Py.lit "u1") Scenario.sky_world
  = (Ok (rag_prompt Scenario.sky_text (Py.lit "What color is the sky?"),
         [{| ref_source := Py.lit "notes.txt";
             ref_content_type := Py.lit "text/plain";
             relevance_score := 0.75%float |}]),
     count_call Scenario.sky_world).
Proof. by vm_compute. Qed.

(** ** The hash-based embedding *)

Section Bytes.

(** A property of bytes that holds on each of the 256 bytes. *)
Lemma byte_cases (P : Z -> bool) :
  forallb P (map Z.of_nat (seq 0 256)) = true ->
  forall b, 0 <= b < 256 -> P b = true.
Proof.
  intros H b Hb. rewrite forallb_forall in H. apply H.
  apply in_map_iff. exists (Z.to_nat b). split; [lia|].
  apply in_seq. lia.
Qed.

Lemma le_bytes_range (n : nat) (x : Z) :
  Forall (fun b => 0 <= b < 256) (MD5.le_bytes n x).
Proof.
  unfold MD5.le_bytes. apply Forall_forall. intros b Hb.
  apply list_elem_of_In, in_map_iff in Hb as [k [<- _]].
  apply Z.mod_pos_bound. lia.
Qed.

(** The digest has 16 bytes. *)
Lemma digest_bytes (msg : list Z) :
  length (MD5.digest msg) = 16%nat
  /\ Forall (fun b => 0 <= b < 256) (MD5.digest msg).
Proof.
  unfold MD5.digest.
  destruct (fold_left MD5.process_block _ MD5.initial) as [[[a b] c] d].
  split; [reflexivity|].
  repeat (apply Forall_app; split); apply le_bytes_range.
Qed.

Lemma int16_hex_pair (b : Z) :
  0 <= b < 256 ->
  HashEmbedding.int16 [MD5.hex_digit (b / 16); MD5.hex_digit (b mod 16)] = Ok b.
Proof.
  intros Hb.
  pose (P := fun b =>
    match HashEmbedding.int16 [MD5.hex_digit (b / 16); MD5.hex_digit (b mod 16)] with
    | Ok n => n =? b
    | Raise _ => false
    end).
  assert (H : P b = true) by (apply byte_cases; [by vm_compute | done]).
  unfold P in H.
  destruct (HashEmbedding.int16 _) as [n|]; [|done].
  apply Z.eqb_eq in H. by subst.
Qed.

Lemma component_in_unit_interval (b : Z) :
  0 <= b < 256 -> HashEmbedding.in_unit_interval (component b) = true.
Proof.
  apply (byte_cases (fun b => HashEmbedding.in_unit_interval (component b))).
  by vm_compute.
Qed.




End Bytes.

Section HashEmbeddingFacts.

Import HashEmbedding.

Lemma traverse_Forall2 {A B : Type} (g : A -> result B) (xs : list A) (ys : list B) :
  Forall2 (fun x y => g x = Ok y) xs ys -> traverse g xs = Ok ys.
Proof.
  induction 1 as [|x y xs ys Hxy _ IH]; simpl; [done|]. by rewrite Hxy, IH.
Qed.

Lemma traverse_map {A B C : Type} (f : A -> B) (g : B -> result C) (l : list A) :
  traverse (fun x => g (f x)) l = traverse g (map f l).
Proof. induction l as [|x l IH]; simpl; [done|]. by rewrite IH. Qed.

Lemma traverse_total {A B : Type} (g : A -> result B) (h : A -> B) (xs : list A) :
  (forall x, g x = Ok (h x)) -> traverse g xs = Ok (map h xs).
Proof.
  intros H. apply traverse_Forall2. induction xs; constructor; auto.
Qed.

Lemma traverse_in {A B : Type} (g : A -> result B) (h : A -> B) (xs : list A) :
  (forall x, In x xs -> g x = Ok (h x)) -> traverse g xs = Ok (map h xs).
Proof.
  induction xs as [|x xs IH]; intros H; simpl; [done|].
  rewrite (H x) by by left. rewrite IH; [done|].
  intros y Hy. apply H. by right.
Qed.

Lemma traverse_raises {A B : Type} (g : A -> result B) (xs : list A) (x : A) (e : str) :
  In x xs -> g x = Raise e -> exists e', traverse g xs = Raise e'.
Proof.
  induction xs as [|y xs IH]; intros Hin Hx; simpl; [done|].
  destruct (g y) as [b|e1] eqn:Hy; [|by exists e1].
  destruct Hin as [-> | Hin]; [congruence|].
  destruct (IH Hin Hx) as [e' ->]. by exists e'.
Qed.

(** The two-character slices the loop reads from a digest of 16 pairs of
    hexadecimal digits are these pairs, in order. *)
Lemma slices_of_pairs (ps : list (ascii * ascii)) :
  length ps = 16%nat ->
  let text_hash := flat_map (fun p => [p.1; p.2]) ps in
  map (fun i => Py.slice text_hash i (i + 2))
      (Py.range 0 (Z.min (Py.len text_hash) 384) 2)
  = map (fun p => [p.1; p.2]) ps.
Proof.
  intros Hlen.
  do 16 (destruct ps as [|[? ?] ps]; [discriminate Hlen|]).
  destruct ps; [|discriminate Hlen]. reflexivity.
Qed.

Lemma hexdigest_pairs (msg : list Z) :
  MD5.hexdigest msg
  = flat_map (fun p => [p.1; p.2]) (map hex_pair (MD5.digest msg)).
Proof.
  unfold MD5.hexdigest. induction (MD5.digest msg) as [|b bs IH]; simpl; [done|].
  by rewrite IH.
Qed.

(** The embedding in closed form: the 16 components of the digest, then
    368 zeros. *)
Lemma digest_embedding (data : list Z) :
  (embedding ←
     traverse
       (fun i => n ← int16 (Py.slice (MD5.hexdigest data) i (i + 2));
                 mret (Py.float_of_int n / 255)%float)
       (Py.range 0 (Z.min (Py.len (MD5.hexdigest data)) 384) 2);
   mret (firstn dimension (pad embedding)))
  = Ok (map component (MD5.digest data) ++ repeat 0%float 368).
Proof.
  destruct (digest_bytes data) as [Hlen Hrange].
  rewrite hexdigest_pairs.
  set (ps := map hex_pair (MD5.digest data)).
  set (g := fun s : str => n ← int16 s; mret (Py.float_of_int n / 255)%float).
  change (traverse _ ?l) with
    (traverse (fun i => g (Py.slice (flat_map (fun p => [p.1; p.2]) ps) i (i + 2))) l).
  rewrite (traverse_map (fun i => Py.slice _ i (i + 2)) g).
  rewrite slices_of_pairs by (unfold ps; by rewrite length_map).
  unfold ps. rewrite map_map.
  rewrite (traverse_Forall2 g _ (map component (MD5.digest data))).
  - simpl. unfold pad. rewrite length_map, Hlen.
    rewrite firstn_all2; [done|].
    rewrite length_app, length_map, Hlen, repeat_length. unfold dimension. lia.
  - clear Hlen ps. induction Hrange as [|b bs Hb _ IH]; simpl; [constructor|].
    constructor; [|done]. unfold g, hex_pair. cbn [fst snd].
    by rewrite (int16_hex_pair b Hb).
Qed.

Lemma hash_embedding_closed_form (text : str) :
  hash_embedding text
  = Ok (map component (MD5.digest (Py.encode text)) ++ repeat 0%float 368).
Proof.
  destruct (digest_bytes (Py.encode text)) as [Hlen Hrange].
  unfold hash_embedding. rewrite hexdigest_pairs.
  set (ps := map hex_pair (MD5.digest (Py.encode text))).
  set (g := fun s : str => n ← int16 s; mret (Py.float_of_int n / 255)%float).
  change (traverse _ ?l) with
    (traverse (fun i => g (Py.slice (flat_map (fun p => [p.1; p.2]) ps) i (i + 2))) l).
  rewrite (traverse_map (fun i => Py.slice _ i (i + 2)) g).
  rewrite slices_of_pairs by (unfold ps; by rewrite length_map).
  unfold ps. rewrite map_map.
  rewrite (traverse_Forall2 g _ (map component (MD5.digest (Py.encode text)))).
  - simpl. unfold pad. rewrite length_map, Hlen.
    rewrite firstn_all2; [done|].
    rewrite length_app, length_map, Hlen, repeat_length. unfold dimension. lia.
  - clear Hlen ps. induction Hrange as [|b bs Hb _ IH]; simpl; [constructor|].
    constructor; [|done]. unfold g, hex_pair. cbn [fst snd].
    by rewrite (int16_hex_pair b Hb).
Qed.

Lemma generate_hash_embeddings_closed_form (texts : list str) :
  _generate_hash_embeddings texts
  = Ok (map (fun text => map component (MD5.digest (Py.encode text))
                         ++ repeat 0%float 368) texts).
Proof. apply traverse_total, hash_embedding_closed_form. Qed.

End HashEmbeddingFacts.



(** *** Texts that cannot be encoded *)

Section UnicodeFacts.

(** A Latin-1 character is not a surrogate, and its bytes are those of
    [Py.encode]. *)
Lemma latin1_char (c : ascii) :
  Unicode.is_surrogate (N.of_nat (nat_of_ascii c)) = false
  /\ Unicode.encode_char (N.of_nat (nat_of_ascii c)) = Py.encode_char c.
Proof. destruct c as [[] [] [] [] [] [] [] []]; by vm_compute. Qed.

Lemma encode_from_latin1 (i : nat) (s : str) :
  Unicode.encode_from i (Unicode.of_latin1 s) = Ok (Py.encode s).
Proof.
  revert i. induction s as [|c s IH]; intros i; [done|].
  destruct (latin1_char c) as [Hs Hc].
  cbn [Unicode.of_latin1 map Unicode.encode_from]. rewrite Hs.
  fold (Unicode.of_latin1 s). rewrite IH, Hc. reflexivity.
Qed.

(** On Latin-1 text the two embeddings of [text.encode()] agree, and so
    do the two embeddings of [_generate_hash_embeddings]. *)
Lemma encode_latin1 (s : str) : Unicode.encode (Unicode.of_latin1 s) = Ok (Py.encode s).
Proof. apply encode_from_latin1. Qed.

Lemma encodable_latin1 (s : str) : Unicode.encodable (Unicode.of_latin1 s) = true.
Proof.
  induction s as [|c s IH]; [done|]. destruct (latin1_char c) as [Hs _].
  cbn [Unicode.of_latin1 map Unicode.encodable forallb]. rewrite Hs.
  exact IH.
Qed.

Lemma hash_embedding_latin1 (s : str) :
  Unicode.hash_embedding (Unicode.of_latin1 s) = HashEmbedding.hash_embedding s.
Proof. unfold Unicode.hash_embedding. by rewrite encode_latin1. Qed.

Lemma generate_hash_embeddings_latin1 (texts : list str) :
  Unicode._generate_hash_embeddings (map Unicode.of_latin1 texts)
  = HashEmbedding._generate_hash_embeddings texts.
Proof.
  unfold Unicode._generate_hash_embeddings, HashEmbedding._generate_hash_embeddings.
  rewrite <- traverse_map. induction texts as [|s texts IH]; [done|].
  cbn [traverse]. by rewrite hash_embedding_latin1, IH.
Qed.

Lemma encode_from_encodable (i : nat) (s : Unicode.text) :
  Unicode.encodable s = true ->
  Unicode.encode_from i s = Ok (flat_map Unicode.encode_char s).
Proof.
  revert i. induction s as [|c s IH]; intros i; [done|].
  cbn [Unicode.encodable forallb Unicode.encode_from flat_map].
  intros H. apply andb_true_iff in H as [Hc Hs].
  apply negb_true_iff in Hc. rewrite Hc, (IH _ Hs). reflexivity.
Qed.

Lemma encode_from_surrogate (i : nat) (s : Unicode.text) :
  Unicode.encodable s = false -> exists e, Unicode.encode_from i s = Raise e.
Proof.
  revert i. induction s as [|c s IH]; intros i; [done|].
  cbn [Unicode.encodable forallb Unicode.encode_from].
  destruct (Unicode.is_surrogate c); [by eexists|].
  intros H. destruct (IH (S i) H) as [e ->]. by exists e.
Qed.

(** A text is embedded exactly when it can be encoded. *)
Lemma hash_embedding_encodable (text : Unicode.text) :
  Unicode.encodable text = true ->
  Unicode.hash_embedding text = Ok (text_vector text)
  /\ length (text_vector text) = 384%nat
  /\ forallb HashEmbedding.in_unit_interval (text_vector text) = true.
Proof.
  intros H. unfold Unicode.hash_embedding, text_vector, Unicode.encode.
  rewrite (encode_from_encodable 0 text H).
  set (data := flat_map Unicode.encode_char text).
  split; [apply digest_embedding|].
  destruct (digest_bytes data) as [Hlen Hrange]. split.
  - by rewrite length_app, length_map, Hlen, repeat_length.
  - rewrite forallb_app. apply andb_true_iff. split; [|by vm_compute].
    apply forallb_forall. intros x Hx.
    apply in_map_iff in Hx as [b [<- Hb]].
    apply component_in_unit_interval.
    rewrite Forall_forall in Hrange. by apply Hrange, list_elem_of_In.
Qed.

Lemma hash_embedding_surrogate (text : Unicode.text) :
  Unicode.encodable text = false ->
  exists e, Unicode.encode text = Raise e /\ Unicode.hash_embedding text = Raise e.
Proof.
  intros H. destruct (encode_from_surrogate 0 text H) as [e He].
  exists e. split; [done|]. unfold Unicode.hash_embedding, Unicode.encode.
  by rewrite He.
Qed.

Lemma generate_hash_embeddings_encodable (texts : list Unicode.text) :
  forallb Unicode.encodable texts = true ->
  Unicode._generate_hash_embeddings texts = Ok (map text_vector texts).
Proof.
  intros H. apply traverse_in. intros text Hin.
  apply hash_embedding_encodable.
  rewrite forallb_forall in H. by apply H.
Qed.

Lemma generate_hash_embeddings_surrogate (texts : list Unicode.text) :
  forallb Unicode.encodable texts = false ->
  exists e, Unicode._generate_hash_embeddings texts = Raise e.
Proof.
  intros H.
  assert (Hex : exists text, In text texts /\ Unicode.encodable text = false).
  { induction texts as [|text texts IH]; [done|]. simpl in H.
    destruct (Unicode.encodable text) eqn:Ht.
    - destruct (IH H) as [t [Hin Hf]]. exists t. split; [by right | done].
    - exists text. split; [by left | done]. }
  destruct Hex as [text [Hin Hf]].
  destruct (hash_embedding_surrogate text Hf) as [e [_ He]].
  by apply (traverse_raises _ texts text e).
Qed.

End UnicodeFacts.

(** C3, at a failing input: a text that ends in half of a pair of
    surrogates cannot be encoded, [text.encode()] raises
    [UnicodeEncodeError], and [_generate_hash_embeddings] returns no vector
    for it, nor for any other text of a batch that holds it. *)
Theorem hash_embedding_lone_surrogate :
  Unicode.encodable lone_surrogate = false
  /\ Unicode._generate_hash_embeddings [lone_surrogate]
     = Raise (Py.lit "'utf-8' codec can't encode character '\ud83d' in position 7: surrogates not allowed")
  /\ forall before after,
       exists e,
         Unicode._generate_hash_embeddings (before ++ lone_surrogate :: after)
         = Raise e.
Proof.
  split; [reflexivity|]. split; [by vm_compute|].
  intros before after. apply generate_hash_embeddings_surrogate.
  rewrite forallb_app. simpl.
  change (Unicode.encodable lone_surrogate) with false.
  by rewrite andb_false_r.
Qed.

(** The encoding against Python, on texts with code points of two, three
    and four bytes, and the message of the error on a run of surrogates. *)
Example encode_values :
  Unicode.encode [0xE9; 0x20AC; 0x1F600]%N
  = Ok [0xc3; 0xa9; 0xe2; 0x82; 0xac; 0xf0; 0x9f; 0x98; 0x80]
  /\ Unicode.encode [0x7FF; 0x800; 0xFFFF; 0x10000; 0x10FFFF; 0xD7FF; 0xE000]%N
     = Ok [0xdf; 0xbf; 0xe0; 0xa0; 0x80; 0xef; 0xbf; 0xbf; 0xf0; 0x90; 0x80; 0x80;
           0xf4; 0x8f; 0xbf; 0xbf; 0xed; 0x9f; 0xbf; 0xee; 0x80; 0x80]
  /\ (MD5.hexdigest <$> Unicode.encode [0xE9; 0x20AC; 0x1F600]%N)
     = Ok (Py.lit "3b07a39fef0ac5d7ef21575e7315a482")
  /\ Unicode.encode [0xDFFF; 0xD800; 0xDBFF; 0x78; 0xD800]%N
     = Raise (Py.lit "'utf-8' codec can't encode characters in position 0-2: surrogates not allowed")
  /\ Unicode.encode (Unicode.of_latin1 (Py.lit "ab") ++ [0xDCE9; 0x20; 0xD800]%N)
     = Raise (Py.lit "'utf-8' codec can't encode character '\udce9' in position 2: surrogates not allowed").
Proof. split_and!; by vm_compute. Qed.

(** Two texts and their two vectors. *)
Example hash_embedding_distinguishes :
  HashEmbedding.hash_embedding (Py.lit "The sky is blue.")
  <> HashEmbedding.hash_embedding (Py.lit "The sky is blue!").
Proof. by vm_compute. Qed.

(** C10: for every text the hash-based embedding has at most 16 non-zero
    components: components 0..15 are derived from the 16 bytes of the MD5
    digest, and components 16..383 are exactly 0.0. *)
Theorem hash_embedding_tail_is_zero (text : str) :
  exists v,
    HashEmbedding.hash_embedding text = Ok v
    /\ take 16 v = map component (MD5.digest (Py.encode text))
    /\ drop 16 v = repeat 0%float 368
    /\ (length (filter (fun x => HashEmbedding.is_zero x = false) v) <= 16)%nat.
Proof.
  destruct (digest_bytes (Py.encode text)) as [Hlen _].
  eexists. split; [apply hash_embedding_closed_form|].
  assert (Hl : length (map component (MD5.digest (Py.encode text))) = 16%nat)
    by by rewrite length_map.
  repeat split.
  - by rewrite take_app_length'.
  - by rewrite drop_app_length'.
  - rewrite filter_app, length_app.
    pose proof (length_filter (fun x => HashEmbedding.is_zero x = false)
                  (map component (MD5.digest (Py.encode text)))) as Hf.
    rewrite Hl in Hf.
    assert (Hz : filter (fun x => HashEmbedding.is_zero x = false)
                   (repeat 0%float 368) = []) by by vm_compute.
    rewrite Hz. simpl. lia.
Qed.

(** ** Retrieval *)

Section Retrieval.

Variable svc : Services.
Variable embedding_model : EmbeddingModel.

(** [generate_embeddings] never raises: its last resort is the hash-based
    embedding. *)
Lemma generate_embeddings_returns (texts : list str) :
  exists embeddings, generate_embeddings svc embedding_model texts = Ok embeddings.
Proof.
  unfold generate_embeddings.
  match goal with |- context [match ?a with Ok _ => _ | Raise _ => _ end] =>
    destruct a as [embeddings|e] end.
  - by exists embeddings.
  - rewrite generate_hash_embeddings_closed_form. by eexists.
Qed.

Lemma traverse_length {A B : Type} (g : A -> result B) (xs : list A) (ys : list B) :
  traverse g xs = Ok ys -> length ys = length xs.
Proof.
  revert ys. induction xs as [|x xs IH]; intros ys; simpl.
  - by intros [= <-].
  - destruct (g x) as [y|]; [|done].
    destruct (traverse g xs) as [ys'|]; [|done].
    intros [= <-]. simpl. by rewrite (IH ys').
Qed.

(** The formatted list has one chunk per document of the first inner list. *)
Lemma format_results_length (results : QueryResult) (chunks : list Chunk) :
  format_results results = Ok chunks ->
  length chunks = length (default [] (documents results !! 0%nat)).
Proof.
  unfold format_results.
  destruct (documents results) as [|[|doc docs] rest]; intros H;
    [by injection H as <-.. |].
  apply traverse_length in H. rewrite H.
  unfold enumerate. rewrite length_zip, length_seq. simpl. lia.
Qed.

(** What [search_relevant_chunks] computes: the world is left as it was,
    and every failure turns into the empty list. *)
Lemma search_relevant_chunks_run (user_id query : str) (top_k : Z) (w : World) :
  search_relevant_chunks svc embedding_model user_id query top_k w
  = (Ok match collections w !! collection_name user_id with
        | None => []
        | Some c =>
            match generate_embeddings svc embedding_model [query] with
            | Raise _ => []
            | Ok query_embeddings =>
                match query_index svc c query_embeddings top_k
                      ≫= format_results with
                | Ok relevant_chunks => relevant_chunks
                | Raise _ => []
                end
            end
        end, w).
Proof.
  unfold search_relevant_chunks, try_except, bind, get_user_collection.
  destruct (collections w !! collection_name user_id) as [c|] eqn:Hc; [|done].
  unfold lift. destruct (generate_embeddings _ _ _) as [embs|]; [|done].
  unfold collection_query, read_collection. rewrite Hc.
  destruct (query_index svc c embs top_k) as [results|]; [|done].
  simpl. by destruct (format_results results).
Qed.

End Retrieval.

(** C9 (amended): called without an explicit [top_k],
    [search_relevant_chunks] asks the vector index for the 5 nearest
    neighbours, and, the index answering with at most as many documents as
    it is asked for, returns at most 5 chunks; it leaves the world as it
    was.  A chunk carries its content, metadata and distance; the relevance
    score [1 - distance] is computed from it by [generate_rag_response]. *)
Theorem search_default_top_k (svc : Services) (embedding_model : EmbeddingModel)
    (user_id query : str) (w : World) :
  (forall c embeddings k results docs,
     0 <= k ->
     query_index svc c embeddings k = Ok results ->
     documents results !! 0%nat = Some docs ->
     Z.of_nat (length docs) <= k) ->
  exists relevant_chunks,
    search_relevant_chunks svc embedding_model user_id query default_top_k w
    = (Ok relevant_chunks, w)
    /\ default_top_k = 5
    /\ Z.of_nat (length relevant_chunks) <= 5
    /\ (forall c query_embeddings,
          collections w !! collection_name user_id = Some c ->
          generate_embeddings svc embedding_model [query] = Ok query_embeddings ->
          relevant_chunks
          = match query_index svc c query_embeddings 5 ≫= format_results with
            | Ok chunks => chunks
            | Raise _ => []
            end)
    /\ Forall (fun chunk =>
                 relevance_score (source_ref chunk) = (1 - distance chunk)%float)
              relevant_chunks.
Proof.
  intros Hindex. rewrite search_relevant_chunks_run. eexists.
  split; [reflexivity|]. split; [done|]. split; [|split].
  - destruct (collections w !! collection_name user_id) as [c|]; [|simpl; lia].
    destruct (generate_embeddings _ _ _) as [embs|]; [|simpl; lia].
    destruct (query_index svc c embs default_top_k) as [results|] eqn:Hq;
      [|simpl; lia].
    simpl. destruct (format_results results) as [chunks|] eqn:Hf; [|simpl; lia].
    apply format_results_length in Hf. rewrite Hf.
    destruct (documents results !! 0%nat) as [docs|] eqn:Hd; [|simpl; lia].
    simpl. by apply (Hindex c embs default_top_k results docs).
  - intros c embs Hc He. by rewrite Hc, He.
  - apply Forall_forall. by intros chunk _.
Qed.

Lemma search_default_top_k_five_hits :
  exists relevant_chunks,
    search_relevant_chunks (Scenario.ranked Scenario.five_hits) GeminiEmbedding
      (Py.lit "u1") (Py.lit "What color is the sky?") default_top_k
      Scenario.five_world
    = (Ok relevant_chunks, Scenario.five_world)
    /\ default_top_k = 5
    /\ Z.of_nat (length relevant_chunks) <= 5
    /\ (forall c query_embeddings,
          collections Scenario.five_world !! collection_name (Py.lit "u1") = Some c ->
          generate_embeddings (Scenario.ranked Scenario.five_hits) GeminiEmbedding
            [Py.lit "What color is the sky?"] = Ok query_embeddings ->
          relevant_chunks
          = match Scenario.ranked_query Scenario.five_hits c query_embeddings 5
                  ≫= format_results with
            | Ok chunks => chunks
            | Raise _ => []
            end)
    /\ Forall (fun chunk =>
                 relevance_score (source_ref chunk) = (1 - distance chunk)%float)
              relevant_chunks.
Proof.
  apply (search_default_top_k (Scenario.ranked Scenario.five_hits)).
  intros c embeddings k results docs Hk [= <-] [= <-].
  rewrite length_map, length_take. lia.
Defined.

(** C9, as stated, fails: with five chunks stored and an index that answers
    with as many documents as it is asked for, a call without an explicit
    [top_k] returns five chunks, not three. *)
Lemma search_returns_five_chunks :
  search_relevant_chunks (Scenario.ranked Scenario.five_hits) GeminiEmbedding
    (Py.lit "u1") (Py.lit "What color is the sky?") default_top_k
    Scenario.five_world
  = (Ok Scenario.five_hits, Scenario.five_world)
  /\ length Scenario.five_hits = 5%nat
  /\ VectorStore.count
       (default ∅ (collections Scenario.five_world !! collection_name (Py.lit "u1")))
     = 5.
Proof. repeat split; by vm_compute. Qed.

(** ** Deletion *)

Section Deletion.

Implicit Types (c : Collection) (cid id : str).

Lemma lookup_delete_ids c (ids : list str) id :
  delete_ids c ids !! id = if decide (id ∈ ids) then None else c !! id.
Proof.
  unfold delete_ids. induction ids as [|x ids IH]; cbn [foldr].
  - destruct (decide (id ∈ [])) as [H|]; [by apply elem_of_nil in H | done].
  - destruct (decide (x = id)) as [->|Hne].
    + rewrite lookup_delete_eq.
      destruct (decide (id ∈ id :: ids)) as [|H]; [done | set_solver].
    + rewrite lookup_delete_ne, IH by done.
      destruct (decide (id ∈ ids)) as [H1|H1], (decide (id ∈ x :: ids)) as [H2|H2];
        [done | | | done].
      * exfalso. apply H2. by right.
      * exfalso. apply elem_of_cons in H2 as [->|H2]; [by apply Hne | by apply H1].
Qed.

Lemma elem_of_get_ids c cid id :
  id ∈ get_ids_where_content_id c cid
  <-> exists entry, c !! id = Some entry /\ content_id (metadata entry) = cid.
Proof.
  unfold get_ids_where_content_id. rewrite list_elem_of_fmap. split.
  - intros [[k entry] [-> H]]. apply elem_of_map_to_list in H.
    apply map_lookup_filter_Some in H as [H1 H2]. by exists entry.
  - intros [entry [H1 H2]]. exists (id, entry). split; [done|].
    apply elem_of_map_to_list. by apply map_lookup_filter_Some.
Qed.

(** Deleting the ids that [get] finds for [cid] leaves exactly the chunks
    of the other documents. *)
Lemma delete_ids_get c cid :
  delete_ids c (get_ids_where_content_id c cid) = chunks_not_of cid c.
Proof.
  apply map_eq. intros id. rewrite lookup_delete_ids. unfold chunks_not_of.
  case_decide as Hin.
  - apply elem_of_get_ids in Hin as [entry [H1 H2]]. symmetry.
    apply map_lookup_filter_None. right. intros entry' H1'. simpl.
    rewrite H1 in H1'. injection H1' as <-. by intros ?.
  - destruct (c !! id) as [entry|] eqn:Hc.
    + symmetry. apply map_lookup_filter_Some. split; [done|]. simpl.
      intros Hcid. apply Hin, elem_of_get_ids. by exists entry.
    + symmetry. apply map_lookup_filter_None. by left.
Qed.

Lemma get_ids_nil c cid :
  get_ids_where_content_id c cid = [] <-> chunks_of cid c = ∅.
Proof.
  unfold get_ids_where_content_id, chunks_of.
  rewrite <- map_to_list_empty_iff. split.
  - apply fmap_nil_inv.
  - by intros ->.
Qed.

Lemma count_split c cid :
  VectorStore.count (chunks_not_of cid c)
  = VectorStore.count c - VectorStore.count (chunks_of cid c).
Proof.
  unfold VectorStore.count, chunks_not_of, chunks_of.
  pose proof (map_filter_union_complement
                (fun kv : str * Entry => content_id (metadata kv.2) = cid) c) as Hu.
  pose proof (map_disjoint_filter_complement
                (fun kv : str * Entry => content_id (metadata kv.2) = cid) c) as Hd.
  apply map_size_disj_union in Hd. rewrite Hu in Hd. simpl in *. lia.
Qed.

Lemma chunks_not_of_all c cid : chunks_of cid c = ∅ -> chunks_not_of cid c = c.
Proof.
  intros He. unfold chunks_not_of. apply map_filter_id. intros id entry Hc. simpl.
  intros Hcid. assert (H : chunks_of cid c !! id = Some entry).
  { by apply map_lookup_filter_Some. }
  by rewrite He in H.
Qed.

End Deletion.

(** C6: for a user with a collection, [delete_document] returns without
    an error and replaces the collection by its chunks whose [content_id]
    differs from the given one: every chunk of the document is gone, every
    other chunk is kept as it was, and [count] decreases by the number of
    chunks of the document.  When no chunk matches, the world is left as it
    was. *)
Theorem delete_document_removes_group (user_id cid : str) (w : World) (c : Collection) :
  collections w !! collection_name user_id = Some c ->
  exists w',
    delete_document user_id cid w = (Ok tt, w')
    /\ collections w'
       = <[collection_name user_id := chunks_not_of cid c]> (collections w)
    /\ generate_calls w' = generate_calls w
    /\ (forall id entry,
          chunks_not_of cid c !! id = Some entry
          <-> c !! id = Some entry /\ content_id (metadata entry) <> cid)
    /\ VectorStore.count (chunks_not_of cid c)
       = VectorStore.count c - VectorStore.count (chunks_of cid c)
    /\ (chunks_of cid c = ∅ -> w' = w).
Proof.
  intros Hc.
  assert (Hframe : forall id entry,
            chunks_not_of cid c !! id = Some entry
            <-> c !! id = Some entry /\ content_id (metadata entry) <> cid).
  { intros id entry. unfold chunks_not_of. by rewrite map_lookup_filter_Some. }
  unfold delete_document, try_except, bind.
  rewrite (get_user_collection_found _ _ _ Hc).
  unfold collection_get, read_collection. rewrite Hc.
  destruct (get_ids_where_content_id c cid) as [|id ids] eqn:Hids.
  - apply get_ids_nil in Hids. exists w. simpl.
    split_and!; [done | | done | apply Hframe | apply count_split | done].
    rewrite (chunks_not_of_all _ _ Hids). by rewrite insert_id.
  - unfold collection_delete, update_collection. rewrite Hc.
    rewrite <- Hids, delete_ids_get. eexists. split; [reflexivity|]. simpl.
    split_and!; [done | done | apply Hframe | apply count_split |].
    intros He. apply get_ids_nil in He. by rewrite He in Hids.
Qed.

Lemma delete_document_scenario_D :
  exists w',
    delete_document (Py.lit "u1") (Py.lit "doc-a")
      (Scenario.world_of Scenario.two_documents) = (Ok tt, w')
    /\ collections w'
       = <[collection_name (Py.lit "u1")
           := chunks_not_of (Py.lit "doc-a") Scenario.two_documents]>
           (collections (Scenario.world_of Scenario.two_documents))
    /\ generate_calls w' = generate_calls (Scenario.world_of Scenario.two_documents)
    /\ (forall id entry,
          chunks_not_of (Py.lit "doc-a") Scenario.two_documents !! id = Some entry
          <-> Scenario.two_documents !! id = Some entry
              /\ content_id (metadata entry) <> Py.lit "doc-a")
    /\ VectorStore.count (chunks_not_of (Py.lit "doc-a") Scenario.two_documents)
       = VectorStore.count Scenario.two_documents
         - VectorStore.count (chunks_of (Py.lit "doc-a") Scenario.two_documents)
    /\ (chunks_of (Py.lit "doc-a") Scenario.two_documents = ∅ ->
        w' = Scenario.world_of Scenario.two_documents).
Proof.
  apply (delete_document_removes_group (Py.lit "u1") (Py.lit "doc-a")
           (Scenario.world_of Scenario.two_documents) Scenario.two_documents).
  reflexivity.
Defined.

(** Scenario D: two documents of one user; after one is deleted, [count]
    is the number of chunks of the other. *)
Example delete_document_scenario_D_count :
  VectorStore.count Scenario.two_documents = 3
  /\ (let '(r, w') := delete_document (Py.lit "u1") (Py.lit "doc-a")
                        (Scenario.world_of Scenario.two_documents) in
      (r, VectorStore.count <$> collections w' !! collection_name (Py.lit "u1")))
     = (Ok tt, Some 1)
  /\ (let '(r, w') := delete_document (Py.lit "u1") (Py.lit "doc-c")
                        (Scenario.world_of Scenario.two_documents) in
      (r, VectorStore.count <$> collections w' !! collection_name (Py.lit "u1")))
     = (Ok tt, Some 3).
Proof. repeat split; by vm_compute. Qed.

(** ** The chunker *)

Section StringFacts.

Lemma clamp_id (n i : Z) : 0 <= i <= n -> Py.clamp n i = i.
Proof. unfold Py.clamp. intros H. destruct (i <? 0) eqn:Hi; lia. Qed.

Lemma clamp_over (n i : Z) : 0 <= n <= i -> Py.clamp n i = n.
Proof. unfold Py.clamp. intros H. destruct (i <? 0) eqn:Hi; lia. Qed.

(** The scan answers [best] or an index of the range it was asked about. *)
Lemma rfind_scan_range (s : str) (c : ascii) (lo hi : Z) :
  forall i best,
    let r := Py.rfind_scan s c i lo hi best in
    r = best \/ (lo <= r < hi /\ i <= r < i + Py.len s).
Proof.
  induction s as [|x s IH]; intros i best; simpl; [by left|].
  destruct (IH (i + 1)
              (if (lo <=? i) && (i <? hi) && Ascii.eqb x c then i else best))
    as [H | [H1 H2]].
  - rewrite H. destruct ((lo <=? i) && (i <? hi) && Ascii.eqb x c) eqn:Hc;
      [|by left].
    right. apply andb_true_iff in Hc as [Hc _].
    apply andb_true_iff in Hc as [Hlo Hhi]. unfold Py.len. simpl length. lia.
  - right. unfold Py.len in *. simpl length. lia.
Qed.

Lemma rfind_range (s : str) (c : ascii) (start stop : Z) :
  0 <= start <= stop -> stop <= Py.len s ->
  Py.rfind s c start stop = -1
  \/ (start <= Py.rfind s c start stop < stop).
Proof.
  intros H1 H2. unfold Py.rfind.
  destruct (rfind_scan_range s c (Py.clamp (Py.len s) start)
              (Py.clamp (Py.len s) stop) 0 (-1)) as [H | [[Hlo Hhi] _]];
    [by left|].
  right. revert Hlo Hhi. unfold Py.clamp.
  destruct (start <? 0) eqn:Hs; [lia|]. destruct (stop <? 0) eqn:Ht; lia.
Qed.

Lemma slice_length (s : str) (start stop : Z) :
  0 <= start <= stop -> Py.len (Py.slice s start stop) <= stop - start.
Proof.
  intros Hs. unfold Py.slice, Py.len. rewrite length_take.
  assert (Hhi : Py.clamp (Z.of_nat (length s)) stop <= stop).
  { unfold Py.clamp. destruct (stop <? 0) eqn:H; lia. }
  destruct (Z.le_gt_cases start (Z.of_nat (length s))) as [Hle|Hgt].
  - rewrite (clamp_id _ start) by lia. lia.
  - rewrite (clamp_over _ start) by lia. unfold Py.clamp.
    destruct (stop <? 0) eqn:H; lia.
Qed.

Lemma lstrip_length (s : str) : (length (Py.lstrip s) <= length s)%nat.
Proof.
  induction s as [|c s IH]; simpl; [done|]. destruct (Py.isspace c); simpl; lia.
Qed.

Lemma strip_length (s : str) : Py.len (Py.strip s) <= Py.len s.
Proof.
  unfold Py.strip, Py.rstrip, Py.len. rewrite length_rev.
  pose proof (lstrip_length (rev (Py.lstrip s))) as H1.
  rewrite length_rev in H1. pose proof (lstrip_length s). lia.
Qed.

(** [lstrip] removes a prefix of whitespace. *)
Lemma lstrip_spec (s : str) :
  exists pre, s = pre ++ Py.lstrip s /\ forallb Py.isspace pre = true.
Proof.
  induction s as [|c s [pre [IH1 IH2]]]; simpl; [by exists []|].
  destruct (Py.isspace c) eqn:Hc; [|by exists []].
  exists (c :: pre). simpl. rewrite Hc, IH2. by rewrite <- IH1.
Qed.

(** [strip] removes a prefix and a suffix of whitespace. *)
Lemma strip_spec (s : str) :
  exists pre post,
    s = pre ++ Py.strip s ++ post
    /\ forallb Py.isspace pre = true /\ forallb Py.isspace post = true.
Proof.
  destruct (lstrip_spec s) as [pre [H1 H2]].
  destruct (lstrip_spec (rev (Py.lstrip s))) as [post [H3 H4]].
  exists pre, (rev post). unfold Py.strip, Py.rstrip. split; [|split; [done|]].
  - rewrite <- rev_app_distr, <- H3, rev_involutive. done.
  - rewrite forallb_forall in *. intros c Hc. apply H4. by apply in_rev.
Qed.

Lemma lstrip_no_whitespace (s : str) : no_whitespace s = true -> Py.lstrip s = s.
Proof.
  destruct s as [|c s]; simpl; [done|]. intros H.
  apply andb_true_iff in H as [H _]. by destruct (Py.isspace c).
Qed.

Lemma strip_no_whitespace (s : str) : no_whitespace s = true -> Py.strip s = s.
Proof.
  intros H. unfold Py.strip, Py.rstrip. rewrite (lstrip_no_whitespace s H).
  rewrite lstrip_no_whitespace; [apply rev_involutive|].
  unfold no_whitespace in *. rewrite forallb_forall in *.
  intros c Hc. apply H. by apply in_rev.
Qed.

Lemma slice_no_whitespace (s : str) (start stop : Z) :
  no_whitespace s = true -> no_whitespace (Py.slice s start stop) = true.
Proof.
  unfold no_whitespace, Py.slice. rewrite !forallb_forall. intros H c Hc.
  apply H. apply list_elem_of_In. apply list_elem_of_In in Hc.
  apply elem_of_take in Hc as [i [Hc _]].
  rewrite lookup_drop in Hc. by apply list_elem_of_lookup_2 in Hc.
Qed.

(** A slice that starts inside the text and ends after its start is not
    empty. *)
Lemma slice_truthy (s : str) (start stop : Z) :
  0 <= start < Py.len s -> start < stop -> Py.truthy (Py.slice s start stop) = true.
Proof.
  intros Hs Ht. unfold Py.slice. rewrite (clamp_id _ start) by lia.
  assert (Hhi : start < Py.clamp (Py.len s) stop).
  { unfold Py.clamp. destruct (stop <? 0) eqn:H; lia. }
  destruct (drop (Z.to_nat start) s) as [|c rest] eqn:Hd.
  - apply (f_equal length) in Hd. rewrite length_drop in Hd. simpl in Hd.
    unfold Py.len in Hs. lia.
  - destruct (Z.to_nat (Py.clamp (Py.len s) stop - start)) eqn:Hn; [lia | done].
Qed.

End StringFacts.

Section ChunkerFacts.

Import Chunker.

Variables chunk_size chunk_overlap : Z.
Hypothesis size_positive : 0 < chunk_size.
Hypothesis overlap_bounded : 0 <= chunk_overlap <= chunk_size / 2.
Variable text : str.

(** A window ends past its middle and at most [chunk_size] after its start. *)
Lemma window_end_bounds (start : Z) :
  0 <= start ->
  start + chunk_size / 2 < window_end chunk_size text start <= start + chunk_size.
Proof.
  intros Hs. unfold window_end.
  assert (Hhalf : chunk_size / 2 < chunk_size) by (apply Z.div_lt; lia).
  destruct (start + chunk_size <? Py.len text) eqn:Hend; [|lia].
  destruct (rfind_range text "." start (start + chunk_size)) as [H|H]; [lia..| |];
    destruct (rfind_range text " " start (start + chunk_size)) as [H'|H'];
    try lia;
    destruct (Py.rfind text "." start (start + chunk_size) >? start + chunk_size / 2)
      eqn:H1;
    destruct (Py.rfind text " " start (start + chunk_size) >? start + chunk_size / 2)
      eqn:H2;
    lia.
Qed.

(** Each iteration moves the start of the window forward. *)
Lemma window_end_progress (start : Z) :
  0 <= start -> start < window_end chunk_size text start - chunk_overlap.
Proof. intros Hs. pose proof (window_end_bounds start Hs). lia. Qed.

Lemma chunks_of_windows_app (ws1 ws2 : list (Z * Z)) :
  chunks_of_windows text (ws1 ++ ws2)
  = chunks_of_windows text ws1 ++ chunks_of_windows text ws2.
Proof. unfold chunks_of_windows. by rewrite map_app, List.filter_app. Qed.

(** With one unit of fuel per character left, the loop returns: the
    windows it visits form a chain, and the chunks it returns are those cut
    from these windows. *)
Lemma loop_run (fuel : nat) :
  forall (start : Z) (chunks : list str) (windows : list (Z * Z)),
    0 <= start -> Py.len text - start <= Z.of_nat fuel -> (0 < fuel)%nat ->
    exists new,
      window_chain chunk_size chunk_overlap text start new
      /\ window_loop chunk_size chunk_overlap fuel text start windows
         = Some (windows ++ new)
      /\ chunk_loop chunk_size chunk_overlap fuel text start chunks
         = Some (chunks ++ chunks_of_windows text new).
Proof.
  induction fuel as [|fuel IH]; intros start chunks windows Hs Hfuel Hpos; [lia|].
  cbn [window_loop chunk_loop].
  destruct (start <? Py.len text) eqn:Hlt.
  - pose proof (window_end_progress start Hs) as Hprog.
    set (end_ := window_end chunk_size text start) in *.
    assert (Hcut : (if Py.truthy (Py.strip (Py.slice text start end_))
                    then chunks ++ [Py.strip (Py.slice text start end_)]
                    else chunks)
                   = chunks ++ chunks_of_windows text [(start, end_)]).
    { unfold chunks_of_windows, window_chunk. simpl.
      destruct (Py.truthy _); [done | by rewrite app_nil_r]. }
    cbv zeta. rewrite Hcut.
    destruct (end_ - chunk_overlap >=? Py.len text) eqn:Hge.
    + exists [(start, end_)]. split; [|done].
      apply chain_last; fold end_; lia.
    + destruct (IH (end_ - chunk_overlap)
                  (chunks ++ chunks_of_windows text [(start, end_)])
                  (windows ++ [(start, end_)])) as [new (Hchain & Hw & Hc)];
        [lia..|].
      exists ((start, end_) :: new). split; [|split].
      * apply chain_next; fold end_; [lia | lia | done].
      * rewrite Hw. by rewrite <- app_assoc.
      * rewrite Hc, <- app_assoc. f_equal.
        by rewrite <- chunks_of_windows_app.
  - exists []. rewrite !app_nil_r. split; [|done]. apply chain_none. lia.
Qed.

(** The windows of a chain cover the text from its start on. *)
Lemma chain_cover (start : Z) (windows : list (Z * Z)) :
  window_chain chunk_size chunk_overlap text start windows ->
  forall i, start <= i < Py.len text ->
    exists window, In window windows /\ window.1 <= i < window.2.
Proof.
  induction 1 as [start Hge | start Hlt Hlast | start windows Hlt Hnext _ IH];
    intros i Hi.
  - lia.
  - exists (start, window_end chunk_size text start). split; [by left|].
    simpl. lia.
  - destruct (Z.lt_ge_cases i (window_end chunk_size text start)) as [Hin|Hout].
    + exists (start, window_end chunk_size text start). split; [by left|].
      simpl. lia.
    + destruct (IH i) as [window [Hw Hr]]; [lia|]. exists window.
      split; [by right | done].
Qed.

(** The windows of a chain start inside the text and have at most
    [chunk_size] characters. *)
Lemma chain_bounds (start : Z) (windows : list (Z * Z)) :
  window_chain chunk_size chunk_overlap text start windows ->
  0 <= start ->
  Forall (fun window =>
            0 <= window.1 < Py.len text
            /\ window.1 < window.2 <= window.1 + chunk_size) windows.
Proof.
  induction 1 as [start Hge | start Hlt Hlast | start windows Hlt Hnext _ IH];
    intros Hs.
  - constructor.
  - pose proof (window_end_bounds start Hs).
    assert (0 <= chunk_size / 2) by (apply Z.div_pos; lia).
    repeat constructor; simpl; lia.
  - pose proof (window_end_bounds start Hs).
    assert (0 <= chunk_size / 2) by (apply Z.div_pos; lia).
    constructor; [simpl; lia|]. apply IH.
    pose proof (window_end_progress start Hs). lia.
Qed.

(** A text longer than [chunk_size] has at least two windows. *)
Lemma chain_two_windows (windows : list (Z * Z)) :
  window_chain chunk_size chunk_overlap text 0 windows ->
  chunk_size < Py.len text ->
  (2 <= length windows)%nat.
Proof.
  intros Hchain Hlong. pose proof (window_end_bounds 0 (Z.le_refl 0)) as Hb.
  inversion Hchain as [? Hge | ? Hlt Hlast | ? rest Hlt Hnext Hrest]; subst;
    [lia | lia |].
  inversion Hrest; subst; simpl; lia.
Qed.

(** The chunks cut from windows are not empty, and have at most
    [chunk_size] characters. *)
Lemma chunks_of_windows_bounds (windows : list (Z * Z)) :
  Forall (fun window =>
            0 <= window.1 < Py.len text
            /\ window.1 < window.2 <= window.1 + chunk_size) windows ->
  Forall (fun chunk => chunk <> [] /\ Py.len chunk <= chunk_size)
         (chunks_of_windows text windows).
Proof.
  intros Hw. apply Forall_forall. intros chunk Hc.
  apply list_elem_of_In in Hc. unfold chunks_of_windows in Hc.
  apply List.filter_In in Hc as [Hc Ht].
  apply in_map_iff in Hc as [[s e] [<- Hin]].
  rewrite Forall_forall in Hw. apply list_elem_of_In, Hw in Hin. simpl in Hin.
  split.
  - intros Hnil. unfold window_chunk in *. simpl in *. by rewrite Hnil in Ht.
  - unfold window_chunk. simpl.
    pose proof (strip_length (Py.slice text s e)).
    pose proof (slice_length text s e). lia.
Qed.

(** In a text without whitespace every window gives a chunk: its slice. *)
Lemma chunks_of_windows_no_whitespace (windows : list (Z * Z)) :
  no_whitespace text = true ->
  Forall (fun window =>
            0 <= window.1 < Py.len text
            /\ window.1 < window.2 <= window.1 + chunk_size) windows ->
  chunks_of_windows text windows
  = map (fun window => Py.slice text window.1 window.2) windows.
Proof.
  intros Hns. unfold chunks_of_windows.
  induction 1 as [|[s e] ws Hw _ IH]; simpl; [done|].
  unfold window_chunk at 1. simpl in *.
  rewrite (strip_no_whitespace _ (slice_no_whitespace text s e Hns)).
  rewrite slice_truthy by lia. f_equal; [|exact IH].
  unfold window_chunk. simpl.
  by rewrite (strip_no_whitespace _ (slice_no_whitespace text s e Hns)).
Qed.

End ChunkerFacts.

(** The chunker against Python: the windows visited and the lengths of the
    chunks returned, for a text without boundaries, a text of sentences, a
    text of words and a text of both. *)
Example chunk_text_unbroken :
  Chunker.windows Scenario.unbroken_text = Some [(0, 1000); (800, 1800)]
  /\ Chunker.chunk_text Scenario.unbroken_text
     = Some [repeat "a"%char 1000; repeat "a"%char 201].
Proof. split; by vm_compute. Qed.

Example chunk_text_sentences :
  Chunker.windows Scenario.sentences_text
  = Some [(0, 979); (779, 1779); (1579, 2579)]
  /\ fmap (M := option) (map Py.len) (Chunker.chunk_text Scenario.sentences_text)
     = Some [979; 900; 99].
Proof. split; by vm_compute. Qed.

Example chunk_text_words :
  Chunker.windows Scenario.words_text = Some [(0, 999); (799, 1799)]
  /\ fmap (M := option) (map Py.len) (Chunker.chunk_text Scenario.words_text)
     = Some [999; 699].
Proof. split; by vm_compute. Qed.

Example chunk_text_mixed :
  Chunker.windows Scenario.mixed_text
  = Some [(0, 699); (499, 1499); (1299, 2299)]
  /\ fmap (M := option) (map Py.len) (Chunker.chunk_text Scenario.mixed_text)
     = Some [699; 900; 101].
Proof. split; by vm_compute. Qed.

Example chunk_text_short :
  Chunker.chunk_text (Py.lit "The sky is blue. Water boils at 100C.")
  = Some [Py.lit "The sky is blue. Water boils at 100C."].
Proof. reflexivity. Qed.

(** With an overlap as large as the window the loop makes no progress:
    whatever the fuel, here a thousand iterations, it is still running. *)
Example chunk_loop_needs_the_bound :
  Chunker.chunk_text_fuel 4 4 1000 (Py.lit "abcdefgh") = None.
Proof. by vm_compute. Qed.

Lemma window_chain_deterministic (chunk_size chunk_overlap : Z) (text : str)
    (start : Z) (ws1 ws2 : list (Z * Z)) :
  window_chain chunk_size chunk_overlap text start ws1 ->
  window_chain chunk_size chunk_overlap text start ws2 ->
  ws1 = ws2.
Proof.
  intros H1. revert ws2.
  induction H1 as [start Hge | start Hlt Hlast | start ws1 Hlt Hnext _ IH];
    intros ws2 H2; inversion H2; subst; try lia; [done.. |].
  f_equal. by apply IH.
Qed.

Lemma default_parameters :
  0 < Chunker.default_chunk_size
  /\ 0 <= Chunker.default_chunk_overlap <= Chunker.default_chunk_size / 2.
Proof. by vm_compute. Qed.

(** A long text, run with enough fuel: the windows, and the chunks cut
    from them. *)
Lemma chunk_text_fuel_long (text : str) (fuel : nat) :
  Chunker.default_chunk_size < Py.len text ->
  (length text <= fuel)%nat ->
  exists windows,
    window_chain Chunker.default_chunk_size Chunker.default_chunk_overlap text 0
      windows
    /\ Chunker.windows_fuel Chunker.default_chunk_size
         Chunker.default_chunk_overlap fuel text = Some windows
    /\ Chunker.chunk_text_fuel Chunker.default_chunk_size
         Chunker.default_chunk_overlap fuel text
       = Some (chunks_of_windows text windows).
Proof.
  intros Hlong Hfuel. destruct default_parameters as [Hsize Hoverlap].
  destruct (loop_run _ _ Hsize Hoverlap text fuel 0 [] []) as [new H];
    [done | unfold Py.len; lia | unfold Py.len, Chunker.default_chunk_size in *; lia |].
  exists new. unfold Chunker.windows_fuel, Chunker.chunk_text_fuel.
  destruct (Py.len text <=? Chunker.default_chunk_size) eqn:Hle; [lia | done].
Qed.

(** C7: [chunk_text] terminates for every text.  With [chunk_size] 1000
    and [chunk_overlap] 200 each iteration moves the start of the window
    forward, by more than 300 characters, so the loop returns within one
    iteration per character of the text; more fuel does not change what it
    returns. *)
Theorem chunk_text_terminates (text : str) :
  (forall start,
     0 <= start ->
     start + 300
     < Chunker.window_end Chunker.default_chunk_size text start
       - Chunker.default_chunk_overlap)
  /\ exists chunks,
       Chunker.chunk_text text = Some chunks
       /\ forall fuel,
            (length text <= fuel)%nat ->
            Chunker.chunk_text_fuel Chunker.default_chunk_size
              Chunker.default_chunk_overlap fuel text = Some chunks.
Proof.
  destruct default_parameters as [Hsize Hoverlap]. split.
  - intros start Hs.
    pose proof (window_end_bounds _ _ Hsize Hoverlap text start Hs) as Hb.
    unfold Chunker.default_chunk_size, Chunker.default_chunk_overlap in *.
    change (1000 / 2) with 500 in Hb. lia.
  - destruct (Z.le_gt_cases (Py.len text) Chunker.default_chunk_size) as [Hle|Hgt].
    + exists [text]. unfold Chunker.chunk_text, Chunker.chunk_text_fuel.
      assert (H : (Py.len text <=? Chunker.default_chunk_size) = true) by lia.
      rewrite H. split; [done|]. intros fuel _. done.
    + destruct (chunk_text_fuel_long text (S (length text))) as [ws (Hc & _ & Hr)];
        [lia | lia |].
      exists (chunks_of_windows text ws). split; [exact Hr|].
      intros fuel Hfuel.
      destruct (chunk_text_fuel_long text fuel) as [ws' (Hc' & _ & Hr')];
        [lia | lia |].
      by rewrite (window_chain_deterministic _ _ _ _ _ _ Hc Hc').
Qed.

(** C2 (amended): for every text longer than [chunk_size] (1000),
    [chunk_text] visits at least two windows, each of at most 1000
    characters, each starting 200 characters before the end of the one
    before it, and together covering every character of the text.  The
    chunks returned are, in order, the windows' slices stripped of the
    whitespace at their ends, those that are left empty being dropped: so
    every chunk is non-empty and has at most 1000 characters, and only
    whitespace is left out.  A text without whitespace gives one chunk per
    window, hence at least two chunks. *)
Theorem chunk_text_long_text (text : str) :
  Chunker.default_chunk_size < Py.len text ->
  exists windows chunks,
    Chunker.windows text = Some windows
    /\ Chunker.chunk_text text = Some chunks
    /\ chunks = chunks_of_windows text windows
    /\ window_chain Chunker.default_chunk_size Chunker.default_chunk_overlap
         text 0 windows
    /\ (2 <= length windows)%nat
    /\ Forall (fun window =>
                 0 <= window.1 < Py.len text
                 /\ window.1 < window.2 <= window.1 + Chunker.default_chunk_size)
              windows
    /\ (forall i, 0 <= i < Py.len text ->
          exists window, In window windows /\ window.1 <= i < window.2)
    /\ Forall (fun chunk =>
                 chunk <> [] /\ Py.len chunk <= Chunker.default_chunk_size)
              chunks
    /\ (forall window, In window windows ->
          exists pre post,
            Py.slice text window.1 window.2
            = pre ++ window_chunk text window ++ post
            /\ forallb Py.isspace pre = true
            /\ forallb Py.isspace post = true)
    /\ (no_whitespace text = true ->
        chunks = map (fun window => Py.slice text window.1 window.2) windows
        /\ (2 <= length chunks)%nat).
Proof.
  intros Hlong. destruct default_parameters as [Hsize Hoverlap].
  destruct (chunk_text_fuel_long text (S (length text))) as [ws (Hc & Hw & Hr)];
    [done | lia |].
  pose proof (chain_bounds _ _ Hsize Hoverlap text 0 ws Hc (Z.le_refl 0)) as Hb.
  pose proof (chain_two_windows _ _ Hsize Hoverlap text ws Hc Hlong) as Htwo.
  exists ws, (chunks_of_windows text ws).
  split_and!; try done.
  - intros i Hi. by apply (chain_cover _ _ Hoverlap text 0 ws Hc).
  - by apply chunks_of_windows_bounds.
  - intros window _. apply strip_spec.
  - intros Hns.
    rewrite (chunks_of_windows_no_whitespace Chunker.default_chunk_size) by done.
    by rewrite length_map.
Qed.

Lemma chunk_text_long_text_unbroken :
  exists windows chunks,
    Chunker.windows Scenario.unbroken_text = Some windows
    /\ Chunker.chunk_text Scenario.unbroken_text = Some chunks
    /\ chunks = chunks_of_windows Scenario.unbroken_text windows
    /\ window_chain Chunker.default_chunk_size Chunker.default_chunk_overlap
         Scenario.unbroken_text 0 windows
    /\ (2 <= length windows)%nat
    /\ Forall (fun window =>
                 0 <= window.1 < Py.len Scenario.unbroken_text
                 /\ window.1 < window.2 <= window.1 + Chunker.default_chunk_size)
              windows
    /\ (forall i, 0 <= i < Py.len Scenario.unbroken_text ->
          exists window, In window windows /\ window.1 <= i < window.2)
    /\ Forall (fun chunk =>
                 chunk <> [] /\ Py.len chunk <= Chunker.default_chunk_size)
              chunks
    /\ (forall window, In window windows ->
          exists pre post,
            Py.slice Scenario.unbroken_text window.1 window.2
            = pre ++ window_chunk Scenario.unbroken_text window ++ post
            /\ forallb Py.isspace pre = true
            /\ forallb Py.isspace post = true)
    /\ (no_whitespace Scenario.unbroken_text = true ->
        chunks = map (fun window => Py.slice Scenario.unbroken_text window.1 window.2)
                     windows
        /\ (2 <= length chunks)%nat).
Proof.
  apply (chunk_text_long_text Scenario.unbroken_text). by vm_compute.
Defined.

(** C2, as stated, fails: a text of 1100 characters that ends in 600
    spaces gives a single chunk, and a text of 1001 spaces gives none. *)
Lemma chunk_text_fewer_than_two_chunks :
  Py.len Scenario.padded_text = 1100
  /\ Chunker.chunk_text Scenario.padded_text = Some [repeat "a"%char 500]
  /\ Py.len Scenario.blank_text = 1001
  /\ Chunker.chunk_text Scenario.blank_text = Some [].
Proof. repeat split; by vm_compute. Qed.

(** * Further properties *)

Import Ingestion Further.

(** ** The chunker: what the chunks keep of the text *)

Section ChunkContents.

Lemma slice_split (text : str) (start stop : Z) :
  0 <= start <= Py.len text ->
  exists before after,
    text = before ++ Py.slice text start stop ++ after
    /\ Py.len before = start.
Proof.
  intros Hs. unfold Py.slice. rewrite (clamp_id _ start) by done.
  exists (take (Z.to_nat start) text),
         (drop (Z.to_nat (Py.clamp (Py.len text) stop - start))
               (drop (Z.to_nat start) text)).
  split.
  - by rewrite take_drop, take_drop.
  - unfold Py.len in *. rewrite length_take. lia.
Qed.

Lemma slice_middle (before middle after : str) :
  Py.slice (before ++ middle ++ after) (Py.len before)
    (Py.len before + Py.len middle) = middle.
Proof.
  unfold Py.slice, Py.len. rewrite !length_app.
  rewrite !clamp_id by lia.
  replace (Z.to_nat (Z.of_nat (length before) + Z.of_nat (length middle)
                     - Z.of_nat (length before))) with (length middle) by lia.
  rewrite Nat2Z.id, drop_app_length. by rewrite take_app_length.
Qed.

Lemma slice_length_inside (text : str) (start stop : Z) :
  0 <= start <= Py.len text -> 0 <= stop ->
  Py.len (Py.slice text start stop)
  = Z.max 0 (Z.min stop (Py.len text) - start).
Proof.
  intros Hs He. unfold Py.slice. rewrite (clamp_id _ start) by done.
  assert (Hc : Py.clamp (Py.len text) stop = Z.min stop (Py.len text)).
  { unfold Py.clamp. destruct (stop <? 0) eqn:H; lia. }
  rewrite Hc. unfold Py.len in *. rewrite length_take, length_drop. lia.
Qed.

Lemma slice_all (text : str) : Py.slice text 0 (Py.len text) = text.
Proof.
  pose proof (slice_middle [] text []) as H. simpl in H.
  by rewrite app_nil_r in H.
Qed.

(** A text of whitespace strips to nothing. *)
Lemma lstrip_whitespace (s : str) : forallb Py.isspace s = true -> Py.lstrip s = [].
Proof.
  induction s as [|c s IH]; simpl; [done|]. intros H.
  apply andb_true_iff in H as [Hc Hs]. rewrite Hc. by apply IH.
Qed.

(** A character that is not whitespace, in a text between two runs of
    whitespace, lies in the middle. *)
Lemma lookup_between_whitespace (pre middle post : str) (i : nat) (c : ascii) :
  forallb Py.isspace pre = true -> forallb Py.isspace post = true ->
  (pre ++ middle ++ post) !! i = Some c -> Py.isspace c = false ->
  (length pre <= i < length pre + length middle)%nat.
Proof.
  intros Hpre Hpost Hi Hc. rewrite forallb_forall in Hpre, Hpost.
  destruct (Nat.lt_ge_cases i (length pre)) as [Hlt|Hge].
  - rewrite lookup_app_l in Hi by done.
    apply list_elem_of_lookup_2, list_elem_of_In, Hpre in Hi. congruence.
  - rewrite lookup_app_r in Hi by done.
    destruct (Nat.lt_ge_cases (i - length pre) (length middle)) as [Hlt|Hge'];
      [lia|].
    rewrite lookup_app_r in Hi by done.
    apply list_elem_of_lookup_2, list_elem_of_In, Hpost in Hi. congruence.
Qed.

(** The chunk of a window is the slice of a range inside the window; a
    character of the window that is not whitespace is in that range. *)
Lemma window_chunk_range (text : str) (s e : Z) :
  0 <= s < Py.len text -> s < e ->
  exists s' e',
    s <= s' <= e' /\ e' <= e
    /\ window_chunk text (s, e) = Py.slice text s' e'
    /\ Py.contains (window_chunk text (s, e)) text = true
    /\ forall (i : nat) (c : ascii),
         s <= Z.of_nat i < e -> text !! i = Some c -> Py.isspace c = false ->
         s' <= Z.of_nat i < e'.
Proof.
  intros Hs He. unfold window_chunk. simpl.
  destruct (slice_split text s e) as [before [after [Htext Hbefore]]]; [lia|].
  destruct (strip_spec (Py.slice text s e)) as [pre [post (Hsl & Hpre & Hpost)]].
  set (chunk := Py.strip (Py.slice text s e)) in *.
  assert (Hlen : Py.len (Py.slice text s e) <= e - s) by (apply slice_length; lia).
  assert (Hparts : Py.len (Py.slice text s e)
                   = Py.len pre + Py.len chunk + Py.len post).
  { rewrite Hsl at 1. unfold Py.len. rewrite !length_app. lia. }
  assert (Hwhole : text = (before ++ pre) ++ chunk ++ (post ++ after)).
  { rewrite Htext at 1. rewrite Hsl. by rewrite <- !app_assoc. }
  assert (Hbp : Py.len (before ++ pre) = s + Py.len pre).
  { unfold Py.len in *. rewrite length_app. lia. }
  exists (s + Py.len pre), (s + Py.len pre + Py.len chunk).
  split_and!; try (unfold Py.len in *; lia).
  - rewrite Hwhole at 1. rewrite <- Hbp.
    by rewrite (slice_middle (before ++ pre) chunk (post ++ after)).
  - apply contains_spec. by exists (before ++ pre), (post ++ after).
  - intros i c Hi Hc Hns.
    pose proof (lookup_lt_Some _ _ _ Hc) as Hilt.
    pose proof (slice_length_inside text s e) as Hexact.
    unfold Py.len in *. rewrite Htext in Hc.
    rewrite lookup_app_r in Hc by lia.
    rewrite lookup_app_l in Hc by lia. rewrite Hsl in Hc.
    pose proof (lookup_between_whitespace pre chunk post _ c Hpre Hpost Hc Hns).
    lia.
Qed.

End ChunkContents.

Section ChunkerCoverage.

Lemma chunk_text_cases (text : str) :
  (Py.len text <= Chunker.default_chunk_size
   /\ Chunker.chunk_text text = Some [text])
  \/ (Chunker.default_chunk_size < Py.len text
      /\ exists windows,
           window_chain Chunker.default_chunk_size Chunker.default_chunk_overlap
             text 0 windows
           /\ Chunker.chunk_text text = Some (chunks_of_windows text windows)).
Proof.
  destruct (Z.le_gt_cases (Py.len text) Chunker.default_chunk_size) as [Hle|Hgt].
  - left. split; [done|]. unfold Chunker.chunk_text, Chunker.chunk_text_fuel.
    assert (H : (Py.len text <=? Chunker.default_chunk_size) = true) by lia.
    by rewrite H.
  - right. split; [lia|].
    destruct (chunk_text_fuel_long text (S (length text))) as [ws (Hc & _ & Hr)];
      [lia | lia |].
    by exists ws.
Qed.

Lemma in_chunks_of_windows (text : str) (windows : list (Z * Z)) (window : Z * Z) :
  In window windows -> Py.truthy (window_chunk text window) = true ->
  In (window_chunk text window) (chunks_of_windows text windows).
Proof.
  intros Hin Ht. unfold chunks_of_windows. apply List.filter_In.
  split; [|done]. apply in_map_iff. by exists window.
Qed.

(** A chain that visits a window ends more than 301 characters per further
    window after its start. *)
Lemma chain_length_bound (text : str) (start : Z) (windows : list (Z * Z)) :
  window_chain Chunker.default_chunk_size Chunker.default_chunk_overlap text
    start windows ->
  0 <= start -> windows <> [] ->
  start + 301 * (Z.of_nat (length windows) - 1) < Py.len text.
Proof.
  destruct default_parameters as [Hsize Hoverlap].
  induction 1 as [start Hge | start Hlt Hlast | start windows Hlt Hnext Hrest IH];
    intros Hs Hne; [done | simpl; lia |].
  pose proof (window_end_bounds _ _ Hsize Hoverlap text start Hs) as Hb.
  unfold Chunker.default_chunk_size, Chunker.default_chunk_overlap in *.
  change (1000 / 2) with 500 in Hb.
  assert (Hne' : windows <> []) by (inversion Hrest; subst; [lia | done | done]).
  specialize (IH ltac:(lia) Hne'). simpl length. lia.
Qed.

End ChunkerCoverage.

(** X1: every chunk [chunk_text] returns is a contiguous piece of the
    text it was given. *)
Theorem chunk_text_chunks_are_substrings (text : str) :
  exists chunks,
    Chunker.chunk_text text = Some chunks
    /\ Forall (fun chunk => Py.contains chunk text = true) chunks.
Proof.
  destruct default_parameters as [Hsize Hoverlap].
  destruct (chunk_text_cases text) as [[_ Hr] | [Hlong [ws [Hc Hr]]]].
  - exists [text]. split; [done|]. repeat constructor. apply contains_refl.
  - exists (chunks_of_windows text ws). split; [done|].
    pose proof (chain_bounds _ _ Hsize Hoverlap text 0 ws Hc (Z.le_refl 0)) as Hb.
    rewrite Forall_forall in Hb. apply Forall_forall. intros chunk Hin.
    apply list_elem_of_In, List.filter_In in Hin as [Hin _].
    apply in_map_iff in Hin as [[s e] [<- Hw]].
    apply list_elem_of_In, Hb in Hw. simpl in Hw.
    destruct (window_chunk_range text s e) as [s' [e' (_ & _ & _ & H & _)]];
      [lia | lia | done].
Qed.

(** In a long text, a character that is not whitespace lies in the range
    of a chunk cut from the windows of the chain. *)
Lemma windows_keep_non_whitespace (text : str) (ws : list (Z * Z))
    (i : nat) (c : ascii) :
  window_chain Chunker.default_chunk_size Chunker.default_chunk_overlap text 0 ws ->
  text !! i = Some c -> Py.isspace c = false ->
  exists s e,
    0 <= s /\ s <= Z.of_nat i < e /\ In (Py.slice text s e) (chunks_of_windows text ws).
Proof.
  destruct default_parameters as [Hsize Hoverlap]. intros Hc Hi Hns.
  pose proof (lookup_lt_Some _ _ _ Hi) as Hlt.
  destruct (chain_cover _ _ Hoverlap text 0 ws Hc (Z.of_nat i))
    as [[s e] [Hin Hrange]]; [unfold Py.len; lia|].
  pose proof (chain_bounds _ _ Hsize Hoverlap text 0 ws Hc (Z.le_refl 0)) as Hb.
  rewrite Forall_forall in Hb.
  pose proof (Hb (s, e) ltac:(by apply list_elem_of_In)) as Hw.
  simpl in Hw, Hrange.
  destruct (window_chunk_range text s e) as [s' [e' (Hs' & _ & Heq & _ & Hkeep)]];
    [lia | lia |].
  specialize (Hkeep i c Hrange Hi Hns).
  exists s', e'. split; [lia|]. split; [done|]. rewrite <- Heq.
  apply in_chunks_of_windows; [done|]. rewrite Heq.
  apply slice_truthy; unfold Py.len in *; lia.
Qed.

(** A character inside the bounds of a slice is in the slice, at its
    offset from the start of the slice. *)
Lemma slice_lookup (text : str) (s e : Z) (i : nat) (c : ascii) :
  0 <= s -> s <= Z.of_nat i < e -> text !! i = Some c ->
  Py.slice text s e !! Z.to_nat (Z.of_nat i - s) = Some c.
Proof.
  intros Hs Hi Hc. pose proof (lookup_lt_Some _ _ _ Hc) as Hlt.
  unfold Py.slice, Py.clamp, Py.len.
  assert (H1 : (s <? 0) = false) by lia. assert (H2 : (e <? 0) = false) by lia.
  rewrite H1, H2.
  assert (Hlo : Z.max 0 (Z.min s (Z.of_nat (length text))) = s) by lia.
  rewrite Hlo.
  fold (take (Z.to_nat (Z.max 0 (Z.min e (Z.of_nat (length text))) - s))
          (drop (Z.to_nat s) text)).
  rewrite lookup_take_lt by lia. rewrite lookup_drop.
  replace (Z.to_nat s + Z.to_nat (Z.of_nat i - s))%nat with i by lia. done.
Qed.

(** X2: [chunk_text] loses nothing but whitespace: every character of the
    text that is not whitespace is in some returned chunk: the chunk is
    the slice [text[s:e]] of a range with [0 <= s <= i < e], and it holds
    the character at the offset [i - s]. *)
Theorem chunk_text_keeps_non_whitespace (text : str) :
  exists chunks,
    Chunker.chunk_text text = Some chunks
    /\ forall (i : nat) (c : ascii),
         text !! i = Some c -> Py.isspace c = false ->
         exists s e,
           0 <= s /\ s <= Z.of_nat i < e
           /\ In (Py.slice text s e) chunks
           /\ Py.slice text s e !! Z.to_nat (Z.of_nat i - s) = Some c.
Proof.
  destruct (chunk_text_cases text) as [[_ Hr] | [Hlong [ws [Hc Hr]]]].
  - exists [text]. split; [done|]. intros i c Hi _.
    exists 0, (Py.len text). pose proof (lookup_lt_Some _ _ _ Hi) as Hlt.
    assert (Hrange : 0 <= Z.of_nat i < Py.len text) by (unfold Py.len; lia).
    split_and!; [done | lia | lia | rewrite slice_all; by left |].
    by apply slice_lookup.
  - exists (chunks_of_windows text ws). split; [done|]. intros i c Hi Hns.
    destruct (windows_keep_non_whitespace text ws i c Hc Hi Hns)
      as (s & e & Hs & Hrange & Hin).
    exists s, e. split_and!; [done | lia | lia | done |].
    by apply slice_lookup.
Qed.

(** X3: the number of chunks is bounded by the length of the text: a new
    window starts at least 301 characters after the one before it. *)
Theorem chunk_text_count_bound (text : str) :
  exists chunks,
    Chunker.chunk_text text = Some chunks
    /\ Z.of_nat (length chunks) <= Py.len text / 301 + 1.
Proof.
  destruct (chunk_text_cases text) as [[_ Hr] | [Hlong [ws [Hc Hr]]]].
  - exists [text]. split; [done|]. simpl.
    assert (0 <= Py.len text / 301) by (apply Z.div_pos; unfold Py.len; lia). lia.
  - exists (chunks_of_windows text ws). split; [done|].
    assert (Hle : (length (chunks_of_windows text ws) <= length ws)%nat).
    { unfold chunks_of_windows. etransitivity; [apply List.filter_length_le|].
      by rewrite length_map. }
    destruct ws as [|w ws]; [simpl in *; assert (0 <= Py.len text / 301)
      by (apply Z.div_pos; unfold Py.len; lia); lia|].
    pose proof (chain_length_bound text 0 (w :: ws) Hc (Z.le_refl 0)
                  ltac:(done)) as Hb.
    assert (Z.of_nat (length (w :: ws)) - 1 <= Py.len text / 301).
    { apply Z.div_le_lower_bound; lia. }
    lia.
Qed.

(** ** Ingestion *)

Section ValidatedContent.

Lemma non_whitespace_character (s : str) :
  forallb Py.isspace s = false ->
  exists (i : nat) (c : ascii), s !! i = Some c /\ Py.isspace c = false.
Proof.
  induction s as [|x s IH]; simpl; [done|].
  destruct (Py.isspace x) eqn:Hx; simpl.
  - intros H. destruct (IH H) as [i [c [Hi Hc]]]. by exists (S i), c.
  - intros _. by exists 0%nat, x.
Qed.

Lemma strip_whitespace (s : str) : forallb Py.isspace s = true -> Py.strip s = [].
Proof.
  intros H. unfold Py.strip, Py.rstrip. by rewrite (lstrip_whitespace s H).
Qed.

(** A text whose stripped form has a character has a character that is
    not whitespace. *)
Lemma stripped_character (s : str) :
  0 < Py.len (Py.strip s) ->
  exists (i : nat) (c : ascii), s !! i = Some c /\ Py.isspace c = false.
Proof.
  intros H. apply non_whitespace_character.
  destruct (forallb Py.isspace s) eqn:Hs; [|done].
  rewrite (strip_whitespace s Hs) in H. unfold Py.len in H. simpl in H. lia.
Qed.

End ValidatedContent.

Lemma validated_chunks_nonempty (content : str) (chunks : list str) :
  10 <= Py.len (Py.strip content) ->
  Chunker.chunk_text content = Some chunks -> chunks <> [].
Proof.
  intros Hvalid Hr.
  destruct (chunk_text_cases content) as [[_ Hr'] | [_ [ws [Hc Hr']]]];
    rewrite Hr in Hr'; injection Hr' as ->; [done|].
  destruct (stripped_character content) as [i [c [Hi Hns]]]; [lia|].
  destruct (windows_keep_non_whitespace content ws i c Hc Hi Hns)
    as (s & e & _ & _ & Hin).
  intros Hnil. by rewrite Hnil in Hin.
Qed.

(** X4: a content that passes the validation of [add_document] (at least
    10 characters once stripped) is always cut into at least one chunk, and
    each chunk is non-empty and has at most 1000 characters: the error "No
    chunks created from content" cannot occur. *)
Theorem validated_content_has_chunks (content : str) :
  10 <= Py.len (Py.strip content) ->
  exists chunks,
    Chunker.chunk_text content = Some chunks
    /\ chunks <> []
    /\ Forall (fun chunk => chunk <> [] /\ Py.len chunk <= 1000) chunks.
Proof.
  intros Hvalid. destruct default_parameters as [Hsize Hoverlap].
  pose proof (strip_length content) as Hstrip.
  destruct (chunk_text_cases content) as [[Hshort Hr] | [Hlong [ws [Hc Hr]]]].
  - exists [content]. split; [done|]. split; [done|].
    repeat constructor; [|done].
    intros ->. unfold Py.len in *. simpl in *. lia.
  - exists (chunks_of_windows content ws). split; [done|]. split.
    + destruct (stripped_character content) as [i [c [Hi Hns]]]; [lia|].
      destruct (windows_keep_non_whitespace content ws i c Hc Hi Hns)
        as (s & e & _ & _ & Hin).
      intros Hnil. by rewrite Hnil in Hin.
    + apply (chunks_of_windows_bounds Chunker.default_chunk_size).
      by apply (chain_bounds _ _ Hsize Hoverlap content 0 ws Hc).
Qed.

Lemma validated_content_has_chunks_sky :
  exists chunks,
    Chunker.chunk_text Scenario.sky_text = Some chunks
    /\ chunks <> []
    /\ Forall (fun chunk => chunk <> [] /\ Py.len chunk <= 1000) chunks.
Proof.
  apply (validated_content_has_chunks Scenario.sky_text). by vm_compute.
Defined.

Section Batches.

Lemma lookup_map {A B : Type} (f : A -> B) (l : list A) (i : nat) :
  map f l !! i = f <$> l !! i.
Proof. revert i. induction l as [|x l IH]; intros [|i]; simpl; auto. Qed.

Lemma str_of_nat_inj (i j : nat) : str_of_nat i = str_of_nat j -> i = j.
Proof.
  unfold str_of_nat. intros H.
  apply (f_equal string_of_list_ascii) in H.
  rewrite !string_of_list_ascii_of_string in H.
  apply (f_equal NilEmpty.uint_of_string) in H. rewrite !NilEmpty.usu in H.
  injection H as H. by apply Unsigned.to_uint_inj.
Qed.

(** Different chunks of a document have different identifiers. *)
Lemma chunk_id_inj (cid : str) (i j : nat) :
  chunk_id cid i = chunk_id cid j -> i = j.
Proof.
  unfold chunk_id. intros H. apply app_inv_head, app_inv_head in H.
  by apply str_of_nat_inj.
Qed.

Lemma chunk_ids_NoDup (cid : str) (chunks : list str) :
  NoDup (chunk_ids cid chunks).
Proof.
  unfold chunk_ids.
  change (NoDup (chunk_id cid <$> seq 0 (length chunks))).
  apply NoDup_fmap_2_strong; [|apply NoDup_seq].
  intros i j _ _. apply chunk_id_inj.
Qed.

Lemma chunk_ids_lookup (cid : str) (chunks : list str) (i : nat) :
  (i < length chunks)%nat -> chunk_ids cid chunks !! i = Some (chunk_id cid i).
Proof.
  intros Hi. unfold chunk_ids. by rewrite lookup_map, lookup_seq_lt.
Qed.

Lemma elem_of_chunk_ids (cid id : str) (chunks : list str) :
  id ∈ chunk_ids cid chunks
  <-> exists i, (i < length chunks)%nat /\ id = chunk_id cid i.
Proof.
  unfold chunk_ids. rewrite list_elem_of_In, in_map_iff. split.
  - intros [i [<- Hi]]. apply in_seq in Hi. exists i. split; [lia | done].
  - intros [i [Hi ->]]. exists i. split; [done|]. apply in_seq. lia.
Qed.

Lemma chunk_metadatas_lookup (cid source_label type_label : str)
    (chunks : list str) (i : nat) (chunk : str) :
  chunks !! i = Some chunk ->
  chunk_metadatas cid source_label type_label chunks !! i
  = Some (metadata_of cid source_label type_label chunks i chunk).
Proof.
  intros Hi. unfold chunk_metadatas, enumerate.
  rewrite lookup_map, lookup_zip_with, lookup_seq_lt, Hi;
    [done | by apply lookup_lt_Some in Hi].
Qed.

Lemma chunk_metadatas_length (cid source_label type_label : str)
    (chunks : list str) :
  length (chunk_metadatas cid source_label type_label chunks) = length chunks.
Proof.
  unfold chunk_metadatas, enumerate. rewrite length_map, length_zip, length_seq. lia.
Qed.

Lemma chunk_ids_length (cid : str) (chunks : list str) :
  length (chunk_ids cid chunks) = length chunks.
Proof. unfold chunk_ids. by rewrite length_map, length_seq. Qed.

(** Inserting entries with different keys one after the other gives the
    union of the entries and the collection. *)
Lemma insert_entries_union (c : Collection) (entries : list (str * Entry)) :
  NoDup entries.*1 -> insert_entries c entries = list_to_map entries ∪ c.
Proof.
  unfold insert_entries. revert c.
  induction entries as [|[k v] rest IH]; intros c Hnd; simpl.
  - by rewrite (left_id_L ∅ (∪)).
  - apply NoDup_cons in Hnd as [Hk Hnd]. rewrite IH by done.
    rewrite <- insert_union_l. apply symmetry, insert_union_r.
    by apply not_elem_of_list_to_map_1.
Qed.

End Batches.

Section AddDocument.

Variable svc : Services.
Variable embedding_model : EmbeddingModel.
Variable valid_name : str -> bool.
Variable validate_batch :
  Collection -> list str -> list (list float) -> list str -> list Metadata ->
  result unit.

(** The collection [add_document] writes to: the one of the user, or the
    empty one it creates. *)
Lemma get_or_create_run (user_id : str) (w : World) :
  try_except (get_user_collection user_id)
    (fun _ =>
       let* _ := create_user_collection valid_name user_id in
       get_user_collection user_id) w
  = match collections w !! collection_name user_id with
    | Some _ => (Ok (collection_name user_id), w)
    | None =>
        if valid_name (collection_name user_id) then
          (Ok (collection_name user_id),
           {| collections := <[collection_name user_id := ∅]> (collections w);
              generate_calls := generate_calls w |})
        else
          (Raise (Py.lit "Invalid collection name " ++ collection_name user_id), w)
    end.
Proof.
  unfold try_except, get_user_collection at 1.
  destruct (collections w !! collection_name user_id) as [c|] eqn:Hc; [done|].
  unfold no_collection, raise, bind, create_user_collection, try_except, bind,
    client_create_collection.
  destruct (valid_name (collection_name user_id)); simpl; [|done].
  rewrite Hc. simpl. unfold get_user_collection. simpl.
  by rewrite lookup_insert_eq.
Qed.

Lemma validation_passes (content : str) :
  10 <= Py.len (Py.strip content) ->
  negb (Py.truthy content) || (Py.len (Py.strip content) <? 10) = false.
Proof.
  intros H. pose proof (strip_length content).
  destruct content; [unfold Py.len in *; simpl in *; lia|]. simpl. lia.
Qed.

(** [add_document] on a content and a user that pass the validation, for
    a user whose collection exists or can be created. *)
Lemma add_document_run (new_id user_id content source_label type_label : str)
    (w : World) (chunks : list str) (embeddings : list (list float)) :
  10 <= Py.len (Py.strip content) ->
  user_id <> [] ->
  is_Some (collections w !! collection_name user_id)
  \/ valid_name (collection_name user_id) = true ->
  Chunker.chunk_text content = Some chunks ->
  generate_embeddings svc embedding_model chunks = Ok embeddings ->
  length embeddings = length chunks ->
  let c0 := default ∅ (collections w !! collection_name user_id) in
  let ids := chunk_ids new_id chunks in
  let metadatas := chunk_metadatas new_id source_label type_label chunks in
  exists w',
    add_document svc embedding_model valid_name validate_batch
      new_id user_id content source_label type_label w
    = Some (match validate_batch c0 ids embeddings chunks metadatas with
            | Ok _ => Ok new_id
            | Raise e => Raise (Py.lit "Failed to add chunks to vector store: " ++ e)
            end, w')
    /\ generate_calls w' = generate_calls w
    /\ collections w'
       = <[collection_name user_id :=
             match validate_batch c0 ids embeddings chunks metadatas with
             | Ok _ =>
                 insert_entries c0
                   (batch_entries ids (map stored_vector embeddings) chunks metadatas)
             | Raise _ => c0
             end]> (collections w).
Proof.
  intros Hvalid Huser Hstore Hchunks Hemb Hlen c0 ids metadatas.
  pose proof (validated_chunks_nonempty content chunks Hvalid Hchunks) as Hne.
  unfold add_document, try_exceptL, bindL, returning.
  rewrite (validation_passes content Hvalid).
  assert (Hu : negb (Py.truthy user_id) = false) by by destruct user_id.
  rewrite Hu. rewrite get_or_create_run.
  assert (Hprep : exists w0,
            match collections w !! collection_name user_id with
            | Some _ => (Ok (collection_name user_id), w)
            | None =>
                if valid_name (collection_name user_id) then
                  (Ok (collection_name user_id),
                   {| collections := <[collection_name user_id := ∅]> (collections w);
                      generate_calls := generate_calls w |})
                else
                  (Raise (Py.lit "Invalid collection name " ++ collection_name user_id), w)
            end = (Ok (collection_name user_id), w0)
            /\ generate_calls w0 = generate_calls w
            /\ collections w0 = <[collection_name user_id := c0]> (collections w)).
  { unfold c0. destruct (collections w !! collection_name user_id) as [c|] eqn:Hc.
    - exists w. simpl. by rewrite insert_id.
    - destruct Hstore as [[c Hs] | ->]; [done|]. by eexists. }
  destruct Hprep as [w0 (-> & Hcalls & Hcols)].
  unfold run_chunk_text. rewrite Hchunks.
  assert (Hmatch : forall (A : Type) (a b : A),
            match chunks with [] => a | _ :: _ => b end = b)
    by (intros; by destruct chunks).
  rewrite Hmatch.
  unfold try_except at 1, lift. rewrite Hemb.
  unfold try_except, collection_add. rewrite Hcols, lookup_insert_eq.
  fold ids. fold metadatas.
  assert (Hl : (length embeddings =? length ids)%nat
               && (length chunks =? length ids)%nat
               && (length metadatas =? length ids)%nat = true).
  { unfold ids, metadatas. rewrite chunk_ids_length, chunk_metadatas_length, Hlen.
    by rewrite Nat.eqb_refl. }
  rewrite Hl. cbn [negb].
  destruct (validate_batch c0 ids embeddings chunks metadatas) as [[]|e].
  - eexists. split; [reflexivity|]. split; [done|]. simpl.
    by rewrite insert_insert_eq.
  - exists w0. unfold raise. split; [done|]. by split.
Qed.

End AddDocument.

Section StoredBatch.

Variables (new_id source_label type_label : str).
Variables (chunks : list str) (embeddings : list (list float)).
Hypothesis same_length : length embeddings = length chunks.

Local Abbreviation ids := (chunk_ids new_id chunks).
Local Abbreviation metadatas :=
  (chunk_metadatas new_id source_label type_label chunks).
Local Abbreviation batch :=
  (batch_entries ids (map stored_vector embeddings) chunks metadatas).

Lemma batch_lookup (i : nat) (chunk : str) (vector : list float) :
  chunks !! i = Some chunk -> embeddings !! i = Some vector ->
  batch !! i
  = Some (chunk_id new_id i,
          entry_of new_id source_label type_label chunks i chunk
            (stored_vector vector)).
Proof.
  intros Hc He. unfold batch_entries.
  pose proof (lookup_lt_Some _ _ _ Hc) as Hi.
  rewrite lookup_zip_with. rewrite (chunk_ids_lookup new_id chunks i Hi).
  simpl. rewrite lookup_zip_with, lookup_map, He. simpl.
  rewrite lookup_zip_with, Hc. simpl.
  by rewrite (chunk_metadatas_lookup _ _ _ _ _ _ Hc).
Qed.

Lemma batch_length : length batch = length chunks.
Proof.
  unfold batch_entries.
  rewrite length_zip_with, length_zip_with, length_zip_with, length_map.
  rewrite chunk_ids_length, chunk_metadatas_length. lia.
Qed.

Lemma batch_keys : batch.*1 = ids.
Proof.
  unfold batch_entries. apply fst_zip.
  rewrite length_zip_with, length_zip_with, length_map.
  rewrite chunk_ids_length, chunk_metadatas_length. lia.
Qed.

Lemma batch_NoDup : NoDup batch.*1.
Proof. rewrite batch_keys. apply chunk_ids_NoDup. Qed.

(** The collection after the batch: the entries of the chunks under their
    identifiers, and the rest as it was. *)
Lemma stored_lookup (c : Collection) (i : nat) (chunk : str) :
  chunks !! i = Some chunk ->
  exists vector,
    embeddings !! i = Some vector
    /\ insert_entries c batch !! chunk_id new_id i
       = Some (entry_of new_id source_label type_label chunks i chunk
                 (stored_vector vector)).
Proof.
  intros Hc. destruct (embeddings !! i) as [vector|] eqn:He.
  - exists vector. split; [done|].
    rewrite insert_entries_union by apply batch_NoDup.
    apply lookup_union_Some_l. apply elem_of_list_to_map; [apply batch_NoDup|].
    apply list_elem_of_lookup. exists i. by apply batch_lookup.
  - apply lookup_ge_None in He. apply lookup_lt_Some in Hc. lia.
Qed.

Lemma stored_frame (c : Collection) (id : str) :
  id ∉ ids -> insert_entries c batch !! id = c !! id.
Proof.
  intros Hid. rewrite insert_entries_union by apply batch_NoDup.
  apply lookup_union_r, not_elem_of_list_to_map_1. by rewrite batch_keys.
Qed.

Lemma stored_count (c : Collection) :
  (forall id, id ∈ ids -> c !! id = None) ->
  VectorStore.count (insert_entries c batch)
  = VectorStore.count c + Z.of_nat (length chunks).
Proof.
  intros Hfresh. unfold VectorStore.count.
  rewrite insert_entries_union by apply batch_NoDup.
  rewrite map_size_disj_union.
  - rewrite map_size_list_to_map by apply batch_NoDup. rewrite batch_length. lia.
  - apply map_disjoint_spec. intros id x y Hx Hy.
    apply elem_of_list_to_map_2 in Hx.
    assert (Hin : id ∈ batch.*1) by (apply list_elem_of_fmap; by exists (id, x)).
    rewrite batch_keys in Hin. by rewrite (Hfresh id Hin) in Hy.
Qed.

(** Every entry of the batch carries the identifier of the document. *)
Lemma stored_content_id (c : Collection) (id : str) (entry : Entry) :
  id ∈ ids -> insert_entries c batch !! id = Some entry ->
  content_id (metadata entry) = new_id.
Proof.
  intros Hid Hl. apply elem_of_chunk_ids in Hid as [i [Hi ->]].
  destruct (lookup_lt_is_Some_2 chunks i Hi) as [chunk Hc].
  destruct (stored_lookup c i chunk Hc) as [vector [_ Hs]].
  rewrite Hs in Hl. by injection Hl as <-.
Qed.

End StoredBatch.

(** What [delete_document] does to a world where the user has a
    collection. *)
Lemma delete_document_run (user_id cid : str) (w : World) (c : Collection) :
  collections w !! collection_name user_id = Some c ->
  exists w',
    delete_document user_id cid w = (Ok tt, w')
    /\ generate_calls w' = generate_calls w
    /\ collections w'
       = <[collection_name user_id := chunks_not_of cid c]> (collections w).
Proof.
  intros Hc. unfold delete_document, try_except, bind.
  rewrite (get_user_collection_found _ _ _ Hc).
  unfold collection_get, read_collection. rewrite Hc.
  destruct (get_ids_where_content_id c cid) as [|id ids] eqn:Hids.
  - apply get_ids_nil in Hids. exists w. simpl. split; [done|]. split; [done|].
    rewrite (chunks_not_of_all _ _ Hids). by rewrite insert_id.
  - unfold collection_delete, update_collection. rewrite Hc.
    rewrite <- Hids, delete_ids_get. by eexists.
Qed.

(** X5: [add_document] checks its input before it touches anything: a
    content with fewer than 10 characters once stripped (the empty one,
    one of whitespace only) is refused with "Content is too short or
    empty", whoever the user is, and an empty user identifier is refused
    next with "User ID is required"; in both cases the world is left as it
    was, and no collection is created. *)
Theorem add_document_rejects_invalid_input
    (svc : Services) (embedding_model : EmbeddingModel)
    (valid_name : str -> bool)
    (validate_batch : Collection -> list str -> list (list float) ->
                      list str -> list Metadata -> result unit)
    (new_id user_id content source_label type_label : str) (w : World) :
  (Py.len (Py.strip content) < 10 ->
   add_document svc embedding_model valid_name validate_batch
     new_id user_id content source_label type_label w
   = Some (Raise msg_too_short, w))
  /\ (10 <= Py.len (Py.strip content) -> user_id = [] ->
      add_document svc embedding_model valid_name validate_batch
        new_id user_id content source_label type_label w
      = Some (Raise msg_no_user, w)).
Proof.
  split.
  - intros Hshort. unfold add_document, try_exceptL, returning, raise.
    assert (H : negb (Py.truthy content) || (Py.len (Py.strip content) <? 10) = true).
    { apply orb_true_iff. right. lia. }
    by rewrite H.
  - intros Hvalid ->. unfold add_document, try_exceptL, returning, raise.
    by rewrite (validation_passes content Hvalid).
Qed.

(** X6: when the store accepts the batch, [add_document] returns the new
    content identifier and the collection of the user (created empty if
    there was none) holds, for each chunk of index [i], under the
    identifier [{content_id}_chunk_{i}], the chunk with its metadata and
    with its embedding as the store keeps it, each component rounded to
    single precision; every other entry of the collection, every other
    collection and the count of generation calls are as before; and when
    none of the identifiers was in use, [count] grows by the number of
    chunks. *)
Theorem add_document_stores_chunks
    (svc : Services) (embedding_model : EmbeddingModel)
    (valid_name : str -> bool)
    (validate_batch : Collection -> list str -> list (list float) ->
                      list str -> list Metadata -> result unit)
    (new_id user_id content source_label type_label : str) (w : World)
    (chunks : list str) (embeddings : list (list float)) :
  10 <= Py.len (Py.strip content) ->
  user_id <> [] ->
  is_Some (collections w !! collection_name user_id)
  \/ valid_name (collection_name user_id) = true ->
  Chunker.chunk_text content = Some chunks ->
  generate_embeddings svc embedding_model chunks = Ok embeddings ->
  length embeddings = length chunks ->
  validate_batch (collection_of w user_id) (chunk_ids new_id chunks) embeddings
    chunks (chunk_metadatas new_id source_label type_label chunks) = Ok tt ->
  exists w' c',
    add_document svc embedding_model valid_name validate_batch
      new_id user_id content source_label type_label w = Some (Ok new_id, w')
    /\ generate_calls w' = generate_calls w
    /\ collections w' = <[collection_name user_id := c']> (collections w)
    /\ (forall i chunk,
          chunks !! i = Some chunk ->
          exists vector,
            embeddings !! i = Some vector
            /\ c' !! chunk_id new_id i
               = Some (entry_of new_id source_label type_label chunks i chunk
                         (stored_vector vector)))
    /\ (forall id,
          id ∉ chunk_ids new_id chunks -> c' !! id = collection_of w user_id !! id)
    /\ ((forall id, id ∈ chunk_ids new_id chunks ->
                    collection_of w user_id !! id = None) ->
        VectorStore.count c'
        = VectorStore.count (collection_of w user_id) + Z.of_nat (length chunks)).
Proof.
  intros Hvalid Huser Hstore Hchunks Hemb Hlen Hacc.
  destruct (add_document_run svc embedding_model valid_name validate_batch
              new_id user_id content source_label type_label w chunks embeddings)
    as [w' (Hrun & Hcalls & Hcols)]; try done.
  fold (collection_of w user_id) in Hrun, Hcols. rewrite Hacc in Hrun, Hcols.
  eexists w', _. split_and!; [done | done | exact Hcols | | |].
  - intros i chunk Hc. by apply stored_lookup.
  - intros id Hid. by apply stored_frame.
  - intros Hfresh. by apply stored_count.
Qed.

(** Single precision against [struct.pack("f", x)]: a number between
    two single-precision numbers, a tie, a number past the range, a number
    below the smallest subnormal, and the components 1/255 and 254/255 of
    a hash-based vector. *)
Example float32_values :
  map float32
    [0x1.999999999999ap-4; 0x1.000001p+24; 0x1.ffffffp+127; -0x1.244ce242c5561p-153;
     0x1.0101010101010p-8; 0x1.fdfdfdfdfdfe0p-1; 0.5; 0]%float
  = [0x1.99999ap-4; 0x1p+24; infinity; -0; 0x1.010102p-8; 0x1.fdfdfep-1; 0.5; 0]%float.
Proof. by vm_compute. Qed.

Lemma add_document_stores_chunks_sky :
  exists w',
    add_document Scenario.echo NoModel any_name any_batch
      (Py.lit "doc-z") (Py.lit "u1") Scenario.sky_text (Py.lit "notes.txt")
      (Py.lit "text/plain") Scenario.fresh = Some (Ok (Py.lit "doc-z"), w')
    /\ VectorStore.count (collection_of w' (Py.lit "u1")) = 1
    /\ document <$> collection_of w' (Py.lit "u1") !! Py.lit "doc-z_chunk_0"
       = Some Scenario.sky_text
    /\ embedding <$> collection_of w' (Py.lit "u1") !! Py.lit "doc-z_chunk_0"
       = Some (stored_vector (hash_vector Scenario.sky_text)).
Proof.
  destruct (add_document_stores_chunks Scenario.echo NoModel any_name any_batch
              (Py.lit "doc-z") (Py.lit "u1") Scenario.sky_text (Py.lit "notes.txt")
              (Py.lit "text/plain") Scenario.fresh [Scenario.sky_text]
              (hash_vectors [Scenario.sky_text]))
    as [w' [c' (Hrun & _ & Hcols & Hstored & _ & Hcount)]];
    [by vm_compute | done | by right | by vm_compute | by vm_compute | done
    | done |].
  exists w'. split; [exact Hrun|].
  assert (Hc : collection_of w' (Py.lit "u1") = c').
  { unfold collection_of. by rewrite Hcols, lookup_insert_eq. }
  rewrite Hc.
  destruct (Hstored 0%nat Scenario.sky_text eq_refl) as [vector [Hv Hs]].
  change (chunk_id (Py.lit "doc-z") 0) with (Py.lit "doc-z_chunk_0") in Hs.
  assert (Hh : hash_vectors [Scenario.sky_text] !! 0%nat
               = Some (hash_vector Scenario.sky_text)) by by vm_compute.
  rewrite Hh in Hv. apply Some_inj in Hv. subst vector.
  split_and!.
  - rewrite Hcount; [done|]. intros id _. apply lookup_empty.
  - by rewrite Hs.
  - rewrite Hs. reflexivity.
Defined.

(** What the store keeps is not what was generated: the components of a
    hash-based vector are not single-precision numbers. *)
Example stored_vector_is_rounded :
  stored_vector (hash_vector Scenario.sky_text) <> hash_vector Scenario.sky_text
  /\ stored_vector (stored_vector (hash_vector Scenario.sky_text))
     = stored_vector (hash_vector Scenario.sky_text).
Proof. split; by vm_compute. Qed.

(** X7: when the store refuses the batch, [add_document] raises "Failed
    to add chunks to vector store: ..." and no chunk is stored: the
    collection of the user holds what it held before, though a user who
    had no collection is left with an empty one; nothing else changes. *)
Theorem add_document_refused_batch
    (svc : Services) (embedding_model : EmbeddingModel)
    (valid_name : str -> bool)
    (validate_batch : Collection -> list str -> list (list float) ->
                      list str -> list Metadata -> result unit)
    (new_id user_id content source_label type_label e : str) (w : World)
    (chunks : list str) (embeddings : list (list float)) :
  10 <= Py.len (Py.strip content) ->
  user_id <> [] ->
  is_Some (collections w !! collection_name user_id)
  \/ valid_name (collection_name user_id) = true ->
  Chunker.chunk_text content = Some chunks ->
  generate_embeddings svc embedding_model chunks = Ok embeddings ->
  length embeddings = length chunks ->
  validate_batch (collection_of w user_id) (chunk_ids new_id chunks) embeddings
    chunks (chunk_metadatas new_id source_label type_label chunks) = Raise e ->
  exists w',
    add_document svc embedding_model valid_name validate_batch
      new_id user_id content source_label type_label w
    = Some (Raise (Py.lit "Failed to add chunks to vector store: " ++ e), w')
    /\ generate_calls w' = generate_calls w
    /\ collections w'
       = <[collection_name user_id := collection_of w user_id]> (collections w)
    /\ (is_Some (collections w !! collection_name user_id) -> w' = w)
    /\ VectorStore.count (collection_of w' user_id)
       = VectorStore.count (collection_of w user_id).
Proof.
  intros Hvalid Huser Hstore Hchunks Hemb Hlen Hrej.
  destruct (add_document_run svc embedding_model valid_name validate_batch
              new_id user_id content source_label type_label w chunks embeddings)
    as [w' (Hrun & Hcalls & Hcols)]; try done.
  fold (collection_of w user_id) in Hrun, Hcols. rewrite Hrej in Hrun, Hcols.
  exists w'. split_and!; [done | done | done | |].
  - intros [c Hc]. unfold collection_of in Hcols. rewrite Hc in Hcols. simpl in Hcols.
    rewrite insert_id in Hcols by done. destruct w, w'. simpl in *. by subst.
  - unfold collection_of at 1. by rewrite Hcols, lookup_insert_eq.
Qed.

Lemma add_document_refused_batch_sky :
  exists w',
    add_document Scenario.echo NoModel any_name no_batch
      (Py.lit "doc-z") (Py.lit "u1") Scenario.sky_text (Py.lit "notes.txt")
      (Py.lit "text/plain") Scenario.fresh
    = Some (Raise (Py.lit "Failed to add chunks to vector store: Embedding dimension 384 does not match collection dimensionality 768"), w')
    /\ collections w' !! collection_name (Py.lit "u1") = Some ∅.
Proof.
  destruct (add_document_refused_batch Scenario.echo NoModel any_name no_batch
              (Py.lit "doc-z") (Py.lit "u1") Scenario.sky_text (Py.lit "notes.txt")
              (Py.lit "text/plain")
              (Py.lit "Embedding dimension 384 does not match collection dimensionality 768")
              Scenario.fresh [Scenario.sky_text]
              (hash_vectors [Scenario.sky_text]))
    as [w' (Hrun & _ & Hcols & _)];
    [by vm_compute | done | by right | by vm_compute | by vm_compute | done
    | done |].
  exists w'. split; [exact Hrun|]. by rewrite Hcols, lookup_insert_eq.
Defined.

(** X8: ingestion and deletion are inverse: after a successful
    [add_document] under a content identifier that no stored chunk carries
    and whose chunk identifiers are not in use, [delete_document] of that
    identifier gives back the collection the user had before (the empty
    one for a new user), and nothing else has changed. *)
Theorem add_then_delete_restores
    (svc : Services) (embedding_model : EmbeddingModel)
    (valid_name : str -> bool)
    (validate_batch : Collection -> list str -> list (list float) ->
                      list str -> list Metadata -> result unit)
    (new_id user_id content source_label type_label : str) (w : World)
    (chunks : list str) (embeddings : list (list float)) :
  10 <= Py.len (Py.strip content) ->
  user_id <> [] ->
  is_Some (collections w !! collection_name user_id)
  \/ valid_name (collection_name user_id) = true ->
  Chunker.chunk_text content = Some chunks ->
  generate_embeddings svc embedding_model chunks = Ok embeddings ->
  length embeddings = length chunks ->
  validate_batch (collection_of w user_id) (chunk_ids new_id chunks) embeddings
    chunks (chunk_metadatas new_id source_label type_label chunks) = Ok tt ->
  (forall id entry, collection_of w user_id !! id = Some entry ->
                    content_id (metadata entry) <> new_id) ->
  (forall id, id ∈ chunk_ids new_id chunks -> collection_of w user_id !! id = None) ->
  exists w' w'',
    add_document svc embedding_model valid_name validate_batch
      new_id user_id content source_label type_label w = Some (Ok new_id, w')
    /\ delete_document user_id new_id w' = (Ok tt, w'')
    /\ generate_calls w'' = generate_calls w
    /\ collections w''
       = <[collection_name user_id := collection_of w user_id]> (collections w).
Proof.
  intros Hvalid Huser Hstore Hchunks Hemb Hlen Hacc Hnew Hfresh.
  destruct (add_document_run svc embedding_model valid_name validate_batch
              new_id user_id content source_label type_label w chunks embeddings)
    as [w' (Hrun & Hcalls & Hcols)]; try done.
  fold (collection_of w user_id) in Hrun, Hcols. rewrite Hacc in Hrun, Hcols.
  set (c0 := collection_of w user_id) in *.
  set (c' := insert_entries c0 _) in *.
  destruct (delete_document_run user_id new_id w' c') as [w'' (Hdel & Hcalls' & Hcols')].
  { by rewrite Hcols, lookup_insert_eq. }
  exists w', w''. split_and!; [done | done | congruence |].
  rewrite Hcols', Hcols, insert_insert_eq. f_equal.
  apply map_eq. intros id. unfold chunks_not_of.
  destruct (decide (id ∈ chunk_ids new_id chunks)) as [Hin|Hout].
  - rewrite (Hfresh id Hin). apply map_lookup_filter_None. right.
    intros entry Hentry. simpl. intros Hne. apply Hne.
    by apply (stored_content_id new_id source_label type_label chunks embeddings
                Hlen c0 id entry).
  - pose proof (stored_frame new_id source_label type_label chunks embeddings
                  Hlen c0 id Hout) as Hframe.
    fold c' in Hframe. destruct (c0 !! id) as [entry|] eqn:Hc0.
    + apply map_lookup_filter_Some. split; [by rewrite Hframe|].
      simpl. by apply (Hnew id).
    + apply map_lookup_filter_None. left. by rewrite Hframe.
Qed.

Lemma add_then_delete_restores_sky :
  exists w' w'',
    add_document Scenario.echo NoModel any_name any_batch
      (Py.lit "doc-z") (Py.lit "u1") (Py.lit "Rivers run to the sea.")
      (Py.lit "notes.txt") (Py.lit "text/plain") Scenario.sky_world
    = Some (Ok (Py.lit "doc-z"), w')
    /\ delete_document (Py.lit "u1") (Py.lit "doc-z") w' = (Ok tt, w'')
    /\ generate_calls w'' = generate_calls Scenario.sky_world
    /\ collections w''
       = <[collection_name (Py.lit "u1")
           := collection_of Scenario.sky_world (Py.lit "u1")]>
           (collections Scenario.sky_world).
Proof.
  apply (add_then_delete_restores Scenario.echo NoModel any_name any_batch
           (Py.lit "doc-z") (Py.lit "u1") (Py.lit "Rivers run to the sea.")
           (Py.lit "notes.txt") (Py.lit "text/plain") Scenario.sky_world
           [Py.lit "Rivers run to the sea."]
           (hash_vectors [Py.lit "Rivers run to the sea."]));
    [by vm_compute | done | | by vm_compute | by vm_compute
    | done | done | |].
  - left. unfold Scenario.sky_world, Scenario.world_of. simpl.
    rewrite lookup_singleton_eq. by eexists.
  - intros id entry Hl.
    change (collection_of Scenario.sky_world (Py.lit "u1"))
      with ({[ Py.lit "doc-a_chunk_0"
               := Scenario.sample_entry (Py.lit "doc-a") 0 Scenario.sky_text ]}
            : Collection) in Hl.
    apply lookup_singleton_Some in Hl as [_ <-]. by vm_compute.
  - intros id Hin.
    change (chunk_ids (Py.lit "doc-z") [Py.lit "Rivers run to the sea."])
      with [Py.lit "doc-z_chunk_0"] in Hin.
    apply list_elem_of_singleton in Hin as ->. by vm_compute.
Defined.

(** ** Statistics *)

Section Statistics.

Lemma elem_of_content_id_fold (metadatas : list Metadata) (acc : gset str) (cid : str) :
  cid ∈ foldl (fun ids m => ids ∪ {[content_id m]}) acc metadatas
  <-> cid ∈ acc \/ exists m, m ∈ metadatas /\ content_id m = cid.
Proof.
  revert acc. induction metadatas as [|m ms IH]; intros acc; simpl.
  - split; [by left | intros [H | [m [Hm _]]]; [done | by apply elem_of_nil in Hm]].
  - rewrite IH, elem_of_union, elem_of_singleton. split.
    + intros [[H | ->] | [m' [Hm' Hc]]]; [by left | right | right].
      * exists m. split; [by left | done].
      * exists m'. split; [by right | done].
    + intros [H | [m' [Hm' Hc]]]; [by left; left|].
      apply elem_of_cons in Hm' as [-> | Hm']; [by left; right|].
      right. by exists m'.
Qed.

Lemma size_content_id_fold (metadatas : list Metadata) (acc : gset str) :
  (size (foldl (fun ids m => ids ∪ {[content_id m]}) acc metadatas)
   <= size acc + length metadatas)%nat.
Proof.
  revert acc. induction metadatas as [|m ms IH]; intros acc; simpl; [lia|].
  etransitivity; [apply IH|]. rewrite size_union_alt.
  assert ((size (({[content_id m]} : gset str) ∖ acc) <= 1)%nat).
  { etransitivity; [apply subseteq_size|].
    - apply subseteq_difference_l. reflexivity.
    - by rewrite size_singleton. }
  lia.
Qed.

Lemma elem_of_document_ids (c : Collection) (cid : str) :
  cid ∈ document_ids c
  <-> exists id entry, c !! id = Some entry /\ content_id (metadata entry) = cid.
Proof.
  unfold document_ids, content_id_set. rewrite elem_of_content_id_fold. split.
  - intros [H | [m [Hm Hc]]]; [by apply elem_of_empty in H|].
    unfold get_metadatas in Hm. apply list_elem_of_In, in_map_iff in Hm
      as [[id entry] [<- Hin]].
    apply list_elem_of_In, elem_of_map_to_list in Hin. by exists id, entry.
  - intros [id [entry [Hl Hc]]]. right. exists (metadata entry). split; [|done].
    unfold get_metadatas. apply list_elem_of_In, in_map_iff.
    exists (id, entry). split; [done|].
    by apply list_elem_of_In, elem_of_map_to_list.
Qed.

Lemma size_document_ids (c : Collection) : (size (document_ids c) <= size c)%nat.
Proof.
  unfold document_ids, content_id_set.
  etransitivity; [apply size_content_id_fold|].
  rewrite size_empty. unfold get_metadatas.
  by rewrite length_map, length_map_to_list.
Qed.

(** What [get_collection_stats] computes. *)
Lemma get_collection_stats_run (user_id : str) (w : World) :
  get_collection_stats user_id w
  = (Ok match collections w !! collection_name user_id with
        | Some c => stats_of c
        | None => {| stat_total_chunks := 0; stat_unique_documents := 0 |}
        end, w).
Proof.
  unfold get_collection_stats, try_except, bind, get_user_collection,
    collection_count, read_collection.
  destruct (collections w !! collection_name user_id) as [c|] eqn:Hc; [|done].
  simpl. rewrite Hc. simpl. by rewrite Hc.
Qed.

Lemma document_ids_after_delete (c : Collection) (cid : str) :
  document_ids (chunks_not_of cid c) = document_ids c ∖ {[cid]}.
Proof.
  apply set_eq. intros x.
  rewrite elem_of_difference, elem_of_singleton, !elem_of_document_ids. split.
  - intros [id [entry [Hl Hc]]]. unfold chunks_not_of in Hl.
    apply map_lookup_filter_Some in Hl as [Hl Hne]. simpl in Hne.
    split; [by exists id, entry | congruence].
  - intros [[id [entry [Hl Hc]]] Hne]. exists id, entry. split; [|done].
    unfold chunks_not_of. apply map_lookup_filter_Some. split; [done|].
    simpl. congruence.
Qed.

End Statistics.

(** X9: [get_collection_stats] never raises and changes nothing; it does
    not tell a user without a collection from a user with an empty one
    (both get zeros); the number of documents is at most the number of
    chunks, and is zero exactly when there is no chunk. *)
Theorem get_collection_stats_bounds (user_id : str) (w : World) :
  exists stats,
    get_collection_stats user_id w = (Ok stats, w)
    /\ stat_total_chunks stats = VectorStore.count (collection_of w user_id)
    /\ 0 <= stat_unique_documents stats <= stat_total_chunks stats
    /\ (stat_unique_documents stats = 0 <-> stat_total_chunks stats = 0).
Proof.
  rewrite get_collection_stats_run. eexists. split; [reflexivity|].
  unfold collection_of.
  destruct (collections w !! collection_name user_id) as [c|]; simpl; [|done].
  pose proof (size_document_ids c) as Hle. unfold VectorStore.count.
  split_and!; [done | lia | lia |]. split.
  - intros H0. assert (Hs : size (document_ids c) = 0%nat) by lia.
    apply size_empty_iff in Hs.
    destruct (map_choose_or_empty c) as [[id [entry Hl]] | ->];
      [|by rewrite map_size_empty].
    exfalso. apply (not_elem_of_empty (C := gset str) (content_id (metadata entry))).
    rewrite <- Hs. apply elem_of_document_ids. by exists id, entry.
  - intros H0. assert (Hs : size c = 0%nat) by lia.
    apply map_size_empty_iff in Hs. by subst.
Qed.

(** X10: after [delete_document], the statistics of the user have as
    many chunks fewer as the document had, and one document fewer if the
    document had a chunk (none fewer otherwise). *)
Theorem stats_after_delete (user_id cid : str) (w : World) (c : Collection) :
  collections w !! collection_name user_id = Some c ->
  exists w' before after,
    get_collection_stats user_id w = (Ok before, w)
    /\ delete_document user_id cid w = (Ok tt, w')
    /\ get_collection_stats user_id w' = (Ok after, w')
    /\ stat_total_chunks after
       = stat_total_chunks before - VectorStore.count (chunks_of cid c)
    /\ stat_unique_documents after
       = stat_unique_documents before
         - (if decide (chunks_of cid c = ∅) then 0 else 1).
Proof.
  intros Hc. destruct (delete_document_run user_id cid w c Hc)
    as [w' (Hdel & _ & Hcols)].
  exists w'. rewrite !get_collection_stats_run, Hc, Hcols, lookup_insert_eq.
  eexists _, _. split_and!; [done | done | done | apply count_split |].
  unfold stats_of. simpl. rewrite document_ids_after_delete.
  destruct (decide (chunks_of cid c = ∅)) as [He|Hne].
  - assert (Hnot : cid ∉ document_ids c).
    { intros Hin. apply elem_of_document_ids in Hin as [id [entry [Hl Hcid]]].
      assert (Hg : chunks_of cid c !! id = Some entry).
      { by apply map_lookup_filter_Some. }
      by rewrite He in Hg. }
    assert (Heq : document_ids c ∖ {[cid]} = document_ids c) by set_solver.
    rewrite Heq. lia.
  - assert (Hin : cid ∈ document_ids c).
    { destruct (map_choose _ Hne) as [id [entry Hl]]. unfold chunks_of in Hl.
      apply map_lookup_filter_Some in Hl as [Hl Hcid].
      apply elem_of_document_ids. by exists id, entry. }
    rewrite size_difference by set_solver. rewrite size_singleton.
    assert (0 < size (document_ids c))%nat.
    { destruct (size (document_ids c)) eqn:Hs; [|lia].
      apply size_empty_iff in Hs. set_solver. }
    lia.
Qed.

Lemma stats_after_delete_two_documents :
  exists w' before after,
    get_collection_stats (Py.lit "u1") (Scenario.world_of Scenario.two_documents)
    = (Ok before, Scenario.world_of Scenario.two_documents)
    /\ delete_document (Py.lit "u1") (Py.lit "doc-a")
         (Scenario.world_of Scenario.two_documents) = (Ok tt, w')
    /\ get_collection_stats (Py.lit "u1") w' = (Ok after, w')
    /\ stat_total_chunks after
       = stat_total_chunks before
         - VectorStore.count (chunks_of (Py.lit "doc-a") Scenario.two_documents)
    /\ stat_unique_documents after
       = stat_unique_documents before
         - (if decide (chunks_of (Py.lit "doc-a") Scenario.two_documents = ∅)
            then 0 else 1).
Proof.
  apply (stats_after_delete (Py.lit "u1") (Py.lit "doc-a")
           (Scenario.world_of Scenario.two_documents) Scenario.two_documents).
  reflexivity.
Defined.

(** The statistics against the code, on two documents of three chunks. *)
Example get_collection_stats_two_documents :
  get_collection_stats (Py.lit "u1") (Scenario.world_of Scenario.two_documents)
  = (Ok {| stat_total_chunks := 3; stat_unique_documents := 2 |},
     Scenario.world_of Scenario.two_documents)
  /\ get_collection_stats (Py.lit "u2") (Scenario.world_of Scenario.two_documents)
     = (Ok {| stat_total_chunks := 0; stat_unique_documents := 0 |},
        Scenario.world_of Scenario.two_documents).
Proof. split; by vm_compute. Qed.

Lemma stats_of_empty :
  stats_of ∅ = {| stat_total_chunks := 0; stat_unique_documents := 0 |}.
Proof.
  unfold stats_of, VectorStore.count, document_ids, get_metadatas, content_id_set.
  rewrite map_to_list_empty. simpl. by rewrite map_size_empty.
Qed.

Lemma stats_of_collection (user_id : str) (w : World) :
  get_collection_stats user_id w = (Ok (stats_of (collection_of w user_id)), w).
Proof.
  rewrite get_collection_stats_run. unfold collection_of.
  destruct (collections w !! collection_name user_id); simpl; [done|].
  by rewrite stats_of_empty.
Qed.

(** X11: after a successful [add_document] under a content identifier
    that no stored chunk carries and whose chunk identifiers are not in
    use, the statistics of the user have one document more and as many
    chunks more as the content was cut into. *)
Theorem stats_after_add
    (svc : Services) (embedding_model : EmbeddingModel)
    (valid_name : str -> bool)
    (validate_batch : Collection -> list str -> list (list float) ->
                      list str -> list Metadata -> result unit)
    (new_id user_id content source_label type_label : str) (w : World)
    (chunks : list str) (embeddings : list (list float)) :
  10 <= Py.len (Py.strip content) ->
  user_id <> [] ->
  is_Some (collections w !! collection_name user_id)
  \/ valid_name (collection_name user_id) = true ->
  Chunker.chunk_text content = Some chunks ->
  generate_embeddings svc embedding_model chunks = Ok embeddings ->
  length embeddings = length chunks ->
  validate_batch (collection_of w user_id) (chunk_ids new_id chunks) embeddings
    chunks (chunk_metadatas new_id source_label type_label chunks) = Ok tt ->
  (forall id entry, collection_of w user_id !! id = Some entry ->
                    content_id (metadata entry) <> new_id) ->
  (forall id, id ∈ chunk_ids new_id chunks -> collection_of w user_id !! id = None) ->
  exists w' before after,
    get_collection_stats user_id w = (Ok before, w)
    /\ add_document svc embedding_model valid_name validate_batch
         new_id user_id content source_label type_label w = Some (Ok new_id, w')
    /\ get_collection_stats user_id w' = (Ok after, w')
    /\ stat_total_chunks after
       = stat_total_chunks before + Z.of_nat (length chunks)
    /\ stat_unique_documents after = stat_unique_documents before + 1.
Proof.
  intros Hvalid Huser Hstore Hchunks Hemb Hlen Hacc Hnew Hfresh.
  pose proof (validated_chunks_nonempty content chunks Hvalid Hchunks) as Hne.
  destruct (add_document_run svc embedding_model valid_name validate_batch
              new_id user_id content source_label type_label w chunks embeddings)
    as [w' (Hrun & Hcalls & Hcols)]; try done.
  fold (collection_of w user_id) in Hrun, Hcols. rewrite Hacc in Hrun, Hcols.
  set (c0 := collection_of w user_id) in *.
  set (c' := insert_entries c0 _) in *.
  assert (Hc' : collection_of w' user_id = c').
  { unfold collection_of. by rewrite Hcols, lookup_insert_eq. }
  exists w', (stats_of c0), (stats_of c').
  rewrite !stats_of_collection, Hc'. fold c0.
  split_and!; [done | done | done | |].
  - unfold stats_of. simpl.
    by apply (stored_count new_id source_label type_label chunks embeddings Hlen).
  - unfold stats_of. simpl.
    assert (Hids : document_ids c' = document_ids c0 ∪ {[new_id]}).
    { apply set_eq. intros x.
      rewrite elem_of_union, elem_of_singleton, !elem_of_document_ids. split.
      - intros [id [entry [Hl Hx]]].
        destruct (decide (id ∈ chunk_ids new_id chunks)) as [Hin|Hout].
        + right. rewrite <- Hx.
          by apply (stored_content_id new_id source_label type_label chunks
                      embeddings Hlen c0 id entry).
        + left. exists id, entry. split; [|done].
          by rewrite <- (stored_frame new_id source_label type_label chunks
                           embeddings Hlen c0 id Hout).
      - intros [[id [entry [Hl Hx]]] | ->].
        + exists id, entry. split; [|done]. unfold c'.
          rewrite (stored_frame new_id source_label type_label chunks
                     embeddings Hlen c0 id); [done|].
          intros Hin. by rewrite (Hfresh id Hin) in Hl.
        + destruct chunks as [|chunk rest] eqn:Hch; [done|].
          destruct (stored_lookup new_id source_label type_label (chunk :: rest)
                      embeddings Hlen c0 0 chunk eq_refl) as [vector [_ Hs]].
          by eexists _, _. }
    rewrite Hids, size_union, size_singleton; [lia|].
    apply disjoint_singleton_r. intros Hin.
    apply elem_of_document_ids in Hin as [id [entry [Hl Hx]]].
    by apply (Hnew id entry).
Qed.

Lemma stats_after_add_sky :
  exists w' before after,
    get_collection_stats (Py.lit "u1") Scenario.fresh = (Ok before, Scenario.fresh)
    /\ add_document Scenario.echo NoModel any_name any_batch
         (Py.lit "doc-z") (Py.lit "u1") Scenario.sky_text (Py.lit "notes.txt")
         (Py.lit "text/plain") Scenario.fresh = Some (Ok (Py.lit "doc-z"), w')
    /\ get_collection_stats (Py.lit "u1") w' = (Ok after, w')
    /\ stat_total_chunks after = stat_total_chunks before + 1
    /\ stat_unique_documents after = stat_unique_documents before + 1.
Proof.
  apply (stats_after_add Scenario.echo NoModel any_name any_batch
           (Py.lit "doc-z") (Py.lit "u1") Scenario.sky_text (Py.lit "notes.txt")
           (Py.lit "text/plain") Scenario.fresh [Scenario.sky_text]
           (hash_vectors [Scenario.sky_text]));
    [by vm_compute | done | by right | by vm_compute | by vm_compute | done
    | done | |].
  - intros id entry Hl.
    change (collection_of Scenario.fresh (Py.lit "u1")) with (∅ : Collection) in Hl.
    by rewrite lookup_empty in Hl.
  - intros id _. apply lookup_empty.
Defined.

(** ** Deletion, again *)

Lemma world_eq (w1 w2 : World) :
  collections w1 = collections w2 -> generate_calls w1 = generate_calls w2 ->
  w1 = w2.
Proof. destruct w1, w2. simpl. by intros -> ->. Qed.

Lemma chunks_of_after_delete (c : Collection) (cid : str) :
  chunks_of cid (chunks_not_of cid c) = ∅.
Proof.
  apply map_empty. intros id. unfold chunks_of, chunks_not_of.
  apply map_lookup_filter_None. right. intros entry Hl. simpl.
  by apply map_lookup_filter_Some in Hl as [_ Hne].
Qed.

Lemma chunks_not_of_comm (c : Collection) (cid1 cid2 : str) :
  chunks_not_of cid1 (chunks_not_of cid2 c)
  = chunks_not_of cid2 (chunks_not_of cid1 c).
Proof.
  unfold chunks_not_of. rewrite !map_filter_filter.
  apply map_filter_ext. intros id entry _. simpl. tauto.
Qed.

(** X12: a user without a collection: [delete_document] raises, where
    [get_collection_stats] answers with zeros and [search_relevant_chunks]
    with the empty list; none of the three changes the world, and none
    creates the collection. *)
Theorem methods_without_collection (svc : Services) (embedding_model : EmbeddingModel)
    (user_id cid query : str) (top_k : Z) (w : World) :
  collections w !! collection_name user_id = None ->
  (exists e, delete_document user_id cid w = (Raise e, w))
  /\ get_collection_stats user_id w
     = (Ok {| stat_total_chunks := 0; stat_unique_documents := 0 |}, w)
  /\ search_relevant_chunks svc embedding_model user_id query top_k w = (Ok [], w).
Proof.
  intros Hc. split_and!.
  - unfold delete_document, try_except, bind.
    rewrite (get_user_collection_missing _ _ Hc). by eexists.
  - by rewrite get_collection_stats_run, Hc.
  - by rewrite search_relevant_chunks_run, Hc.
Qed.

Lemma methods_without_collection_fresh :
  (exists e, delete_document (Py.lit "u2") (Py.lit "doc-a") Scenario.fresh
             = (Raise e, Scenario.fresh))
  /\ get_collection_stats (Py.lit "u2") Scenario.fresh
     = (Ok {| stat_total_chunks := 0; stat_unique_documents := 0 |}, Scenario.fresh)
  /\ search_relevant_chunks Scenario.echo GeminiEmbedding (Py.lit "u2")
       (Py.lit "What color is the sky?") 5 Scenario.fresh
     = (Ok [], Scenario.fresh).
Proof.
  apply (methods_without_collection Scenario.echo GeminiEmbedding (Py.lit "u2")
           (Py.lit "doc-a") (Py.lit "What color is the sky?") 5 Scenario.fresh).
  reflexivity.
Defined.

(** X13: [delete_document] is idempotent: deleting the same document a
    second time returns without an error and leaves the world exactly as
    the first deletion left it. *)
Theorem delete_document_idempotent (user_id cid : str) (w : World) (c : Collection) :
  collections w !! collection_name user_id = Some c ->
  exists w',
    delete_document user_id cid w = (Ok tt, w')
    /\ delete_document user_id cid w' = (Ok tt, w').
Proof.
  intros Hc. destruct (delete_document_run user_id cid w c Hc)
    as [w1 (Hdel & Hcalls & Hcols)].
  exists w1. split; [done|].
  destruct (delete_document_run user_id cid w1 (chunks_not_of cid c))
    as [w2 (Hdel2 & Hcalls2 & Hcols2)].
  { by rewrite Hcols, lookup_insert_eq. }
  rewrite Hdel2. f_equal. apply world_eq; [|done].
  rewrite Hcols2, (chunks_not_of_all _ _ (chunks_of_after_delete c cid)).
  apply insert_id. by rewrite Hcols, lookup_insert_eq.
Qed.

Lemma delete_document_idempotent_two_documents :
  exists w',
    delete_document (Py.lit "u1") (Py.lit "doc-a")
      (Scenario.world_of Scenario.two_documents) = (Ok tt, w')
    /\ delete_document (Py.lit "u1") (Py.lit "doc-a") w' = (Ok tt, w').
Proof.
  apply (delete_document_idempotent (Py.lit "u1") (Py.lit "doc-a")
           (Scenario.world_of Scenario.two_documents) Scenario.two_documents).
  reflexivity.
Defined.

(** X14: deletions commute: deleting two documents of a user in one
    order or the other leaves the same world. *)
Theorem delete_document_commutes (user_id cid1 cid2 : str) (w : World) (c : Collection) :
  collections w !! collection_name user_id = Some c ->
  exists w1 w2 w',
    delete_document user_id cid1 w = (Ok tt, w1)
    /\ delete_document user_id cid2 w1 = (Ok tt, w')
    /\ delete_document user_id cid2 w = (Ok tt, w2)
    /\ delete_document user_id cid1 w2 = (Ok tt, w').
Proof.
  intros Hc.
  destruct (delete_document_run user_id cid1 w c Hc) as [w1 (Hd1 & Hn1 & Hc1)].
  destruct (delete_document_run user_id cid2 w c Hc) as [w2 (Hd2 & Hn2 & Hc2)].
  destruct (delete_document_run user_id cid2 w1 (chunks_not_of cid1 c))
    as [w12 (Hd12 & Hn12 & Hc12)]; [by rewrite Hc1, lookup_insert_eq|].
  destruct (delete_document_run user_id cid1 w2 (chunks_not_of cid2 c))
    as [w21 (Hd21 & Hn21 & Hc21)]; [by rewrite Hc2, lookup_insert_eq|].
  exists w1, w2, w12. split_and!; [done | done | done |].
  rewrite Hd21. f_equal. apply world_eq; [|congruence].
  rewrite Hc21, Hc12, Hc1, Hc2, !insert_insert_eq.
  by rewrite chunks_not_of_comm.
Qed.

Lemma delete_document_commutes_two_documents :
  exists w1 w2 w',
    delete_document (Py.lit "u1") (Py.lit "doc-a")
      (Scenario.world_of Scenario.two_documents) = (Ok tt, w1)
    /\ delete_document (Py.lit "u1") (Py.lit "doc-b") w1 = (Ok tt, w')
    /\ delete_document (Py.lit "u1") (Py.lit "doc-b")
         (Scenario.world_of Scenario.two_documents) = (Ok tt, w2)
    /\ delete_document (Py.lit "u1") (Py.lit "doc-a") w2 = (Ok tt, w').
Proof.
  apply (delete_document_commutes (Py.lit "u1") (Py.lit "doc-a") (Py.lit "doc-b")
           (Scenario.world_of Scenario.two_documents) Scenario.two_documents).
  reflexivity.
Defined.

(** ** Embedding tiers *)

Section EmbeddingTiers.

Variable svc : Services.



End EmbeddingTiers.




(** The same batch, evaluated: the first text has its hash-based vector,
    the second the vector of the remote service. *)
Example generate_embeddings_quota_batch :
  generate_embeddings (embedding_services (quota_for (Py.lit "sky"))) GeminiEmbedding
    [Py.lit "The sky is blue."; Py.lit "Grass is green."]
  = Ok [hash_vector (Py.lit "The sky is blue."); [0.5; 0.25]%float].
Proof. by vm_compute. Qed.



(** ** The orchestrator, path by path *)

Section OrchestratorPaths.

Variable svc : Services.
Variable embedding_model : EmbeddingModel.

Lemma general_response_text (query : str) (w : World) :
  generate_general_response svc query w
  = (Ok (general_text svc query (generate_calls w)), count_call w).
Proof. apply generate_general_response_run. Qed.

Lemma check_collection_run (query user_id : str) (w : World) :
  check_collection svc query user_id w
  = if VectorStore.count (collection_of w user_id) =? 0
    then (Ok (Some (general_text svc query (generate_calls w), [])), count_call w)
    else (Ok None, w).
Proof.
  unfold check_collection, try_except, bind, get_user_collection, collection_of.
  destruct (collections w !! collection_name user_id) as [c|] eqn:Hc; simpl.
  - unfold collection_count, read_collection. rewrite Hc.
    destruct (VectorStore.count c =? 0); [|done].
    by rewrite general_response_text.
  - by rewrite general_response_text.
Qed.

Lemma search_retrieved (user_id query : str) (w : World) :
  search_relevant_chunks svc embedding_model user_id query default_top_k w
  = (Ok (retrieved_chunks svc embedding_model user_id query w), w).
Proof. unfold retrieved_chunks. by rewrite search_relevant_chunks_run. Qed.

(** The paths that end in the general response. *)
Lemma generate_rag_response_fallback (query user_id : str) (w : World) :
  VectorStore.count (collection_of w user_id) = 0
  \/ (assemble (retrieved_chunks svc embedding_model user_id query w)).1 = [] ->
  generate_rag_response svc embedding_model query user_id w
  = (Ok (general_text svc query (generate_calls w), []), count_call w).
Proof.
  intros H. unfold generate_rag_response, try_except, bind.
  rewrite check_collection_run.
  destruct (VectorStore.count (collection_of w user_id) =? 0) eqn:Hn; [done|].
  destruct H as [H | H]; [lia|]. rewrite search_retrieved.
  destruct (retrieved_chunks svc embedding_model user_id query w) as [|chunk rest];
    [by rewrite general_response_text|].
  destruct (assemble (chunk :: rest)) as [parts sources]. simpl in H. subst parts.
  by rewrite general_response_text.
Qed.

(** The path through the grounded generation. *)
Lemma generate_rag_response_grounded (query user_id : str) (w : World) :
  let relevant_chunks := retrieved_chunks svc embedding_model user_id query w in
  let context := Py.join (newline ++ newline) (assemble relevant_chunks).1 in
  VectorStore.count (collection_of w user_id) <> 0 ->
  (assemble relevant_chunks).1 <> [] ->
  generate_rag_response svc embedding_model query user_id w
  = match generate_content svc (generate_calls w) (rag_prompt context query) with
    | Ok response => (Ok (response, (assemble relevant_chunks).2), count_call w)
    | Raise e =>
        (Ok (if Py.contains (Py.lit "quota") (Py.lower e)
             then general_text svc query (S (generate_calls w)) ++ quota_note
             else general_text svc query (S (generate_calls w)), []),
         count_call (count_call w))
    end.
Proof.
  intros relevant_chunks context Hn Hparts.
  unfold generate_rag_response, try_except, bind.
  rewrite check_collection_run.
  destruct (VectorStore.count (collection_of w user_id) =? 0) eqn:Hc; [lia|].
  rewrite search_retrieved. fold relevant_chunks. unfold context. clear context.
  destruct relevant_chunks as [|chunk rest]; [done|].
  destruct (assemble (chunk :: rest)) as [parts sources]. simpl in *.
  destruct parts as [|part parts]; [done|].
  unfold gemini_generate.
  destruct (generate_content svc (generate_calls w) _) as [response|e]; [done|].
  by rewrite general_response_text.
Qed.

End OrchestratorPaths.

(** X18: a query never changes the store and costs one or two calls of
    the generation service.  It costs two exactly when the grounded
    generation was attempted (the collection of the user is not empty and
    at least one retrieved chunk fits in the context) and raised; in every
    other case it costs one.  An answer that comes with sources took one
    call, and an answer after two calls has no sources. *)
Theorem generate_rag_response_cost (svc : Services) (embedding_model : EmbeddingModel)
    (query user_id : str) (w : World) :
  exists response sources w',
    generate_rag_response svc embedding_model query user_id w
    = (Ok (response, sources), w')
    /\ collections w' = collections w
    /\ (generate_calls w' = S (generate_calls w)
        \/ generate_calls w' = S (S (generate_calls w)))
    /\ (generate_calls w' = S (S (generate_calls w))
        <-> VectorStore.count (collection_of w user_id) <> 0
            /\ (assemble (retrieved_chunks svc embedding_model user_id query w)).1 <> []
            /\ exists e,
                 generate_content svc (generate_calls w)
                   (rag_prompt
                      (Py.join (newline ++ newline)
                         (assemble
                            (retrieved_chunks svc embedding_model user_id query w)).1)
                      query)
                 = Raise e)
    /\ (sources <> [] -> generate_calls w' = S (generate_calls w)).
Proof.
  destruct (decide (VectorStore.count (collection_of w user_id) = 0)) as [Hz|Hn].
  { rewrite generate_rag_response_fallback by by left.
    eexists _, _, _. split; [reflexivity|]. simpl.
    split_and!; [done | by left | | done].
    split; [lia | by intros [? _]]. }
  destruct (decide ((assemble (retrieved_chunks svc embedding_model user_id query w)).1
                    = [])) as [He|Hp].
  { rewrite generate_rag_response_fallback by by right.
    eexists _, _, _. split; [reflexivity|]. simpl.
    split_and!; [done | by left | | done].
    split; [lia | by intros (_ & ? & _)]. }
  rewrite generate_rag_response_grounded by done.
  destruct (generate_content svc (generate_calls w) _) as [response|e] eqn:Hg.
  - eexists _, _, _. split; [reflexivity|]. simpl.
    split_and!; [done | by left | | done].
    split; [lia | by intros (_ & _ & e & He)].
  - eexists _, _, _. split; [reflexivity|]. simpl.
    split_and!; [done | by right | | done].
    split; [|done]. intros _. split_and!; [done | done | by exists e].
Qed.

(** X19: sources are returned only with a grounded answer: when
    [generate_rag_response] returns a non-empty source list, the response
    is the answer of the generation service to the prompt built from the
    included chunks, the sources are those of the included chunks, and the
    service was called once. *)
Theorem sources_come_with_grounded_answer (svc : Services)
    (embedding_model : EmbeddingModel) (query user_id response : str)
    (sources : list SourceRef) (w w' : World) :
  generate_rag_response svc embedding_model query user_id w
  = (Ok (response, sources), w') ->
  sources <> [] ->
  sources = (assemble (retrieved_chunks svc embedding_model user_id query w)).2
  /\ generate_content svc (generate_calls w)
       (rag_prompt
          (Py.join (newline ++ newline)
             (assemble (retrieved_chunks svc embedding_model user_id query w)).1)
          query)
     = Ok response
  /\ w' = count_call w.
Proof.
  intros Hrun Hsources.
  destruct (decide (VectorStore.count (collection_of w user_id) = 0)) as [Hz|Hn].
  { rewrite generate_rag_response_fallback in Hrun by by left. congruence. }
  destruct (decide ((assemble (retrieved_chunks svc embedding_model user_id query w)).1
                    = [])) as [He|Hp].
  { rewrite generate_rag_response_fallback in Hrun by by right. congruence. }
  rewrite generate_rag_response_grounded in Hrun by done.
  destruct (generate_content svc (generate_calls w) _) as [answer|e];
    [|congruence].
  by injection Hrun as <- <- <-.
Qed.

Lemma sources_come_with_grounded_answer_sky :
  [{| ref_source := Py.lit "notes.txt"; ref_content_type := Py.lit "text/plain";
      relevance_score := 0.75%float |}]
  = (assemble (retrieved_chunks (Scenario.ranked [Scenario.sky_hit]) GeminiEmbedding
                 (Py.lit "u1") (Py.lit "What color is the sky?") Scenario.sky_world)).2
  /\ generate_content (Scenario.ranked [Scenario.sky_hit])
       (generate_calls Scenario.sky_world)
       (rag_prompt
          (Py.join (newline ++ newline)
             (assemble
                (retrieved_chunks (Scenario.ranked [Scenario.sky_hit]) GeminiEmbedding
                   (Py.lit "u1") (Py.lit "What color is the sky?")
                   Scenario.sky_world)).1)
          (Py.lit "What color is the sky?"))
     = Ok (rag_prompt Scenario.sky_text (Py.lit "What color is the sky?"))
  /\ count_call Scenario.sky_world = count_call Scenario.sky_world.
Proof.
  apply (sources_come_with_grounded_answer (Scenario.ranked [Scenario.sky_hit])
           GeminiEmbedding (Py.lit "What color is the sky?") (Py.lit "u1")
           (rag_prompt Scenario.sky_text (Py.lit "What color is the sky?"))
           [{| ref_source := Py.lit "notes.txt";
               ref_content_type := Py.lit "text/plain";
               relevance_score := 0.75%float |}]
           Scenario.sky_world (count_call Scenario.sky_world));
    [by vm_compute | done].
Defined.

(** X20: when the grounded generation fails, the answer is the general
    response of a second call, with no sources; the note about API limits
    is appended exactly when the text of the failure has "quota" in it (in
    any case of letters), so not for a failure that only says "429". *)
Theorem grounded_failure_falls_back (svc : Services)
    (embedding_model : EmbeddingModel) (query user_id e : str) (w : World) :
  VectorStore.count (collection_of w user_id) <> 0 ->
  (assemble (retrieved_chunks svc embedding_model user_id query w)).1 <> [] ->
  generate_content svc (generate_calls w)
    (rag_prompt
       (Py.join (newline ++ newline)
          (assemble (retrieved_chunks svc embedding_model user_id query w)).1)
       query)
  = Raise e ->
  generate_rag_response svc embedding_model query user_id w
  = (Ok (if Py.contains (Py.lit "quota") (Py.lower e)
         then general_text svc query (S (generate_calls w)) ++ quota_note
         else general_text svc query (S (generate_calls w)), []),
     count_call (count_call w)).
Proof.
  intros Hn Hp He. rewrite generate_rag_response_grounded by done.
  by rewrite He.
Qed.

Lemma grounded_failure_falls_back_quota :
  generate_rag_response
    (ranked_failing [Scenario.sky_hit] (Py.lit "Quota exceeded for this project"))
    GeminiEmbedding (Py.lit "What color is the sky?") (Py.lit "u1")
    Scenario.sky_world
  = (Ok (if Py.contains (Py.lit "quota")
              (Py.lower (Py.lit "Quota exceeded for this project"))
         then general_text
                (ranked_failing [Scenario.sky_hit]
                   (Py.lit "Quota exceeded for this project"))
                (Py.lit "What color is the sky?")
                (S (generate_calls Scenario.sky_world)) ++ quota_note
         else general_text
                (ranked_failing [Scenario.sky_hit]
                   (Py.lit "Quota exceeded for this project"))
                (Py.lit "What color is the sky?")
                (S (generate_calls Scenario.sky_world)), []),
     count_call (count_call Scenario.sky_world)).
Proof.
  apply (grounded_failure_falls_back
           (ranked_failing [Scenario.sky_hit] (Py.lit "Quota exceeded for this project"))
           GeminiEmbedding (Py.lit "What color is the sky?") (Py.lit "u1")
           (Py.lit "Quota exceeded for this project") Scenario.sky_world);
    by vm_compute.
Defined.

(** The two failures side by side: "quota" gets the note, "429" alone
    does not, though both get the same general text. *)
Example grounded_failure_note_cases :
  generate_rag_response
    (ranked_failing [Scenario.sky_hit] (Py.lit "Quota exceeded for this project"))
    GeminiEmbedding (Py.lit "What color is the sky?") (Py.lit "u1")
    Scenario.sky_world
  = (Ok (msg_quota ++ quota_note, []), count_call (count_call Scenario.sky_world))
  /\ generate_rag_response
       (ranked_failing [Scenario.sky_hit] (Py.lit "429 Too Many Requests"))
       GeminiEmbedding (Py.lit "What color is the sky?") (Py.lit "u1")
       Scenario.sky_world
     = (Ok (msg_quota, []), count_call (count_call Scenario.sky_world)).
Proof. split; by vm_compute. Qed.

(** ** The retry loop of [working_main.py] *)

(** X21: [chat_general] of [working_main.py] always answers, with source
    "general", and the error of the model never reaches the caller.  With
    a configured model the text is that of the first attempt that succeeds
    among at most three, every earlier attempt having failed and no later
    one being made; when all three fail it is the fixed apology.  Without a
    model (no API key) it is the fixed apology at once, no attempt being
    made. *)
Theorem chat_general_first_success (gemini_model : option Services) (message : str)
    (w : World) :
  exists text w',
    WorkingMain.chat_general gemini_model message w
    = (Ok (Some (text, Py.lit "general")), w')
    /\ collections w' = collections w
    /\ match gemini_model with
       | None => text = WorkingMain.msg_trouble /\ w' = w
       | Some svc =>
           (exists k,
              (k < WorkingMain.max_retries)%nat
              /\ generate_content svc (generate_calls w + k) message = Ok text
              /\ (forall j, (j < k)%nat ->
                    exists e,
                      generate_content svc (generate_calls w + j) message = Raise e)
              /\ generate_calls w' = (generate_calls w + S k)%nat)
           \/ (text = WorkingMain.msg_trouble
               /\ (forall j, (j < WorkingMain.max_retries)%nat ->
                     exists e,
                       generate_content svc (generate_calls w + j) message = Raise e)
               /\ generate_calls w'
                  = (generate_calls w + WorkingMain.max_retries)%nat)
       end.
Proof.
  destruct gemini_model as [svc|];
    [|by exists WorkingMain.msg_trouble, w].
  unfold WorkingMain.chat_general, WorkingMain.max_retries, try_except, bind. cbn.
  unfold try_except, bind, gemini_generate, ret, raise. cbn.
  destruct (generate_content svc (generate_calls w) message) as [t0|e0] eqn:H0; cbn.
  { eexists _, _. split; [reflexivity|]. split; [done|]. left. exists 0%nat.
    rewrite Nat.add_0_r. split_and!; [lia | done | lia | cbn; lia]. }
  destruct (generate_content svc (S (generate_calls w)) message) as [t1|e1] eqn:H1; cbn.
  { eexists _, _. split; [reflexivity|]. split; [done|]. left. exists 1%nat.
    replace (generate_calls w + 1)%nat with (S (generate_calls w)) by lia.
    split_and!; [lia | done | | cbn; lia].
    intros j Hj. assert (j = 0)%nat as -> by lia. rewrite Nat.add_0_r. eauto. }
  destruct (generate_content svc (S (S (generate_calls w))) message)
    as [t2|e2] eqn:H2; cbn.
  { eexists _, _. split; [reflexivity|]. split; [done|]. left. exists 2%nat.
    replace (generate_calls w + 2)%nat with (S (S (generate_calls w))) by lia.
    split_and!; [lia | done | | cbn; lia].
    intros j Hj. destruct j as [|[|j]]; [| |lia].
    - rewrite Nat.add_0_r. eauto.
    - replace (generate_calls w + 1)%nat with (S (generate_calls w)) by lia. eauto. }
  eexists _, _. split; [reflexivity|]. split; [done|]. right.
  split_and!; [done | | cbn; lia].
  intros j Hj. destruct j as [|[|[|j]]]; [| | |lia].
  - rewrite Nat.add_0_r. eauto.
  - replace (generate_calls w + 1)%nat with (S (generate_calls w)) by lia. eauto.
  - replace (generate_calls w + 2)%nat with (S (S (generate_calls w))) by lia. eauto.
Qed.

(** ** The formatting of the answer of the index *)

Lemma traverse_lookup {A B : Type} (g : A -> result B) (xs : list A) (ys : list B)
    (i : nat) (y : B) :
  traverse g xs = Ok ys -> ys !! i = Some y ->
  exists x, xs !! i = Some x /\ g x = Ok y.
Proof.
  revert ys i. induction xs as [|x xs IH]; intros ys i; simpl.
  - by intros [= <-].
  - destruct (g x) as [y0|] eqn:Hx; [|done].
    destruct (traverse g xs) as [ys'|] eqn:Hxs; [|done].
    intros [= <-]. destruct i as [|i]; simpl.
    + intros [= <-]. by exists x.
    + intros Hy. by apply (IH ys').
Qed.

Lemma enumerate_lookup {A : Type} (l : list A) (i : nat) :
  enumerate l !! i = (fun x => (i, x)) <$> l !! i.
Proof.
  unfold enumerate. rewrite lookup_zip_with.
  destruct (l !! i) as [x|] eqn:Hx; simpl.
  - apply lookup_lt_Some in Hx. by rewrite lookup_seq_lt.
  - by destruct (seq 0 (length l) !! i).
Qed.

(** X22: the chunks [search_relevant_chunks] formats are aligned with the
    answer of the index: when the formatting succeeds there is one chunk
    per document of the first inner list, and the chunk at position [i]
    has the document, the metadata and the distance at position [i] of the
    first inner lists, the distance being 0 when the answer carries no
    distances. *)
Theorem format_results_aligned (results : QueryResult) (chunks : list Chunk) :
  format_results results = Ok chunks ->
  length chunks = length (default [] (head (documents results)))
  /\ forall i chunk, chunks !! i = Some chunk ->
       head (documents results) ≫= (.!! i) = Some (content chunk)
       /\ head (metadatas results) ≫= (.!! i) = Some (chunk_metadata chunk)
       /\ match distances results with
          | [] => distance chunk = 0%float
          | dists :: _ => dists !! i = Some (distance chunk)
          end.
Proof.
  intros H. split.
  { rewrite (format_results_length _ _ H). by destruct (documents results). }
  intros i chunk Hi. unfold format_results in H.
  destruct (documents results) as [|[|doc docs] rest]; [by injection H as <-.. |].
  destruct (traverse_lookup _ _ _ _ _ H Hi) as ([j d] & Hj & Hg).
  rewrite enumerate_lookup in Hj.
  destruct ((doc :: docs) !! i) as [d'|] eqn:Hd; [|done].
  injection Hj as <- <-. unfold index in Hg. simpl in Hg.
  destruct (metadatas results) as [|metas rest_m]; [done|]. simpl in Hg.
  destruct (metas !! i) as [meta|] eqn:Hm; [|done]. simpl in Hg.
  destruct (distances results) as [|dists rest_d]; simpl in Hg.
  - injection Hg as <-. by simpl.
  - destruct (dists !! i) as [dist|] eqn:Hdist; [|done].
    injection Hg as <-. by simpl.
Qed.

Lemma format_results_aligned_sky :
  length [Scenario.sky_hit]
  = length (default [] (head [[Scenario.sky_text]]))
  /\ forall i chunk, [Scenario.sky_hit] !! i = Some chunk ->
       head [[Scenario.sky_text]] ≫= (.!! i) = Some (content chunk)
       /\ head [[chunk_metadata Scenario.sky_hit]] ≫= (.!! i)
          = Some (chunk_metadata chunk)
       /\ [0.25%float] !! i = Some (distance chunk).
Proof.
  apply (format_results_aligned
           {| documents := [[Scenario.sky_text]];
              metadatas := [[chunk_metadata Scenario.sky_hit]];
              distances := [[0.25%float]] |}
           [Scenario.sky_hit]).
  reflexivity.
Defined.

(** X23: hits are returned all or none: when the answer of the index has
    fewer metadata entries than documents, the failure of the formatting
    is caught and [search_relevant_chunks] returns the empty list, not the
    chunks formatted before the failure; the world is left as it was. *)
Theorem search_misaligned_answer (svc : Services) (embedding_model : EmbeddingModel)
    (user_id query : str) (top_k : Z) (w : World) (c : Collection)
    (query_embeddings : list (list float)) (results : QueryResult) :
  collections w !! collection_name user_id = Some c ->
  generate_embeddings svc embedding_model [query] = Ok query_embeddings ->
  query_index svc c query_embeddings top_k = Ok results ->
  (length (default [] (head (metadatas results)))
   < length (default [] (head (documents results))))%nat ->
  search_relevant_chunks svc embedding_model user_id query top_k w = (Ok [], w).
Proof.
  intros Hc Hemb Hq Hshort.
  rewrite search_relevant_chunks_run, Hc, Hemb, Hq. simpl.
  unfold format_results.
  destruct (documents results) as [|[|doc docs] rest]; [simpl in Hshort; lia.. |].
  simpl in Hshort.
  set (metas := default [] (head (metadatas results))) in *.
  destruct (lookup_lt_is_Some_2 (doc :: docs) (length metas)) as [d Hd];
    [simpl; lia|].
  edestruct (traverse_raises
               (fun '(i, doc) =>
                  metas ← index (metadatas results) 0;
                  meta ← index metas i;
                  dist ← match distances results with
                         | [] => Ok 0%float
                         | dists :: _ => index dists i
                         end;
                  mret {| content := doc; chunk_metadata := meta; distance := dist |})
               (enumerate (doc :: docs)) (length metas, d)) as [e' He'].
  - apply list_elem_of_In, (list_elem_of_lookup_2 _ (length metas)).
    by rewrite enumerate_lookup, Hd.
  - unfold index. subst metas.
    destruct (metadatas results) as [|metas rest_m]; simpl; [reflexivity|].
    by rewrite (lookup_ge_None_2 metas (length metas)).
  - by rewrite He'.
Qed.

Lemma search_misaligned_answer_short_metadata :
  search_relevant_chunks short_metadata NoModel (Py.lit "u1")
    (Py.lit "What color is the sky?") default_top_k Scenario.sky_world
  = (Ok [], Scenario.sky_world).
Proof.
  apply (search_misaligned_answer short_metadata NoModel (Py.lit "u1")
           (Py.lit "What color is the sky?") default_top_k Scenario.sky_world
           {[ Py.lit "doc-a_chunk_0"
              := Scenario.sample_entry (Py.lit "doc-a") 0 Scenario.sky_text ]}
           (hash_vectors [Py.lit "What color is the sky?"])
           {| documents := [[Scenario.sky_text; Py.lit "Grass is green."]];
              metadatas := [[chunk_metadata Scenario.sky_hit]];
              distances := [] |}).
  - reflexivity.
  - by vm_compute.
  - reflexivity.
  - simpl. lia.
Defined.

(** ** One collection per user *)

Lemma collection_name_inj (user_id other : str) :
  collection_name user_id = collection_name other -> user_id = other.
Proof. unfold collection_name. intros H. by simplify_list_eq. Qed.

(** Whatever [add_document] does, it returns, and the collections of the
    world it leaves differ from those it found at most in the one of the
    user. *)
Lemma add_document_frame (svc : Services) (embedding_model : EmbeddingModel)
    (valid_name : str -> bool)
    (validate_batch : Collection -> list str -> list (list float) -> list str
                      -> list Metadata -> result unit)
    (new_id user_id content source_label type_label : str) (w : World) :
  exists r w',
    add_document svc embedding_model valid_name validate_batch
      new_id user_id content source_label type_label w = Some (r, w')
    /\ generate_calls w' = generate_calls w
    /\ (collections w' = collections w
        \/ exists c, collections w' = <[collection_name user_id := c]> (collections w)).
Proof.
  unfold add_document, try_exceptL, bindL, returning.
  destruct (negb (Py.truthy content) || (Py.len (Py.strip content) <? 10));
    [by eexists _, _; split_and!; [reflexivity | done | left]|].
  destruct (negb (Py.truthy user_id));
    [by eexists _, _; split_and!; [reflexivity | done | left]|].
  rewrite get_or_create_run.
  assert (Hprep : exists r0 w0,
            match collections w !! collection_name user_id with
            | Some _ => (Ok (collection_name user_id), w)
            | None =>
                if valid_name (collection_name user_id) then
                  (Ok (collection_name user_id),
                   {| collections := <[collection_name user_id := ∅]> (collections w);
                      generate_calls := generate_calls w |})
                else
                  (Raise (Py.lit "Invalid collection name " ++ collection_name user_id), w)
            end = (r0, w0)
            /\ generate_calls w0 = generate_calls w
            /\ (r0 = Ok (collection_name user_id) \/ exists e, r0 = Raise e)
            /\ (collections w0 = collections w
                \/ exists c, collections w0
                             = <[collection_name user_id := c]> (collections w))).
  { destruct (collections w !! collection_name user_id) as [c|].
    - eexists _, _. split_and!; [reflexivity | done | by left | by left].
    - destruct (valid_name (collection_name user_id)).
      + eexists _, _. split_and!; [reflexivity | done | by left | right; by eexists].
      + eexists _, _. split_and!; [reflexivity | done | right; by eexists | by left]. }
  destruct Hprep as (r0 & w0 & -> & Hcalls & Hr0 & Hcols).
  destruct Hr0 as [-> | [e ->]];
    [|by eexists _, _; split_and!; [reflexivity | done | done]].
  unfold run_chunk_text.
  assert (Hchunks : exists chunks, Chunker.chunk_text content = Some chunks).
  { destruct (chunk_text_cases content) as [[_ ->] | [_ (ws & _ & ->)]]; by eexists. }
  destruct Hchunks as [chunks ->].
  destruct chunks as [|chunk chunks];
    [by eexists _, _; split_and!; [reflexivity | done | done]|].
  unfold try_except at 1, lift.
  destruct (generate_embeddings svc embedding_model (chunk :: chunks)) as [embeddings|e];
    [|by eexists _, _; split_and!; [reflexivity | done | done]].
  unfold try_except, collection_add, no_collection, raise.
  destruct (collections w0 !! collection_name user_id) as [c|];
    [|by eexists _, _; split_and!; [reflexivity | done | done]].
  destruct (negb _);
    [by eexists _, _; split_and!; [reflexivity | done | done]|].
  destruct (validate_batch c _ embeddings _ _) as [[]|e];
    [|by eexists _, _; split_and!; [reflexivity | done | done]].
  eexists _, _. split_and!; [reflexivity | done |]. simpl. right.
  destruct Hcols as [-> | [c0 ->]]; [by eexists|].
  rewrite insert_insert_eq. by eexists.
Qed.

(** Whatever [delete_document] does, the collections of the world it
    leaves differ from those it found at most in the one of the user. *)
Lemma delete_document_frame (user_id cid : str) (w : World) :
  collections (delete_document user_id cid w).2 = collections w
  \/ exists c, collections (delete_document user_id cid w).2
               = <[collection_name user_id := c]> (collections w).
Proof.
  destruct (collections w !! collection_name user_id) as [c|] eqn:Hc.
  - destruct (delete_document_run user_id cid w c Hc) as (w' & -> & _ & Hcols).
    right. by eexists.
  - left. unfold delete_document, try_except, bind, get_user_collection.
    by rewrite Hc.
Qed.

(** X24: users do not touch each other's documents: [add_document] for
    one user always returns, and neither it nor [delete_document] for that
    user changes, creates or removes the collection of another user,
    whatever they return. *)
Theorem other_users_untouched (svc : Services) (embedding_model : EmbeddingModel)
    (valid_name : str -> bool)
    (validate_batch : Collection -> list str -> list (list float) -> list str
                      -> list Metadata -> result unit)
    (new_id user_id other content source_label type_label cid : str) (w : World) :
  other <> user_id ->
  (exists r w',
     add_document svc embedding_model valid_name validate_batch
       new_id user_id content source_label type_label w = Some (r, w')
     /\ collections w' !! collection_name other
        = collections w !! collection_name other)
  /\ collections (delete_document user_id cid w).2 !! collection_name other
     = collections w !! collection_name other.
Proof.
  intros Hother.
  assert (Hname : collection_name user_id <> collection_name other)
    by (intros H; by apply collection_name_inj in H).
  split.
  - destruct (add_document_frame svc embedding_model valid_name validate_batch
                new_id user_id content source_label type_label w)
      as (r & w' & Hrun & _ & [Hcols | [c Hcols]]);
      exists r, w'; (split; [done|]); rewrite Hcols; [done|].
    by rewrite lookup_insert_ne.
  - destruct (delete_document_frame user_id cid w) as [-> | [c ->]]; [done|].
    by rewrite lookup_insert_ne.
Qed.

Lemma other_users_untouched_sky :
  (exists r w',
     add_document Scenario.echo NoModel any_name any_batch
       (Py.lit "doc-b") (Py.lit "u2") Scenario.sky_text
       (Py.lit "notes.txt") (Py.lit "text/plain") Scenario.sky_world = Some (r, w')
     /\ collections w' !! collection_name (Py.lit "u1")
        = collections Scenario.sky_world !! collection_name (Py.lit "u1"))
  /\ collections (delete_document (Py.lit "u2") (Py.lit "doc-a") Scenario.sky_world).2
       !! collection_name (Py.lit "u1")
     = collections Scenario.sky_world !! collection_name (Py.lit "u1").
Proof.
  apply (other_users_untouched Scenario.echo NoModel any_name any_batch
           (Py.lit "doc-b") (Py.lit "u2") (Py.lit "u1") Scenario.sky_text
           (Py.lit "notes.txt") (Py.lit "text/plain") (Py.lit "doc-a")
           Scenario.sky_world).
  discriminate.
Defined.
